(** * vscode-docker: .NET Core scaffolding, activation wiring and the
      Azure-account poll, embedded and verified

    The development follows the TypeScript sources:

    - [configureWorkspace/configureDotNetCore.ts]: the image formats, the
      four Dockerfile templates, [GetWindowsImageTag], [formatVersion],
      [genDockerFile] and [scaffoldNetCore];
    - [dockerExtension.ts]: [activate] and [FROM_DIRECTIVE_PATTERN];
    - [tree/registries/azure/AzureAccountTreeItem.ts]:
      [refreshNodeWhenAzureExtensionIsInstalled] and
      [loadMoreChildrenImpl];
    - [constants.ts]: [imageTagRegExp] and [FROM_DIRECTIVE_PATTERN].

    JavaScript strings are modelled as [string] (one [ascii] per code
    unit), thrown exceptions and rejected promises as the [Throw] case of
    [result]. *)

From Stdlib Require Import Bool Arith NArith ZArith Lia List.
From Stdlib Require Import Ascii String DecimalString DecimalN.
Import ListNotations.

Local Open Scope list_scope.
Local Open Scope string_scope.

(* ================================================================== *)
(** * Strings *)
(* ================================================================== *)

Module Str.

(** The double quote, the line feed and the backslash. *)
Definition dquote : string := String (ascii_of_nat 34) EmptyString.
Definition newline : string := String (ascii_of_nat 10) EmptyString.
Definition backslash : string := String (ascii_of_nat 92) EmptyString.

(** [s.slice(n)] *)
Fixpoint drop (n : nat) (s : string) : string :=
  match n, s with
  | O, _ => s
  | S k, String _ s' => drop k s'
  | S _, EmptyString => EmptyString
  end.

(** [s.slice(0, n)] *)
Fixpoint take (n : nat) (s : string) : string :=
  match n, s with
  | S k, String c s' => String c (take k s')
  | _, _ => EmptyString
  end.

(** Every code unit of [s] satisfies [p]. *)
Fixpoint all (p : ascii -> bool) (s : string) : bool :=
  match s with
  | EmptyString => true
  | String c s' => p c && all p s'
  end.

(** [c] does not occur in [s]. *)
Definition lacks (c : ascii) (s : string) : bool :=
  all (fun d => negb (Ascii.eqb c d)) s.

(** The lines of a template literal, each ended by a line feed. *)
Fixpoint unlines (ls : list string) : string :=
  match ls with
  | [] => EmptyString
  | l :: ls' => l ++ newline ++ unlines ls'
  end.

(** [t] is a suffix of [s]. *)
Definition ends_with (s t : string) : Prop := exists pre, s = pre ++ t.

(** [t] is a prefix of [s]. *)
Definition starts_with (s t : string) : Prop := exists post, s = t ++ post.

End Str.

(* ================================================================== *)
(** * Results of calls that may throw *)
(* ================================================================== *)

(** What a call can throw: [new Error(msg)], an [assert.fail(msg)], the
    [TypeError] of the semver library, or the rejection of an awaited
    promise of the host. *)
Inductive exn : Type :=
| Error (msg : string)
| AssertionError (msg : string)
| TypeError (msg : string)
| Rejected (what : string).

Inductive result (A : Type) : Type :=
| Ok (a : A)
| Throw (e : exn).

Arguments Ok {A} a.
Arguments Throw {A} e.

Definition bind {A B : Type} (r : result A) (k : A -> result B) : result B :=
  match r with
  | Ok a => k a
  | Throw e => Throw e
  end.

Declare Scope result_scope.
Delimit Scope result_scope with result.
Notation "'let*' x := r 'in' k" := (bind r (fun x => k))
  (at level 10, x pattern, r at level 100, k at level 200) : result_scope.
Local Open Scope result_scope.

(* ================================================================== *)
(** * [String.prototype.replace] *)
(* ================================================================== *)

Module JS.

(** The replacement text of one match (ECMAScript [GetSubstitution])
    when the pattern has no capture group, as is the case for every
    pattern of this program: [$$] is a dollar sign, [$&] the matched
    text, [$`] the text before the match, [$'] the text after it; any
    other [$] stands for itself. *)
Fixpoint GetSubstitution (matched before after replacement : string)
  : string :=
  match replacement with
  | EmptyString => EmptyString
  | String c r =>
      if Ascii.eqb c "$" then
        match r with
        | EmptyString => String c EmptyString
        | String d r' =>
            if Ascii.eqb d "$" then
              String "$" (GetSubstitution matched before after r')
            else if Ascii.eqb d "&" then
              matched ++ GetSubstitution matched before after r'
            else if Ascii.eqb d "`" then
              before ++ GetSubstitution matched before after r'
            else if Ascii.eqb d "'" then
              after ++ GetSubstitution matched before after r'
            else String c (GetSubstitution matched before after r)
        end
      else String c (GetSubstitution matched before after r)
  end.

(** [s.replace(pat, repl)] with a string pattern: the first occurrence
    only.  [pre] is the text already passed over. *)
Fixpoint replace_from (pat repl pre s : string) : string :=
  if prefix pat s then
    GetSubstitution pat pre (Str.drop (length pat) s) repl
      ++ Str.drop (length pat) s
  else
    match s with
    | EmptyString => EmptyString
    | String c s' =>
        String c (replace_from pat repl (pre ++ String c EmptyString) s')
    end.

Definition replace (pat repl s : string) : string :=
  replace_from pat repl EmptyString s.

(** [s.replace(/pat/g, repl)] where the regular expression is the
    literal, non-empty text [pat] (the [\$] of the source is the
    character [$]): every occurrence, found from left to right, the
    search resuming after each match.  [skip] counts the code units of
    the current match still to pass over. *)
Fixpoint replaceAll_from (pat repl pre : string) (skip : nat) (s : string)
  : string :=
  match s with
  | EmptyString => EmptyString
  | String c s' =>
      match skip with
      | S k => replaceAll_from pat repl (pre ++ String c EmptyString) k s'
      | O =>
          if prefix pat s then
            GetSubstitution pat pre (Str.drop (length pat) s) repl
              ++ replaceAll_from pat repl (pre ++ String c EmptyString)
                   (length pat - 1) s'
          else
            String c
              (replaceAll_from pat repl (pre ++ String c EmptyString) 0 s')
      end
  end.

Definition replaceAll (pat repl s : string) : string :=
  replaceAll_from pat repl EmptyString 0 s.

End JS.

(* ================================================================== *)
(** * Regular expressions *)
(* ================================================================== *)

(** The regular expressions of the sources are sequences of literal
    characters, greedy repetitions [[class]+] of a character class, one
    capture group and the anchors [^] and [$] (no [m] flag).  They are
    matched the way a backtracking engine does it: leftmost start first,
    longest repetition first. *)
Module RegExp.

Inductive atom : Type :=
| Lit (c : ascii)
| Plus (cls : ascii -> bool)
| GroupOpen
| GroupClose
| Bol
| Eol.

Definition regexp : Type := list atom.

Fixpoint lits (s : string) : regexp :=
  match s with
  | EmptyString => []
  | String c s' => Lit c :: lits s'
  end.

(** One or more characters of [cls], as many as possible, giving back
    one at a time while the rest [k] of the expression fails.  [grp] is
    the text consumed since the group was opened. *)
Fixpoint plus {R : Type} (cls : ascii -> bool)
    (k : string -> string -> option R) (grp s : string) : option R :=
  match s with
  | EmptyString => None
  | String c s' =>
      if cls c then
        match plus cls k (grp ++ String c EmptyString) s' with
        | Some r => Some r
        | None => k (grp ++ String c EmptyString) s'
        end
      else None
  end.

(** Match [re] at the start of [s]; [atStart] says whether [s] is the
    whole input.  Returns the captured groups. *)
Fixpoint run (re : regexp) (atStart : bool) (grp : string)
    (caps : list string) (s : string) {struct re} : option (list string) :=
  match re with
  | [] => Some (rev caps)
  | Lit c :: re' =>
      match s with
      | String d s' =>
          if Ascii.eqb c d
          then run re' false (grp ++ String d EmptyString) caps s'
          else None
      | EmptyString => None
      end
  | Plus cls :: re' =>
      plus cls (fun g s' => run re' false g caps s') grp s
  | GroupOpen :: re' => run re' atStart EmptyString caps s
  | GroupClose :: re' => run re' atStart EmptyString (grp :: caps) s
  | Bol :: re' => if atStart then run re' atStart grp caps s else None
  | Eol :: re' =>
      match s with
      | EmptyString => run re' atStart grp caps s
      | String _ _ => None
      end
  end.

Fixpoint search (re : regexp) (atStart : bool) (s : string)
  : option (list string) :=
  match run re atStart EmptyString [] s with
  | Some groups => Some groups
  | None =>
      match s with
      | EmptyString => None
      | String _ s' => search re false s'
      end
  end.

(** [input.match(re)] without its first item (the whole match). *)
Definition groups (re : regexp) (input : string) : option (list string) :=
  search re true input.

Definition test (re : regexp) (input : string) : bool :=
  match groups re input with Some _ => true | None => false end.

(** Character classes. *)
Definition digit (c : ascii) : bool :=
  let n := nat_of_ascii c in (48 <=? n)%nat && (n <=? 57)%nat.
Definition digit_or_dot (c : ascii) : bool :=
  digit c || Ascii.eqb c ".".
Definition not_dot (c : ascii) : bool := negb (Ascii.eqb c ".").
Definition lower_or_underscore (c : ascii) : bool :=
  let n := nat_of_ascii c in
  ((97 <=? n)%nat && (n <=? 122)%nat) || Ascii.eqb c "_".
(** [.]: anything but a line terminator. *)
Definition dot (c : ascii) : bool :=
  let n := nat_of_ascii c in negb ((n =? 10)%nat || (n =? 13)%nat).

End RegExp.

(** Modelled from the spec: [extractRegExGroups] (utils/extractRegExGroups)
    is not among the sources.  As its callers use it, and as the default
    taken for a TargetFramework that does not match requires, it returns
    the capture groups of the first match and [defaults] when the input
    does not match. *)
Definition extractRegExGroups (input : string) (regex : RegExp.regexp)
    (defaults : list string) : list string :=
  match RegExp.groups regex input with
  | Some groups => groups
  | None => defaults
  end.

(** The first element of an array pattern [[x] = ...]; every expression
    of the sources has one group and one default. *)
Definition first (l : list string) : string := hd EmptyString l.

(* ================================================================== *)
(** * The [path] module (POSIX flavour) *)
(* ================================================================== *)

(** [require('path')] as it is on a host that is not Windows: the
    functions of [path.posix], for which [/] is the only separator and
    the only root.  On a Windows host the module is [path.win32], which
    takes the backslash for a separator as well and a drive or UNC
    prefix for a root, whose separator [dirname] keeps.  The statements
    about the project directory and the assembly name that
    [genDockerFile] writes are therefore made for hosts that are not
    Windows. *)
Module path.

Definition is_slash (c : ascii) : bool := Ascii.eqb c "/".
Definition not_slash (c : ascii) : bool := negb (is_slash c).
Definition is_dot (c : ascii) : bool := Ascii.eqb c ".".

Fixpoint dropWhile (p : ascii -> bool) (l : list ascii) : list ascii :=
  match l with
  | [] => []
  | c :: l' => if p c then dropWhile p l' else l
  end.

Fixpoint takeWhile (p : ascii -> bool) (l : list ascii) : list ascii :=
  match l with
  | [] => []
  | c :: l' => if p c then c :: takeWhile p l' else []
  end.

(** The code units of [p] from the last one to the first, the order in
    which the loops of [basename], [dirname] and [extname] visit them. *)
Definition backwards (p : string) : list ascii :=
  rev (list_ascii_of_string p).

Definition forwards (l : list ascii) : string :=
  string_of_list_ascii (rev l).

(** [path.basename(p)]: trailing separators are passed over, then the
    component runs back to the previous separator. *)
Definition basename (p : string) : string :=
  forwards (takeWhile not_slash (dropWhile is_slash (backwards p))).

(** [path.dirname(p)]: the loop runs from the end down to index 1; it
    passes over trailing separators, then over the last component, and
    stops at the separator before it. *)
Definition dirname (p : string) : string :=
  match p with
  | EmptyString => "."
  | String c0 rest =>
      let hasRoot := is_slash c0 in
      match dropWhile not_slash (dropWhile is_slash (backwards rest)) with
      | [] => if hasRoot then "/" else "."
      | _ :: before =>
          if hasRoot && (List.length before =? 0)%nat then "//"
          else String c0 (forwards before)
      end
  end.

(** [path.extname(p)]: from the last dot of the last component, unless
    there is no dot, the component starts with that dot, or the
    component is [..]. *)
Definition extname (p : string) : string :=
  let component := takeWhile not_slash (dropWhile is_slash (backwards p)) in
  let ext := takeWhile (fun c => negb (is_dot c)) component in
  match dropWhile (fun c => negb (is_dot c)) component with
  | [] => EmptyString
  | _ :: [] => EmptyString
  | dot :: _ =>
      if forwards component =? ".." then EmptyString
      else forwards (ext ++ [dot])%list
  end.

End path.

(* ================================================================== *)
(** * The [semver] library *)
(* ================================================================== *)

Module semver.

Record SemVer : Type := { major : N; minor : N; patch : N }.

Definition MAX_LENGTH : nat := 256.
Definition MAX_SAFE_INTEGER : N := 9007199254740991.

(** [n.toString()] for a non-negative integer. *)
Definition toString (n : N) : string :=
  NilEmpty.string_of_uint (N.to_uint n).

Definition digit_value (c : ascii) : N := N.of_nat (nat_of_ascii c - 48).

Fixpoint digits_value (acc : N) (s : string) : N :=
  match s with
  | EmptyString => acc
  | String c s' => digits_value (10 * acc + digit_value c) s'
  end.

(** A numeric identifier [0|[1-9]\d*]. *)
Definition numeric (s : string) : option N :=
  match s with
  | EmptyString => None
  | String c s' =>
      if Str.all RegExp.digit s
         && (negb (Ascii.eqb c "0") || (s' =? EmptyString))
      then Some (digits_value 0 s)
      else None
  end.

(** [s.split('.')] *)
Fixpoint split_dots (cur : string) (s : string) : list string :=
  match s with
  | EmptyString => [cur]
  | String c s' =>
      if Ascii.eqb c "."
      then cur :: split_dots EmptyString s'
      else split_dots (cur ++ String c EmptyString) s'
  end.

(** [new SemVer(version)] in strict mode, for a version without
    pre-release or build part: [genDockerFile] only passes texts made of
    digits and dots.  A text that is not [major.minor.patch] throws. *)
Definition parse (version : string) : result SemVer :=
  if (MAX_LENGTH <? length version)%nat then
    Throw (TypeError "version is longer than 256 characters")
  else
    match map numeric (split_dots EmptyString version) with
    | [Some ma; Some mi; Some pa] =>
        if (MAX_SAFE_INTEGER <? ma)%N then
          Throw (TypeError "Invalid major version")
        else if (MAX_SAFE_INTEGER <? mi)%N then
          Throw (TypeError "Invalid minor version")
        else if (MAX_SAFE_INTEGER <? pa)%N then
          Throw (TypeError "Invalid patch version")
        else Ok {| major := ma; minor := mi; patch := pa |}
    | _ => Throw (TypeError ("Invalid Version: " ++ version))
    end.

(** [a.compare(b)]: major, then minor, then patch. *)
Definition compare (a b : SemVer) : comparison :=
  match (major a ?= major b)%N with
  | Eq =>
      match (minor a ?= minor b)%N with
      | Eq => (patch a ?= patch b)%N
      | c => c
      end
  | c => c
  end.

Definition gte_parsed (a b : SemVer) : bool :=
  match compare a b with Lt => false | _ => true end.

Definition lt_parsed (a b : SemVer) : bool :=
  match compare a b with Lt => true | _ => false end.

(** [semver.gte(a, b)] and [semver.lt(a, b)] parse both sides. *)
Definition gte (a b : string) : result bool :=
  let* va := parse a in
  let* vb := parse b in
  Ok (gte_parsed va vb).

Definition lt (a b : string) : result bool :=
  let* va := parse a in
  let* vb := parse b in
  Ok (lt_parsed va vb).

End semver.

(* ================================================================== *)
(** * configureDotNetCore.ts *)
(* ================================================================== *)

(** The predicates of [utils/osUtils], which read the operating system
    of the host.  [Host] is the state they observe. *)
Class OsUtils (Host : Type) : Type := {
  isWindows : Host -> bool;
  isWindows1019H1OrNewer : Host -> bool;
  isWindows10RS5OrNewer : Host -> bool;
  isWindows10RS4OrNewer : Host -> bool;
  isWindows10RS3OrNewer : Host -> bool
}.

(** The functions imported from [./configure] and [./configUtils], which
    are not among the sources; [ports] may be [undefined]. *)
Class ConfigUtils : Type := {
  getExposeStatements : option (list Z) -> string;
  genCommonDockerIgnoreFile : string -> string
}.

(** .NET Core 1.0 - 2.0 images are published to Docker Hub Registry. *)
Definition LegacyAspNetCoreRuntimeImageFormat : string :=
  "microsoft/aspnetcore:{0}.{1}{2}".
Definition LegacyAspNetCoreSdkImageFormat : string :=
  "microsoft/aspnetcore-build:{0}.{1}{2}".
Definition LegacyDotNetCoreRuntimeImageFormat : string :=
  "microsoft/dotnet:{0}.{1}-runtime{2}".
Definition LegacyDotNetCoreSdkImageFormat : string :=
  "microsoft/dotnet:{0}.{1}-sdk{2}".

(** .NET Core 2.1+ images are published to Microsoft Container Registry. *)
Definition DotNetCoreRuntimeImageFormat : string :=
  "mcr.microsoft.com/dotnet/core/runtime:{0}.{1}{2}".
Definition AspNetCoreRuntimeImageFormat : string :=
  "mcr.microsoft.com/dotnet/core/aspnet:{0}.{1}{2}".
Definition DotNetCoreSdkImageFormat : string :=
  "mcr.microsoft.com/dotnet/core/sdk:{0}.{1}{2}".

Definition GetWindowsImageTag {Host : Type} {osUtils : OsUtils Host}
    (host : Host) : string :=
  if negb (isWindows host) || isWindows1019H1OrNewer host then
    "-nanoserver-1903"
  else if isWindows10RS5OrNewer host then "-nanoserver-1809"
  else if isWindows10RS4OrNewer host then "-nanoserver-1803"
  else if isWindows10RS3OrNewer host then "-nanoserver-1709"
  else "-nanoserver-sac2016".

Definition formatVersion (format version tagForWindowsVersion : string)
  : result string :=
  let* asSemVer := semver.parse version in
  Ok (JS.replace "{2}" tagForWindowsVersion
        (JS.replace "{1}" (semver.toString (semver.minor asSemVer))
           (JS.replace "{0}" (semver.toString (semver.major asSemVer))
              format))).

Definition quoted (s : string) : string := Str.dquote ++ s ++ Str.dquote.

Definition aspNetCoreWindowsTemplate : string :=
  Str.unlines
    [ "#Depending on the operating system of the host machines(s) that will build or run the containers, the image specified in the FROM statement may need to be changed.";
      "#For more information, please see https://aka.ms/containercompat";
      EmptyString;
      "FROM $base_image_name$ AS base";
      "WORKDIR /app";
      "$expose_statements$";
      EmptyString;
      "FROM $sdk_image_name$ AS build";
      "WORKDIR /src";
      "$copy_project_commands$";
      "RUN dotnet restore "
        ++ quoted "$container_project_directory$/$project_file_name$";
      "COPY . .";
      "WORKDIR " ++ quoted "/src/$container_project_directory$";
      "RUN dotnet build " ++ quoted "$project_file_name$"
        ++ " -c Release -o /app/build";
      EmptyString;
      "FROM build AS publish";
      "RUN dotnet publish " ++ quoted "$project_file_name$"
        ++ " -c Release -o /app/publish";
      EmptyString;
      "FROM base AS final";
      "WORKDIR /app";
      "COPY --from=publish /app/publish .";
      "ENTRYPOINT [" ++ quoted "dotnet" ++ ", "
        ++ quoted "$assembly_name$.dll" ++ "]" ].

Definition aspNetCoreLinuxTemplate : string :=
  Str.unlines
    [ "FROM $base_image_name$ AS base";
      "WORKDIR /app";
      "$expose_statements$";
      EmptyString;
      "FROM $sdk_image_name$ AS build";
      "WORKDIR /src";
      "$copy_project_commands$";
      "RUN dotnet restore "
        ++ quoted "$container_project_directory$/$project_file_name$";
      "COPY . .";
      "WORKDIR " ++ quoted "/src/$container_project_directory$";
      "RUN dotnet build " ++ quoted "$project_file_name$"
        ++ " -c Release -o /app/build";
      EmptyString;
      "FROM build AS publish";
      "RUN dotnet publish " ++ quoted "$project_file_name$"
        ++ " -c Release -o /app/publish";
      EmptyString;
      "FROM base AS final";
      "WORKDIR /app";
      "COPY --from=publish /app/publish .";
      "ENTRYPOINT [" ++ quoted "dotnet" ++ ", "
        ++ quoted "$assembly_name$.dll" ++ "]" ].

Definition dotNetCoreConsoleWindowsTemplate : string :=
  Str.unlines
    [ "#Depending on the operating system of the host machines(s) that will build or run the containers, the image specified in the FROM statement may need to be changed.";
      "#For more information, please see https://aka.ms/containercompat";
      EmptyString;
      "FROM $base_image_name$ AS base";
      "WORKDIR /app";
      "$expose_statements$";
      EmptyString;
      "FROM $sdk_image_name$ AS build";
      "WORKDIR /src";
      "$copy_project_commands$";
      "RUN dotnet restore "
        ++ quoted "$container_project_directory$/$project_file_name$";
      "COPY . .";
      "WORKDIR " ++ quoted "/src/$container_project_directory$";
      "RUN dotnet build " ++ quoted "$project_file_name$"
        ++ " -c Release -o /app/build";
      EmptyString;
      "FROM build AS publish";
      "RUN dotnet publish " ++ quoted "$project_file_name$"
        ++ " -c Release -o /app/publish";
      EmptyString;
      "FROM base AS final";
      "WORKDIR /app";
      "COPY --from=publish /app/publish .";
      "ENTRYPOINT [" ++ quoted "dotnet" ++ ", "
        ++ quoted "$assembly_name$.dll" ++ "]" ].

Definition dotNetCoreConsoleLinuxTemplate : string :=
  Str.unlines
    [ "FROM $base_image_name$ AS base";
      "WORKDIR /app";
      "$expose_statements$";
      EmptyString;
      "FROM $sdk_image_name$ AS build";
      "WORKDIR /src";
      "$copy_project_commands$";
      "RUN dotnet restore "
        ++ quoted "$container_project_directory$/$project_file_name$";
      "COPY . .";
      "WORKDIR " ++ quoted "/src/$container_project_directory$";
      "RUN dotnet build " ++ quoted "$project_file_name$"
        ++ " -c Release -o /app/build";
      EmptyString;
      "FROM build AS publish";
      "RUN dotnet publish " ++ quoted "$project_file_name$"
        ++ " -c Release -o /app/publish";
      EmptyString;
      "FROM base AS final";
      "WORKDIR /app";
      "COPY --from=publish /app/publish .";
      "ENTRYPOINT [" ++ quoted "dotnet" ++ ", "
        ++ quoted "$assembly_name$.dll" ++ "]" ].

(** [/^netcoreapp([0-9.]+)$/] *)
Definition targetFrameworkVersionRegExp : RegExp.regexp :=
  ([RegExp.Bol] ++ RegExp.lits "netcoreapp"
    ++ [RegExp.GroupOpen; RegExp.Plus RegExp.digit_or_dot;
        RegExp.GroupClose; RegExp.Eol])%list.

(** [/^[^.]+\.[^.]+$/] *)
Definition majorMinorRegExp : RegExp.regexp :=
  [RegExp.Bol; RegExp.Plus RegExp.not_dot; RegExp.Lit ".";
   RegExp.Plus RegExp.not_dot; RegExp.Eol].

(** [/(\$[a-z_]+\$)/] *)
Definition templateTokenRegExp : RegExp.regexp :=
  [RegExp.GroupOpen; RegExp.Lit "$";
   RegExp.Plus RegExp.lower_or_underscore; RegExp.Lit "$";
   RegExp.GroupClose].

(** [/<TargetFramework>(.+)<\/TargetFramework/] *)
Definition targetFrameworkElementRegExp : RegExp.regexp :=
  (RegExp.lits "<TargetFramework>"
    ++ [RegExp.GroupOpen; RegExp.Plus RegExp.dot; RegExp.GroupClose]
    ++ RegExp.lits "</TargetFramework")%list.

(** [os === name], for an [os] that may be [undefined]. *)
Definition os_is (os : option string) (name : string) : bool :=
  match os with
  | Some o => o =? name
  | None => false
  end.

(** [`${os}`] *)
Definition os_text (os : option string) : string :=
  match os with
  | Some o => o
  | None => "undefined"
  end.

Definition defaultNetCoreVersion : string := "2.1".

(** Lines 182-190: the version parsed from the TargetFramework, with the
    patch that semver requires. *)
Definition netCoreAppVersion (version : string) : string :=
  let netCoreAppVersion :=
    first (extractRegExGroups version targetFrameworkVersionRegExp
             [defaultNetCoreVersion]) in
  if RegExp.test majorMinorRegExp netCoreAppVersion
  then netCoreAppVersion ++ ".0"
  else netCoreAppVersion.

(** Lines 192-218: [(baseImageFormat, sdkImageNameFormat)]. *)
Definition imageFormats (platform netCoreAppVersion : string)
  : result (string * string) :=
  let* modern := semver.gte netCoreAppVersion "2.1.0" in
  if modern : bool then
    let* baseImageFormat :=
      if platform =? "ASP.NET Core" then Ok AspNetCoreRuntimeImageFormat
      else if platform =? ".NET Core Console"
           then Ok DotNetCoreRuntimeImageFormat
           else Throw (AssertionError "Unknown platform") in
    Ok (baseImageFormat, DotNetCoreSdkImageFormat)
  else
    if platform =? "ASP.NET Core" then
      Ok (LegacyAspNetCoreRuntimeImageFormat, LegacyAspNetCoreSdkImageFormat)
    else if platform =? ".NET Core Console" then
      Ok (LegacyDotNetCoreRuntimeImageFormat, LegacyDotNetCoreSdkImageFormat)
    else Throw (AssertionError "Unknown platform").

(** Lines 220-227. *)
Definition tagForWindowsVersion {Host : Type} {osUtils : OsUtils Host}
    (host : Host) (os : option string) (netCoreAppVersion : string)
  : result string :=
  let* plain :=
    if os_is os "Linux" then Ok true
    else semver.lt netCoreAppVersion "2.0.0" in
  if plain : bool then Ok EmptyString else Ok (GetWindowsImageTag host).

(** Lines 182-230: [(baseImageName, sdkImageName)]. *)
Definition resolveImageNames {Host : Type} {osUtils : OsUtils Host}
    (host : Host) (platform : string) (os : option string) (version : string)
  : result (string * string) :=
  let netCoreAppVersion := netCoreAppVersion version in
  let* formats := imageFormats platform netCoreAppVersion in
  let* tagForWindowsVersion :=
    tagForWindowsVersion host os netCoreAppVersion in
  let* baseImageName :=
    formatVersion (fst formats) netCoreAppVersion tagForWindowsVersion in
  let* sdkImageName :=
    formatVersion (snd formats) netCoreAppVersion tagForWindowsVersion in
  Ok (baseImageName, sdkImageName).

(** Lines 232-242. *)
Definition selectTemplate (platform : string) (os : option string)
  : result string :=
  if platform =? ".NET Core Console" then
    Ok (if os_is os "Linux" then dotNetCoreConsoleLinuxTemplate
        else dotNetCoreConsoleWindowsTemplate)
  else if platform =? "ASP.NET Core" then
    Ok (if os_is os "Linux" then aspNetCoreLinuxTemplate
        else aspNetCoreWindowsTemplate)
  else
    Throw (Error ("Unexpected platform " ++ quoted platform)).

(** Lines 244-250: the seven replacements, in the order of the source. *)
Definition substituteTokens (template baseImageName exposeStatements
    sdkImageName projectDirectory projectFileName assemblyNameNoExtension
    copyProjectCommands : string) : string :=
  JS.replaceAll "$copy_project_commands$" copyProjectCommands
    (JS.replaceAll "$assembly_name$" assemblyNameNoExtension
       (JS.replaceAll "$project_file_name$" projectFileName
          (JS.replaceAll "$container_project_directory$" projectDirectory
             (JS.replaceAll "$sdk_image_name$" sdkImageName
                (JS.replaceAll "$expose_statements$" exposeStatements
                   (JS.replace "$base_image_name$" baseImageName
                      template)))))).

(** Lines 252-257. *)
Definition checkUnreplacedToken (contents : string) : result string :=
  let unreplacedToken :=
    extractRegExGroups contents templateTokenRegExp [EmptyString] in
  if negb (first unreplacedToken =? EmptyString) then
    Throw (AssertionError
             ("Unreplaced template token "
                ++ quoted (String.concat "," unreplacedToken)))
  else Ok contents.

Definition genDockerFile {Host : Type} {osUtils : OsUtils Host}
    {configUtils : ConfigUtils} (host : Host)
    (serviceNameAndRelativePath platform : string)
    (os : option string) (ports : option (list Z))
    (version artifactName : string) : result string :=
  if negb (os_is os "Windows") && negb (os_is os "Linux") then
    Throw (Error ("Unexpected OS " ++ quoted (os_text os)))
  else
    let serviceName := path.basename serviceNameAndRelativePath in
    let projectDirectory := path.dirname serviceNameAndRelativePath in
    let projectFileName := path.basename artifactName in
    let assemblyNameNoExtension := serviceName in
    let copyProjectCommands :=
      "COPY [" ++ quoted artifactName ++ ", "
        ++ quoted (projectDirectory ++ "/") ++ "]" in
    let exposeStatements := getExposeStatements ports in
    let* names := resolveImageNames host platform os version in
    let* template := selectTemplate platform os in
    checkUnreplacedToken
      (substituteTokens template (fst names) exposeStatements (snd names)
         projectDirectory projectFileName assemblyNameNoExtension
         copyProjectCommands).

(** ** [scaffoldNetCore] *)

(** [s.slice(0, -n)]; [-0] is [0], so that nothing is left when [n = 0]. *)
Definition slice_to_minus (s : string) (n : nat) : string :=
  match n with
  | O => EmptyString
  | S _ => Str.take (length s - n) s
  end.

(** [s.replace(/(unit){3,4}/g, repl)]: four copies of [unit] when there
    are four, else three. *)
Fixpoint collapseRuns_from (unit repl : string) (skip : nat) (s : string)
  : string :=
  match s with
  | EmptyString => EmptyString
  | String c s' =>
      match skip with
      | S k => collapseRuns_from unit repl k s'
      | O =>
          if prefix (unit ++ unit ++ unit ++ unit) s then
            repl ++ collapseRuns_from unit repl (4 * length unit - 1) s'
          else if prefix (unit ++ unit ++ unit) s then
            repl ++ collapseRuns_from unit repl (3 * length unit - 1) s'
          else String c (collapseRuns_from unit repl 0 s')
      end
  end.

Definition collapseRuns (unit repl s : string) : string :=
  collapseRuns_from unit repl 0 s.

Definition crlf : string := String (ascii_of_nat 13) Str.newline.

Record ScaffoldFile : Type := {
  fileName : string;
  contents : string;
  open : option bool
}.

(** The fields of [ScaffolderContext] that [scaffoldNetCore] reads;
    [folder] stands for [context.folder.uri.fsPath]. *)
Record ScaffolderContext : Type := {
  context_os : option string;
  context_platform : string;
  context_ports : option (list Z);
  context_rootFolder : string;
  context_outputFolder : option string;
  context_folder : string;
  context_initializeForDebugging : bool
}.

(** The telemetry properties that [scaffoldNetCore] writes. *)
Record ConfigureTelemetryProperties : Type := {
  configureOs : option string;
  packageFileType : option string;
  packageFileSubfolderDepth : option string
}.

(** What [scaffoldNetCore] awaits or imports and the sources do not
    contain: the prompts of the context, the file system, the debugging
    initialiser, and the functions of [path] that normalise or resolve
    against the working directory. *)
Class Workspace : Type := {
  promptForOS : result (option string);
  promptForPorts : list Z -> result (option (list Z));
  globAsync : string -> string -> result (list string);
  showQuickPick : list string -> result string;
  readFile : string -> result string;
  initializeNetCoreForDebugging :
    string -> string -> option string -> result unit;
  getSubfolderDepth : string -> string -> string;
  path_join : string -> string -> string;
  path_relative : string -> string -> string;
  path_resolve : string -> string -> string;
  path_posix_join : string -> string -> string;
  path_posix_relative : string -> string -> string
}.

(** An asynchronous step: it may update the telemetry properties and
    either returns or rejects. *)
Definition task (A : Type) : Type :=
  ConfigureTelemetryProperties -> ConfigureTelemetryProperties * result A.

Definition task_ret {A : Type} (a : A) : task A := fun t => (t, Ok a).

Definition task_bind {A B : Type} (m : task A) (k : A -> task B) : task B :=
  fun t =>
    match m t with
    | (t', Ok a) => k a t'
    | (t', Throw e) => (t', Throw e)
    end.

(** [await] of a promise that does not touch the telemetry. *)
Definition await {A : Type} (r : result A) : task A := fun t => (t, r).

Definition set_telemetry
    (f : ConfigureTelemetryProperties -> ConfigureTelemetryProperties)
  : task unit :=
  fun t => (f t, Ok tt).

Declare Scope task_scope.
Delimit Scope task_scope with task.
Notation "x <- m ;; k" := (task_bind m (fun x => k))
  (at level 61, m at next level, right associativity) : task_scope.
Notation "m ;;; k" := (task_bind m (fun _ => k))
  (at level 61, right associativity) : task_scope.

(** Returns the relative path of the project file. *)
Definition findCSProjOrFSProjFile {workspace : Workspace} (folderPath : string)
  : task string :=
  (projectFiles <- await (globAsync "**/*.@(c|f)sproj" folderPath) ;;
   await match projectFiles with
         | [] =>
             Throw (Error "No .csproj or .fsproj file could be found. You need a C# or F# project file in the workspace to generate Docker files for the selected platform.")
         | [projectFile] => Ok projectFile
         | _ => showQuickPick projectFiles
         end)%task.

Definition initializeForDebugging {workspace : Workspace}
    (platformOS : option string)
    (workspaceRelativeDockerfileName workspaceRelativeProjectFileName : string)
  : task unit :=
  await (initializeNetCoreForDebugging
           (path_posix_join "${workspaceFolder}"
              workspaceRelativeDockerfileName)
           (path_posix_join "${workspaceFolder}"
              workspaceRelativeProjectFileName)
           platformOS).

(** [a ?? b] *)
Definition nullish {A : Type} (a : option A) (b : A) : A :=
  match a with
  | Some x => x
  | None => b
  end.

(** [if (s)] for a string that may be [undefined]. *)
Definition truthy (s : option string) : bool :=
  match s with
  | Some x => negb (x =? EmptyString)
  | None => false
  end.

(** [context.captureStep('project', findCSProjOrFSProjFile)], of
    [./scaffolding], is taken to call the function that it wraps. *)
Definition scaffoldNetCore {Host : Type} {osUtils : OsUtils Host}
    {configUtils : ConfigUtils} {workspace : Workspace} (host : Host)
    (context : ScaffolderContext)
  : task (list ScaffoldFile) :=
  (os <- await match context_os context with
               | Some o => Ok (Some o)
               | None => promptForOS
               end ;;
   set_telemetry (fun t =>
     {| configureOs := os;
        packageFileType := packageFileType t;
        packageFileSubfolderDepth := packageFileSubfolderDepth t |}) ;;;
   ports <- await match context_ports context with
                  | Some p => Ok (Some p)
                  | None =>
                      if context_platform context =? "ASP.NET Core"
                      then promptForPorts [80%Z; 443%Z]
                      else Ok None
                  end ;;
   rootRelativeProjectFileName <-
     findCSProjOrFSProjFile (context_rootFolder context) ;;
   let rootRelativeProjectDirectory :=
     path.dirname rootRelativeProjectFileName in
   set_telemetry (fun t =>
     {| configureOs := configureOs t;
        packageFileType := Some (path.extname rootRelativeProjectFileName);
        packageFileSubfolderDepth :=
          Some (getSubfolderDepth (context_rootFolder context)
                  rootRelativeProjectFileName) |}) ;;;
   let projectFilePath :=
     path_posix_join (context_rootFolder context)
       rootRelativeProjectFileName in
   let workspaceRelativeProjectFileName :=
     path_posix_relative (context_folder context) projectFilePath in
   let serviceNameAndPathRelative :=
     slice_to_minus rootRelativeProjectFileName
       (length (path.extname rootRelativeProjectFileName)) in
   projFileContents <-
     await (readFile (path_join (context_rootFolder context)
                        rootRelativeProjectFileName)) ;;
   let version :=
     first (extractRegExGroups projFileContents targetFrameworkElementRegExp
              [EmptyString]) in
   let serviceNameAndPathRelative :=
     if truthy (context_outputFolder context) then
       path_relative (nullish (context_outputFolder context) EmptyString)
         (path_join (context_rootFolder context) serviceNameAndPathRelative)
     else serviceNameAndPathRelative in
   let serviceNameAndPathRelative :=
     JS.replaceAll Str.backslash "/" serviceNameAndPathRelative in
   dockerFileContents <-
     await (genDockerFile host serviceNameAndPathRelative
              (context_platform context) os ports version
              workspaceRelativeProjectFileName) ;;
   let dockerFileContents :=
     collapseRuns Str.newline (Str.newline ++ Str.newline)
       (collapseRuns crlf (crlf ++ crlf) dockerFileContents) in
   let dockerFileName :=
     path_join (nullish (context_outputFolder context)
                  rootRelativeProjectDirectory) "Dockerfile" in
   let dockerIgnoreFileName :=
     path_join (nullish (context_outputFolder context) EmptyString)
       ".dockerignore" in
   let files :=
     [ {| fileName := dockerFileName; contents := dockerFileContents;
          open := Some true |};
       {| fileName := dockerIgnoreFileName;
          contents := genCommonDockerIgnoreFile (context_platform context);
          open := None |} ] in
   (if context_initializeForDebugging context then
      let dockerFilePath :=
        path_resolve (context_rootFolder context) dockerFileName in
      let workspaceRelativeDockerfileName :=
        path_relative (context_folder context) dockerFilePath in
      initializeForDebugging (context_os context)
        workspaceRelativeDockerfileName workspaceRelativeProjectFileName
    else task_ret tt) ;;;
   task_ret files)%task.

(* ================================================================== *)
(** * dockerExtension.ts *)
(* ================================================================== *)

(** The editor is modelled by what [activate] asks of it: a registry of
    what was registered, each entry with its disposable, the list
    [ctx.subscriptions], the documents that are open and the validations
    that were scheduled. *)
Module Extension.

Definition COMPOSE_FILE_GLOB_PATTERN : string :=
  "**/[dD]ocker-[cC]ompose*.{yaml,yml}".

Record DocumentFilter : Type := {
  language : string;
  scheme : string;
  pattern : option string
}.

Inductive Parser : Type := DockerfileParser | DockerComposeParser.

Inductive KeyInfo : Type := DOCKERFILE_KEY_INFO | composeVersionKeys_All.

Inductive Provider : Type :=
| DockerHoverProvider (parser : Parser) (keyInfo : KeyInfo)
| DockerfileCompletionItemProvider
| DockerComposeCompletionItemProvider.

(** The imported command handlers. *)
Inductive Handler : Type :=
| configure | configureLaunchJson | buildImage | removeImage | pushImage
| tagImage | startContainer | startContainerInteractive | startAzureCLI
| stopContainer | showLogsContainer | openShellContainer | composeUp
| composeDown | deployImage | systemPrune.

Inductive DocumentEvent : Type :=
| onDidChangeTextDocument | onDidOpenTextDocument | onDidCloseTextDocument.

Inductive Listener : Type := scheduleValidate | deleteDiagnostics.

(** The arrays of disposables that a call can be handed. *)
Inductive ArrayRef : Type := ctx_subscriptions.

(** What the host holds after a call of its registration API;
    [Reporter] is the telemetry reporter, [new Reporter(ctx)], which is
    a disposable as well. *)
Inductive Registration : Type :=
| Reporter
| HoverProvider (selector : DocumentFilter) (provider : Provider)
| CompletionItemProvider (selector : DocumentFilter) (provider : Provider)
    (triggerCharacters : list string)
| Command (command : string) (callback : Handler)
| DiagnosticCollection (name : string)
| EventListener (event : DocumentEvent) (listener : Listener)
    (thisArgs : option ArrayRef).

(** A disposable is the index of its registration in [registry]. *)
Definition Disposable : Type := nat.

Record State : Type := {
  registry : list Registration;
  subscriptions : list Disposable;
  diagnosticCollection : option Disposable;
  textDocuments : list string;
  validated : list string
}.

Definition action (A : Type) : Type := State -> A * State.

Definition ret {A : Type} (a : A) : action A := fun st => (a, st).

Definition seq {A B : Type} (m : action A) (k : A -> action B) : action B :=
  fun st => let (a, st') := m st in k a st'.

(** Registering with the host returns the disposable of the entry. *)
Definition register (r : Registration) : action Disposable :=
  fun st =>
    (List.length (registry st),
     {| registry := (registry st ++ [r])%list;
        subscriptions := subscriptions st;
        diagnosticCollection := diagnosticCollection st;
        textDocuments := textDocuments st;
        validated := validated st |}).

(** [ctx.subscriptions.push(d)] *)
Definition push (d : Disposable) : action unit :=
  fun st =>
    (tt,
     {| registry := registry st;
        subscriptions := (subscriptions st ++ [d])%list;
        diagnosticCollection := diagnosticCollection st;
        textDocuments := textDocuments st;
        validated := validated st |}).

Definition set_diagnosticCollection (d : Disposable) : action unit :=
  fun st =>
    (tt,
     {| registry := registry st;
        subscriptions := subscriptions st;
        diagnosticCollection := Some d;
        textDocuments := textDocuments st;
        validated := validated st |}).

(** [vscode.workspace.textDocuments.forEach((doc) => scheduleValidate(doc))] *)
Definition validate_open_documents : action unit :=
  fun st =>
    (tt,
     {| registry := registry st;
        subscriptions := subscriptions st;
        diagnosticCollection := diagnosticCollection st;
        textDocuments := textDocuments st;
        validated := (validated st ++ textDocuments st)%list |}).

Definition registerHoverProvider (selector : DocumentFilter)
    (provider : Provider) : action Disposable :=
  register (HoverProvider selector provider).

Definition registerCompletionItemProvider (selector : DocumentFilter)
    (provider : Provider) (triggerCharacters : list string)
  : action Disposable :=
  register (CompletionItemProvider selector provider triggerCharacters).

Definition registerCommand (command : string) (callback : Handler)
  : action Disposable :=
  register (Command command callback).

Definition createDiagnosticCollection (name : string) : action Disposable :=
  register (DiagnosticCollection name).

(** An event of the host, [event(listener, thisArgs?, disposables?)]:
    the listener is subscribed, and its disposable is added to
    [disposables] when that array is given. *)
Definition subscribe (event : DocumentEvent) (listener : Listener)
    (thisArgs disposables : option ArrayRef) : action Disposable :=
  seq (register (EventListener event listener thisArgs)) (fun d =>
  match disposables with
  | Some ctx_subscriptions => seq (push d) (fun _ => ret d)
  | None => ret d
  end).

Declare Scope action_scope.
Delimit Scope action_scope with action.
Notation "x <- m ;; k" := (seq m (fun x => k))
  (at level 61, m at next level, right associativity) : action_scope.
Notation "m ;;; k" := (seq m (fun _ => k))
  (at level 61, right associativity) : action_scope.

(** [ctx.subscriptions.push(<registration>)] *)
Definition push_of (m : action Disposable) : action unit :=
  (d <- m ;; push d)%action.

Definition activate : action unit :=
  (let DOCKERFILE_MODE_ID :=
     {| language := "dockerfile"; scheme := "file"; pattern := None |} in
   push_of (register Reporter) ;;;
   let dockerHoverProvider :=
     DockerHoverProvider DockerfileParser DOCKERFILE_KEY_INFO in
   push_of (registerHoverProvider DOCKERFILE_MODE_ID dockerHoverProvider) ;;;
   push_of (registerCompletionItemProvider DOCKERFILE_MODE_ID
              DockerfileCompletionItemProvider ["."]) ;;;
   let YAML_MODE_ID :=
     {| language := "yaml"; scheme := "file";
        pattern := Some COMPOSE_FILE_GLOB_PATTERN |} in
   let yamlHoverProvider :=
     DockerHoverProvider DockerComposeParser composeVersionKeys_All in
   push_of (registerHoverProvider YAML_MODE_ID yamlHoverProvider) ;;;
   push_of (registerCompletionItemProvider YAML_MODE_ID
              DockerComposeCompletionItemProvider ["."]) ;;;
   push_of (registerCommand "vscode-docker.configure" configure) ;;;
   push_of (registerCommand "vscode-docker.debug.configureLaunchJson"
              configureLaunchJson) ;;;
   push_of (registerCommand "vscode-docker.image.build" buildImage) ;;;
   push_of (registerCommand "vscode-docker.image.remove" removeImage) ;;;
   push_of (registerCommand "vscode-docker.image.push" pushImage) ;;;
   push_of (registerCommand "vscode-docker.image.tag" tagImage) ;;;
   push_of (registerCommand "vscode-docker.container.start"
              startContainer) ;;;
   push_of (registerCommand "vscode-docker.container.start.interactive"
              startContainerInteractive) ;;;
   push_of (registerCommand "vscode-docker.container.start.azurecli"
              startAzureCLI) ;;;
   push_of (registerCommand "vscode-docker.container.stop"
              stopContainer) ;;;
   push_of (registerCommand "vscode-docker.container.show-logs"
              showLogsContainer) ;;;
   push_of (registerCommand "vscode-docker.container.open-shell"
              openShellContainer) ;;;
   push_of (registerCommand "vscode-docker.compose.up" composeUp) ;;;
   push_of (registerCommand "vscode-docker.compose.down" composeDown) ;;;
   push_of (registerCommand "vscode-docker.deploy" deployImage) ;;;
   push_of (registerCommand "vscode-docker.system.prune" systemPrune) ;;;
   d <- createDiagnosticCollection "docker-diagnostics" ;;
   set_diagnosticCollection d ;;;
   push d ;;;
   subscribe onDidChangeTextDocument scheduleValidate
     (Some ctx_subscriptions) None ;;;
   validate_open_documents ;;;
   subscribe onDidOpenTextDocument scheduleValidate
     (Some ctx_subscriptions) None ;;;
   subscribe onDidCloseTextDocument deleteDiagnostics
     (Some ctx_subscriptions) None ;;;
   ret tt)%action.

(** The registrations made between two states, with their disposables. *)
Fixpoint number {A : Type} (n : nat) (l : list A) : list (nat * A) :=
  match l with
  | [] => []
  | a :: l' => (n, a) :: number (S n) l'
  end.

Definition registered (before after : State)
  : list (Disposable * Registration) :=
  number (List.length (registry before))
    (skipn (List.length (registry before)) (registry after)).

End Extension.

(* ================================================================== *)
(** * AzureAccountTreeItem.ts *)
(* ================================================================== *)

Module AzureAccount.

Definition maxTimeout : N := 600000.

(** What the loop observes of the host.  A timer never runs before it
    is due, and timers run in the order in which they are due:
    [lateness k] is how long after it was due the [k]-th [delay(1000)]
    resolved; when the time-out became due before that delay was, its
    callback has run; when it became due in between, [timeout_first k]
    says whether its callback ran before the loop resumed; and
    [extension_installed k] is whether
    [extensions.getExtension('ms-vscode.azure-account')] is defined at
    the [k]-th check.

    Modelled from the spec: [delay] (utils/delay) is not among the
    sources; [delay(1000)] is the one-second wait between two checks. *)
Class Timers : Type := {
  lateness : nat -> N;
  timeout_first : nat -> bool;
  extension_installed : nat -> bool
}.

(** [now] is the time in milliseconds since the call, [iterations] the
    number of completed loop bodies, [refreshes] the number of calls of
    [this.refresh()]. *)
Record State : Type := {
  now : N;
  timedout : bool;
  isExtensionInstalled : bool;
  iterations : nat;
  refreshes : nat
}.

Definition initial : State :=
  {| now := 0; timedout := false; isExtensionInstalled := false;
     iterations := 0; refreshes := 0 |}.

(** One loop body: [await delay(1000)], during which the time-out
    callback runs if it is due, then the check. *)
Definition body {timers : Timers} (st : State) : State :=
  let due := (now st + 1000)%N in
  let resumed := (due + lateness (iterations st))%N in
  {| now := resumed;
     timedout :=
       timedout st || (maxTimeout <? due)%N
         || ((maxTimeout <=? resumed)%N && timeout_first (iterations st));
     isExtensionInstalled := extension_installed (iterations st);
     iterations := S (iterations st);
     refreshes := refreshes st |}.

(** The [while] loop; [None] when [fuel] bodies were not enough. *)
Fixpoint loop {timers : Timers} (fuel : nat) (st : State) : option State :=
  if negb (timedout st) && negb (isExtensionInstalled st) then
    match fuel with
    | O => None
    | S fuel' => loop fuel' (body st)
    end
  else Some st.

Definition refresh (st : State) : State :=
  {| now := now st; timedout := timedout st;
     isExtensionInstalled := isExtensionInstalled st;
     iterations := iterations st;
     refreshes := S (refreshes st) |}.

Definition refreshNodeWhenAzureExtensionIsInstalled {timers : Timers}
    (fuel : nat) : option State :=
  match loop fuel initial with
  | Some st => Some (if isExtensionInstalled st then refresh st else st)
  | None => None
  end.

End AzureAccount.

(* ================================================================== *)
(** * Sample hosts *)
(* ================================================================== *)

(** Concrete hosts, on which the statements below are run. *)
Module Sample.

(** A host known by its platform and its Windows 10 build number. *)
Record Host : Type := { win32 : bool; build : N }.

#[export] Instance osUtils : OsUtils Host := {|
  isWindows := win32;
  isWindows1019H1OrNewer := fun h => win32 h && (18362 <=? build h)%N;
  isWindows10RS5OrNewer := fun h => win32 h && (17763 <=? build h)%N;
  isWindows10RS4OrNewer := fun h => win32 h && (17134 <=? build h)%N;
  isWindows10RS3OrNewer := fun h => win32 h && (16299 <=? build h)%N
|}.

Definition linux : Host := {| win32 := false; build := 0 |}.
Definition windows1607 : Host := {| win32 := true; build := 14393 |}.
Definition windows1809 : Host := {| win32 := true; build := 17763 |}.
Definition windows1903 : Host := {| win32 := true; build := 18362 |}.
Definition windows2004 : Host := {| win32 := true; build := 19041 |}.

Definition Z_to_string (z : Z) : string :=
  NilEmpty.string_of_int (Z.to_int z).

(** Modelled from the spec: [getExposeStatements] and
    [genCommonDockerIgnoreFile] are not among the sources; the first is
    taken to give one [EXPOSE] statement per exposed port and nothing
    for [undefined], the second a text that depends on the platform. *)
#[export] Instance configUtils : ConfigUtils := {|
  getExposeStatements := fun ports =>
    match ports with
    | Some ps =>
        String.concat Str.newline
          (map (fun p => "EXPOSE " ++ Z_to_string p) ps)
    | None => EmptyString
    end;
  genCommonDockerIgnoreFile := fun platform =>
    "**/.git" ++ Str.newline ++ "**/bin" ++ Str.newline ++ "**/obj"
      ++ Str.newline
|}.

Definition join (a b : string) : string :=
  if a =? EmptyString then b else a ++ "/" ++ b.

Definition projectFile : string :=
  "<Project Sdk=" ++ quoted "Microsoft.NET.Sdk.Web" ++ ">"
    ++ "<PropertyGroup><TargetFramework>netcoreapp2.2</TargetFramework>"
    ++ "</PropertyGroup></Project>".

(** A workspace [/work] with the single project [app/app.csproj]; its
    paths need no normalisation.  [answer] is what the prompt for the
    operating system resolves to. *)
Definition workspace_answering (answer : result (option string))
  : Workspace := {|
  promptForOS := answer;
  promptForPorts := fun defaults => Ok (Some defaults);
  globAsync := fun _ _ => Ok ["app/app.csproj"];
  showQuickPick := fun items => Ok (hd EmptyString items);
  readFile := fun _ => Ok projectFile;
  initializeNetCoreForDebugging := fun _ _ _ => Ok tt;
  getSubfolderDepth := fun _ _ => "1";
  path_join := join;
  path_relative := fun from to =>
    if prefix (from ++ "/") to then Str.drop (length from + 1) to else to;
  path_resolve := join;
  path_posix_join := join;
  path_posix_relative := fun from to =>
    if prefix (from ++ "/") to then Str.drop (length from + 1) to else to
|}.

#[export] Instance workspace : Workspace :=
  workspace_answering (Ok (Some "Linux")).

(** The same workspace, where the prompt is answered with a system
    that is neither Windows nor Linux. *)
Definition workspace_darwin : Workspace :=
  workspace_answering (Ok (Some "Darwin")).

Definition context_without_os : ScaffolderContext := {|
  context_os := None;
  context_platform := ".NET Core Console";
  context_ports := None;
  context_rootFolder := "/work";
  context_outputFolder := None;
  context_folder := "/work";
  context_initializeForDebugging := false
|}.

Definition context : ScaffolderContext := {|
  context_os := Some "Linux";
  context_platform := "ASP.NET Core";
  context_ports := Some [80%Z; 443%Z];
  context_rootFolder := "/work";
  context_outputFolder := None;
  context_folder := "/work";
  context_initializeForDebugging := false
|}.

Definition telemetry : ConfigureTelemetryProperties :=
  {| configureOs := None; packageFileType := None;
     packageFileSubfolderDepth := None |}.

(** Timers that are never late, on a host where the extension is never
    installed, and on one where it is found at the third check. *)
Definition never_installed : AzureAccount.Timers := {|
  AzureAccount.lateness := fun _ => 0%N;
  AzureAccount.timeout_first := fun _ => false;
  AzureAccount.extension_installed := fun _ => false
|}.

Definition installed_at_third_check : AzureAccount.Timers := {|
  AzureAccount.lateness := fun k => N.of_nat k;
  AzureAccount.timeout_first := fun _ => true;
  AzureAccount.extension_installed := fun k => (2 <=? k)%nat
|}.

Definition editor : Extension.State := {|
  Extension.registry := [];
  Extension.subscriptions := [];
  Extension.diagnosticCollection := None;
  Extension.textDocuments := ["Dockerfile"];
  Extension.validated := []
|}.

Definition v2_2_0 : semver.SemVer :=
  {| semver.major := 2; semver.minor := 2; semver.patch := 0 |}.

(** The Dockerfile of the sample project. *)
Definition dockerfile : string :=
  match genDockerFile linux "app/app" "ASP.NET Core" (Some "Linux")
          (Some [80%Z; 443%Z]) "netcoreapp2.2" "app/app.csproj" with
  | Ok contents => contents
  | Throw _ => EmptyString
  end.

(** The Dockerfile of a project named [My$$App]. *)
Definition dollarsDockerfile : string :=
  match genDockerFile linux "app/My$$App" "ASP.NET Core" (Some "Linux")
          None "netcoreapp2.2" "app/My$$App.csproj" with
  | Ok contents => contents
  | Throw _ => EmptyString
  end.

(** The files scaffolded for the sample project. *)
Definition files : list ScaffoldFile :=
  match snd (scaffoldNetCore linux context telemetry) with
  | Ok files => files
  | Throw _ => []
  end.

End Sample.

(* ================================================================== *)
(** * Vocabulary of the statements *)
(* ================================================================== *)

(** The two platforms and the two operating systems that
    [genDockerFile] accepts. *)
Definition is_platform (platform : string) : Prop :=
  platform = "ASP.NET Core" \/ platform = ".NET Core Console".

Definition is_os (os : option string) : Prop :=
  os = Some "Windows" \/ os = Some "Linux".

Definition v2_1_0 : semver.SemVer :=
  {| semver.major := 2; semver.minor := 1; semver.patch := 0 |}.

Definition v2_0_0 : semver.SemVer :=
  {| semver.major := 2; semver.minor := 0; semver.patch := 0 |}.

(** [repository:major.minor<suffix><tag>], what an image format stands
    for once its three placeholders are filled. *)
Definition imageName (repository suffix : string) (v : semver.SemVer)
    (tag : string) : string :=
  repository ++ ":" ++ semver.toString (semver.major v) ++ "."
    ++ semver.toString (semver.minor v) ++ suffix ++ tag.

Definition nanoserverTags : list string :=
  ["-nanoserver-1903"; "-nanoserver-1809"; "-nanoserver-1803";
   "-nanoserver-1709"; "-nanoserver-sac2016"].

(** The tag that the statements expect for a target system, a parsed
    version and a host. *)
Definition windowsTag {Host : Type} {osUtils : OsUtils Host} (host : Host)
    (os : option string) (v : semver.SemVer) : string :=
  if os_is os "Linux" || semver.lt_parsed v v2_0_0 then EmptyString
  else GetWindowsImageTag host.

(** The image names of the two platforms, from 2.1.0 on and before. *)
Definition expectedImageNames (platform : string) (v : semver.SemVer)
    (tag : string) : string * string :=
  if semver.gte_parsed v v2_1_0 then
    (imageName
       (if platform =? "ASP.NET Core"
        then "mcr.microsoft.com/dotnet/core/aspnet"
        else "mcr.microsoft.com/dotnet/core/runtime")
       EmptyString v tag,
     imageName "mcr.microsoft.com/dotnet/core/sdk" EmptyString v tag)
  else if platform =? "ASP.NET Core" then
    (imageName "microsoft/aspnetcore" EmptyString v tag,
     imageName "microsoft/aspnetcore-build" EmptyString v tag)
  else
    (imageName "microsoft/dotnet" "-runtime" v tag,
     imageName "microsoft/dotnet" "-sdk" v tag).

(** The comment that opens the Windows templates. *)
Definition windowsComment : string :=
  Str.unlines
    [ "#Depending on the operating system of the host machines(s) that will build or run the containers, the image specified in the FROM statement may need to be changed.";
      "#For more information, please see https://aka.ms/containercompat";
      EmptyString ].

(** The last stage of every template once the assembly name is known. *)
Definition finalStage (assemblyName : string) : string :=
  Str.unlines
    [ "FROM base AS final";
      "WORKDIR /app";
      "COPY --from=publish /app/publish .";
      "ENTRYPOINT [" ++ quoted "dotnet" ++ ", "
        ++ quoted (assemblyName ++ ".dll") ++ "]" ].

(** The Dockerfile that the statements expect: the text of the template
    with every token of the table replaced by its value. *)
Definition dockerfileText (os : option string)
    (baseImageName exposeStatements sdkImageName projectDirectory
     projectFileName assemblyName copyProjectCommands : string) : string :=
  (if os_is os "Linux" then EmptyString else windowsComment)
  ++ Str.unlines
       [ "FROM " ++ baseImageName ++ " AS base";
         "WORKDIR /app";
         exposeStatements;
         EmptyString;
         "FROM " ++ sdkImageName ++ " AS build";
         "WORKDIR /src";
         copyProjectCommands;
         "RUN dotnet restore "
           ++ quoted (projectDirectory ++ "/" ++ projectFileName);
         "COPY . .";
         "WORKDIR " ++ quoted ("/src/" ++ projectDirectory);
         "RUN dotnet build " ++ quoted projectFileName
           ++ " -c Release -o /app/build";
         EmptyString;
         "FROM build AS publish";
         "RUN dotnet publish " ++ quoted projectFileName
           ++ " -c Release -o /app/publish";
         EmptyString ]
  ++ finalStage assemblyName.

(** [COPY ["artifactName", "projectDirectory/"]] *)
Definition copyCommand (artifactName projectDirectory : string) : string :=
  "COPY [" ++ quoted artifactName ++ ", "
    ++ quoted (projectDirectory ++ "/") ++ "]".

(** The text contains a template token [$name$]. *)
Definition has_token (s : string) : bool :=
  RegExp.test templateTokenRegExp s.

(** The body shared by the four templates, cut at its tokens. *)
Definition templateBody : string :=
  "FROM " ++ "$base_image_name$"
    ++ (" AS base" ++ Str.newline ++ "WORKDIR /app" ++ Str.newline)
    ++ "$expose_statements$"
    ++ (Str.newline ++ Str.newline ++ "FROM ") ++ "$sdk_image_name$"
    ++ (" AS build" ++ Str.newline ++ "WORKDIR /src" ++ Str.newline)
    ++ "$copy_project_commands$"
    ++ (Str.newline ++ "RUN dotnet restore " ++ Str.dquote)
    ++ "$container_project_directory$" ++ "/" ++ "$project_file_name$"
    ++ (Str.dquote ++ Str.newline ++ "COPY . ." ++ Str.newline
          ++ "WORKDIR " ++ Str.dquote ++ "/src/")
    ++ "$container_project_directory$"
    ++ (Str.dquote ++ Str.newline ++ "RUN dotnet build " ++ Str.dquote)
    ++ "$project_file_name$"
    ++ (Str.dquote ++ " -c Release -o /app/build" ++ Str.newline
          ++ Str.newline ++ "FROM build AS publish" ++ Str.newline
          ++ "RUN dotnet publish " ++ Str.dquote)
    ++ "$project_file_name$"
    ++ (Str.dquote ++ " -c Release -o /app/publish" ++ Str.newline
          ++ Str.newline ++ "FROM base AS final" ++ Str.newline
          ++ "WORKDIR /app" ++ Str.newline
          ++ "COPY --from=publish /app/publish ." ++ Str.newline
          ++ "ENTRYPOINT [" ++ Str.dquote ++ "dotnet" ++ Str.dquote ++ ", "
          ++ Str.dquote)
    ++ "$assembly_name$"
    ++ (".dll" ++ Str.dquote ++ "]" ++ Str.newline).

(** The template of a target system: the Windows ones open with the
    comment, and the ASP.NET Core and console ones have the same text. *)
Definition templateFor (os : option string) : string :=
  (if os_is os "Linux" then EmptyString else windowsComment) ++ templateBody.

(** The end of every template: the blank line and the final stage up to
    the assembly name, and what follows the assembly name. *)
Definition finalStageHead : string :=
  Str.newline ++ "FROM base AS final" ++ Str.newline
    ++ "WORKDIR /app" ++ Str.newline
    ++ "COPY --from=publish /app/publish ." ++ Str.newline
    ++ "ENTRYPOINT [" ++ Str.dquote ++ "dotnet" ++ Str.dquote ++ ", "
    ++ Str.dquote.

Definition finalStageEnd : string := ".dll" ++ Str.dquote ++ "]" ++ Str.newline.

(** The end of the templates. *)
Definition templateEnd : string :=
  finalStageHead ++ "$assembly_name$" ++ finalStageEnd.

(** [p] and [t] differ at a position that both have. *)
Fixpoint clash (p t : string) : bool :=
  match p, t with
  | String a p', String b t' =>
      if Ascii.eqb a b then clash p' t' else true
  | _, _ => false
  end.

(** No occurrence of [p] starts inside [a] when [a] is followed by [b]:
    at every position of [a] the comparison fails before the end of
    [a ++ b]. *)
Fixpoint no_match (p a b : string) : bool :=
  match a with
  | EmptyString => true
  | String c a' => clash p (a ++ b) && no_match p a' b
  end.

(** [context.os ?? await context.promptForOS()] *)
Definition effective_os {workspace : Workspace} (context : ScaffolderContext)
  : result (option string) :=
  match context_os context with
  | Some o => Ok (Some o)
  | None => promptForOS
  end.

(** [context.ports ?? (platform === 'ASP.NET Core'
      ? await context.promptForPorts([80, 443]) : undefined)] *)
Definition effective_ports {workspace : Workspace}
    (context : ScaffolderContext)
  : result (option (list Z)) :=
  match context_ports context with
  | Some p => Ok (Some p)
  | None =>
      if context_platform context =? "ASP.NET Core"
      then promptForPorts [80%Z; 443%Z]
      else Ok None
  end.

(** The project file that [findCSProjOrFSProjFile] settles on. *)
Definition found_project {workspace : Workspace} (folderPath : string)
  : result string :=
  snd (findCSProjOrFSProjFile folderPath
         {| configureOs := None; packageFileType := None;
            packageFileSubfolderDepth := None |}).

(** The two files that the statement expects. *)
Definition expectedFiles {configUtils : ConfigUtils} {workspace : Workspace}
    (context : ScaffolderContext) (projectFile dockerFileContents : string)
  : list ScaffoldFile :=
  [ {| fileName :=
         path_join (nullish (context_outputFolder context)
                      (path.dirname projectFile)) "Dockerfile";
       contents := dockerFileContents;
       open := Some true |};
    {| fileName :=
         path_join (nullish (context_outputFolder context) EmptyString)
           ".dockerignore";
       contents := genCommonDockerIgnoreFile (context_platform context);
       open := None |} ].

Module Wiring.
Import Extension.
(** The providers, commands and diagnostics collections among
    registrations. *)
Definition is_wiring (r : Registration) : bool :=
  match r with
  | HoverProvider _ _ | CompletionItemProvider _ _ _ | Command _ _
  | DiagnosticCollection _ => true
  | Reporter | EventListener _ _ _ => false
  end.

Definition DOCKERFILE_MODE_ID : DocumentFilter :=
  {| language := "dockerfile"; scheme := "file"; pattern := None |}.

Definition YAML_MODE_ID : DocumentFilter :=
  {| language := "yaml"; scheme := "file";
     pattern := Some COMPOSE_FILE_GLOB_PATTERN |}.

(** The commands of the extension, in the order of their registration. *)
Definition commands : list (string * Handler) :=
  [ ("vscode-docker.configure", configure);
    ("vscode-docker.debug.configureLaunchJson", configureLaunchJson);
    ("vscode-docker.image.build", buildImage);
    ("vscode-docker.image.remove", removeImage);
    ("vscode-docker.image.push", pushImage);
    ("vscode-docker.image.tag", tagImage);
    ("vscode-docker.container.start", startContainer);
    ("vscode-docker.container.start.interactive",
     startContainerInteractive);
    ("vscode-docker.container.start.azurecli", startAzureCLI);
    ("vscode-docker.container.stop", stopContainer);
    ("vscode-docker.container.show-logs", showLogsContainer);
    ("vscode-docker.container.open-shell", openShellContainer);
    ("vscode-docker.compose.up", composeUp);
    ("vscode-docker.compose.down", composeDown);
    ("vscode-docker.deploy", deployImage);
    ("vscode-docker.system.prune", systemPrune) ].

(** What the statement expects [activate] to wire: the providers and
    the commands, then the diagnostics collection. *)
Definition providers_and_commands : list Registration :=
  ([ HoverProvider DOCKERFILE_MODE_ID
      (DockerHoverProvider DockerfileParser DOCKERFILE_KEY_INFO);
    CompletionItemProvider DOCKERFILE_MODE_ID
      DockerfileCompletionItemProvider ["."];
    HoverProvider YAML_MODE_ID
      (DockerHoverProvider DockerComposeParser composeVersionKeys_All);
    CompletionItemProvider YAML_MODE_ID
      DockerComposeCompletionItemProvider ["."] ]
  ++ map (fun c => Command (fst c) (snd c)) commands)%list.

Definition wiring : list Registration :=
  (providers_and_commands
     ++ [ DiagnosticCollection "docker-diagnostics" ])%list.

(** [ctx.subscriptions.push(register(r))] for each [r] in turn, then
    [k]. *)
Definition wire_all (rs : list Registration) (k : action unit)
  : action unit :=
  fold_right
    (fun r k' => Extension.seq (push_of (register r)) (fun _ => k')) k rs.

(** The end of [activate], from the creation of the diagnostics
    collection on. *)
Definition diagnostics_and_listeners : action unit :=
  (d <- createDiagnosticCollection "docker-diagnostics" ;;
   set_diagnosticCollection d ;;;
   push d ;;;
   subscribe onDidChangeTextDocument scheduleValidate
     (Some ctx_subscriptions) None ;;;
   validate_open_documents ;;;
   subscribe onDidOpenTextDocument scheduleValidate
     (Some ctx_subscriptions) None ;;;
   subscribe onDidCloseTextDocument deleteDiagnostics
     (Some ctx_subscriptions) None ;;;
   ret tt)%action.

Definition listeners : list Registration :=
  [ EventListener onDidChangeTextDocument scheduleValidate
      (Some ctx_subscriptions);
    EventListener onDidOpenTextDocument scheduleValidate
      (Some ctx_subscriptions);
    EventListener onDidCloseTextDocument deleteDiagnostics
      (Some ctx_subscriptions) ].

(** The disposables [n], [n + 1], ..., [n + m - 1]. *)
Definition offsets (n m : nat) : list nat :=
  map (fun k => n + k) (List.seq 0 m).

End Wiring.



(** The lateness of the first [n] delays together. *)
Fixpoint lateness_sum {timers : AzureAccount.Timers} (n : nat) : N :=
  match n with
  | O => 0%N
  | S k => (lateness_sum k + AzureAccount.lateness k)%N
  end.

(** When the delay of the body number [k] (from 0) is due: one second
    after the body before it resumed. *)
Definition due {timers : AzureAccount.Timers} (k : nat) : N :=
  (1000 * N.of_nat (S k) + lateness_sum k)%N.



(* ================================================================== *)
(** * AzureAccountTreeItem.ts: the caller of the poll *)
(* ================================================================== *)

Module AzureAccountTree.
Import AzureAccount.

(** Of a tree item, [loadMoreChildrenImpl] reads the command. *)
Record AzExtTreeItem : Type := {
  label : string;
  commandId : option string
}.

(** [treeItems.length === 1
     && treeItems[0].commandId === 'extension.open'] *)
Definition asks_to_install (treeItems : list AzExtTreeItem) : bool :=
  (List.length treeItems =? 1)%nat
  && match nth_error treeItems 0 with
     | Some item =>
         match commandId item with
         | Some c => c =? "extension.open"
         | None => false
         end
     | None => false
     end.

(** [loadMoreChildrenImpl]: the items of the base class, which
    [super_loadMoreChildrenImpl] stands for, are returned as they are;
    the poll is started and not awaited.  The second component is the
    poll that was started, if any, with its outcome for [fuel]. *)
Definition loadMoreChildrenImpl {timers : Timers} (fuel : nat)
    (super_loadMoreChildrenImpl : result (list AzExtTreeItem))
  : result (list AzExtTreeItem) * option (option State) :=
  match super_loadMoreChildrenImpl with
  | Ok treeItems =>
      (Ok treeItems,
       if asks_to_install treeItems
       then Some (refreshNodeWhenAzureExtensionIsInstalled fuel)
       else None)
  | Throw e => (Throw e, None)
  end.

End AzureAccountTree.

(* ================================================================== *)
(** * constants.ts and dockerExtension.ts: regular expressions *)
(* ================================================================== *)

(** [imageTagRegExp] and [FROM_DIRECTIVE_PATTERN] need more of the
    language than the expressions of [configureDotNetCore.ts]: classes
    with ranges, bounded and unbounded greedy repetition of a class, a
    negative lookahead, an optional group, numbered capture groups and
    the [i] flag.  [before] is the input up to the current position,
    [rest] the input from it. *)
Module Pattern.

Inductive pattern : Type :=
| Empty
| Char (cls : ascii -> bool)
| Repeat (cls : ascii -> bool) (min : nat) (max : option nat)
| NotAhead (cls : ascii -> bool)
| Bol
| Eol
| Seq (p q : pattern)
| Group (i : nat) (p : pattern)
| Optional (p : pattern).

(** The captures of the groups 1, 2, ...; [None] is [undefined]. *)
Definition captures : Type := list (option string).

Fixpoint set (i : nat) (v : string) (caps : captures) : captures :=
  match caps, i with
  | [], _ => []
  | _ :: caps', O => Some v :: caps'
  | c :: caps', S j => c :: set j v caps'
  end.

(** [cls{min,max}], greedy: one more code unit while the class and
    [max] allow it, the continuation [k] where that fails and [min] is
    reached. *)
Fixpoint greedy {R : Type} (cls : ascii -> bool)
    (k : string -> string -> option R) (min : nat) (max : option nat)
    (before rest : string) {struct rest} : option R :=
  let stop := match min with O => k before rest | S _ => None end in
  match rest with
  | String c rest' =>
      if negb (match max with Some O => true | _ => false end) && cls c
      then
        match greedy cls k (Nat.pred min) (option_map Nat.pred max)
                (before ++ String c EmptyString) rest' with
        | Some r => Some r
        | None => stop
        end
      else stop
  | EmptyString => stop
  end.

(** The matcher of a pattern, in the continuation-passing style of the
    ECMAScript specification.  No [m] flag: [^] and [$] stand for the
    ends of the input.  An optional part is tried first, and an
    iteration that consumed nothing is refused. *)
Fixpoint exec {R : Type} (p : pattern)
    (k : string -> string -> captures -> option R)
    (before rest : string) (caps : captures) {struct p} : option R :=
  match p with
  | Empty => k before rest caps
  | Char cls =>
      match rest with
      | String c rest' =>
          if cls c then k (before ++ String c EmptyString) rest' caps
          else None
      | EmptyString => None
      end
  | Repeat cls min max =>
      greedy cls (fun b r => k b r caps) min max before rest
  | NotAhead cls =>
      match rest with
      | String c _ => if cls c then None else k before rest caps
      | EmptyString => k before rest caps
      end
  | Bol => if (length before =? 0)%nat then k before rest caps else None
  | Eol =>
      match rest with
      | EmptyString => k before rest caps
      | String _ _ => None
      end
  | Seq p q => exec p (fun b r cs => exec q k b r cs) before rest caps
  | Group i p =>
      exec p
        (fun b r cs => k b r (set i (Str.drop (length before) b) cs))
        before rest caps
  | Optional p =>
      match exec p
              (fun b r cs =>
                 if (length b =? length before)%nat then None
                 else k b r cs)
              before rest caps with
      | Some r => Some r
      | None => k before rest caps
      end
  end.

(** A regular expression without the [g] and [y] flags: its pattern and
    the number of its groups. *)
Record regexp : Type := {
  source : pattern;
  groups : nat
}.

(** The first position, from the left, at which the pattern matches. *)
Fixpoint search (re : regexp) (before rest : string) : option captures :=
  match exec (source re) (fun _ _ caps => Some caps) before rest
          (List.repeat None (groups re)) with
  | Some caps => Some caps
  | None =>
      match rest with
      | String c rest' => search re (before ++ String c EmptyString) rest'
      | EmptyString => None
      end
  end.

(** [re.exec(input)] without its first item, and [re.test(input)]. *)
Definition match_groups (re : regexp) (input : string) : option captures :=
  search re EmptyString input.

Definition test (re : regexp) (input : string) : bool :=
  match match_groups re input with Some _ => true | None => false end.

Fixpoint seq (ps : list pattern) : pattern :=
  match ps with
  | [] => Empty
  | [p] => p
  | p :: ps' => Seq p (seq ps')
  end.

(** Classes. *)
Definition code (c : ascii) : nat := nat_of_ascii c.

Definition range (lo hi c : ascii) : bool :=
  (code lo <=? code c)%nat && (code c <=? code hi)%nat.

Definition one (a c : ascii) : bool := Ascii.eqb a c.

Definition union (classes : list (ascii -> bool)) (c : ascii) : bool :=
  existsb (fun cls => cls c) classes.

(** [\w] and [\s]; of the white space and the line terminators, the
    code units below 256. *)
Definition word : ascii -> bool :=
  union [range "a" "z"; range "A" "Z"; range "0" "9"; one "_"].

Definition space (c : ascii) : bool :=
  existsb (Nat.eqb (code c)) [9; 10; 11; 12; 13; 32; 160]%nat.

(** The [i] flag: a code unit matches a class when its canonical form
    is that of a member.  The classes of the sources hold no letter
    beyond [z], so that the letters [a]-[z] and [A]-[Z] are the only
    ones that fold. *)
Definition toUpperCase (c : ascii) : ascii :=
  if range "a" "z" c then ascii_of_nat (code c - 32) else c.

Definition toLowerCase (c : ascii) : ascii :=
  if range "A" "Z" c then ascii_of_nat (code c + 32) else c.

Definition ignoreCase (cls : ascii -> bool) (c : ascii) : bool :=
  cls c || cls (toUpperCase c) || cls (toLowerCase c).

(** A literal text under the [i] flag. *)
Fixpoint literal_i (s : string) : list pattern :=
  match s with
  | EmptyString => []
  | String c s' => Char (ignoreCase (one c)) :: literal_i s'
  end.

End Pattern.

(** The expressions of [constants.ts]; [FROM_DIRECTIVE_PATTERN] is
    declared with the same text in [dockerExtension.ts]. *)
Module constants.
Import Pattern.

(** ['^[a-zA-Z0-9.-_/]{1,256}:(?![.-])[a-zA-Z0-9.-_]{1,128}$']: in
    both classes [.-_] is the range from [.] to [_]. *)
Definition repositoryClass : ascii -> bool :=
  union [range "a" "z"; range "A" "Z"; range "0" "9"; range "." "_";
         one "/"].

Definition tagClass : ascii -> bool :=
  union [range "a" "z"; range "A" "Z"; range "0" "9"; range "." "_"].

Definition dotOrDash : ascii -> bool := union [one "."; one "-"].

Definition imageTagRegExp : regexp :=
  {| source :=
       seq [Bol; Repeat repositoryClass 1 (Some 256); Char (one ":");
            NotAhead dotOrDash; Repeat tagClass 1 (Some 128); Eol];
     groups := 0 |}.

(** [/^\s*FROM\s*([\w-\/:]* )(\s*AS\s*[a-z][a-z0-9-_\\.]* )?$/i],
    written here with a blank before each closing parenthesis: the
    image reference is the first group, the stage with its [AS] the
    second, optional one. *)
Definition imageClass : ascii -> bool :=
  union [word; one "-"; one "/"; one ":"].

Definition stageClass : ascii -> bool :=
  union [range "a" "z"; range "0" "9"; one "-"; one "_";
         one (ascii_of_nat 92); one "."].

Definition FROM_DIRECTIVE_PATTERN : regexp :=
  {| source :=
       seq ([Bol; Repeat (ignoreCase space) 0 None]
              ++ literal_i "FROM"
              ++ [Repeat (ignoreCase space) 0 None;
                  Group 0 (Repeat (ignoreCase imageClass) 0 None);
                  Optional
                    (Group 1
                       (seq ([Repeat (ignoreCase space) 0 None]
                               ++ literal_i "AS"
                               ++ [Repeat (ignoreCase space) 0 None;
                                   Char (ignoreCase (range "a" "z"));
                                   Repeat (ignoreCase stageClass) 0 None])));
                  Eol]);
     groups := 2 |}.

End constants.

(* ================================================================== *)
(** * Vocabulary of the further statements *)
(* ================================================================== *)

(** [n] line feeds. *)
Fixpoint lineFeeds (n : nat) : string :=
  match n with
  | O => EmptyString
  | S k => Str.newline ++ lineFeeds k
  end.

(** Lines 340-342: the two replacements that collapse blank lines. *)
Definition collapseBlankLines (dockerFileContents : string) : string :=
  collapseRuns Str.newline (Str.newline ++ Str.newline)
    (collapseRuns crlf (crlf ++ crlf) dockerFileContents).

(** What is left of a run of [n] line feeds. *)
Definition collapsed (n : nat) : nat := 2 * (n / 4) + Nat.min (n mod 4) 2.

(** [s] with every backslash turned into a slash. *)
Fixpoint posix (s : string) : string :=
  match s with
  | EmptyString => EmptyString
  | String c s' =>
      String (if Ascii.eqb c (ascii_of_nat 92) then "/"%char else c)
        (posix s')
  end.

(** Lines 325-326: the TargetFramework read from the project file. *)
Definition targetFramework (projFileContents : string) : string :=
  first (extractRegExGroups projFileContents targetFrameworkElementRegExp
           [EmptyString]).

(** Lines 322-334: the service path that [scaffoldNetCore] hands to
    [genDockerFile] for a project file. *)
Definition servicePath {workspace : Workspace} (context : ScaffolderContext)
    (rootRelativeProjectFileName : string) : string :=
  let serviceNameAndPathRelative :=
    slice_to_minus rootRelativeProjectFileName
      (length (path.extname rootRelativeProjectFileName)) in
  JS.replaceAll Str.backslash "/"
    (if truthy (context_outputFolder context) then
       path_relative (nullish (context_outputFolder context) EmptyString)
         (path_join (context_rootFolder context) serviceNameAndPathRelative)
     else serviceNameAndPathRelative).

(** Lines 319-320: the project file relative to the workspace folder. *)
Definition artifactPath {workspace : Workspace} (context : ScaffolderContext)
    (rootRelativeProjectFileName : string) : string :=
  path_posix_relative (context_folder context)
    (path_posix_join (context_rootFolder context)
       rootRelativeProjectFileName).

(** Lines 309-317: the telemetry properties once the project is found. *)
Definition telemetryOf {workspace : Workspace} (context : ScaffolderContext)
    (os : option string) (rootRelativeProjectFileName : string)
  : ConfigureTelemetryProperties :=
  {| configureOs := os;
     packageFileType := Some (path.extname rootRelativeProjectFileName);
     packageFileSubfolderDepth :=
       Some (getSubfolderDepth (context_rootFolder context)
               rootRelativeProjectFileName) |}.

(** Lines 352-357: what the debugging initialiser is awaited with. *)
Definition debuggingInitialised {workspace : Workspace}
    (context : ScaffolderContext) (rootRelativeProjectFileName : string)
  : result unit :=
  if context_initializeForDebugging context then
    initializeNetCoreForDebugging
      (path_posix_join "${workspaceFolder}"
         (path_relative (context_folder context)
            (path_resolve (context_rootFolder context)
               (path_join
                  (nullish (context_outputFolder context)
                     (path.dirname rootRelativeProjectFileName))
                  "Dockerfile"))))
      (path_posix_join "${workspaceFolder}"
         (artifactPath context rootRelativeProjectFileName))
      (context_os context)
  else Ok tt.

(** Two workspaces that differ by the answers of their prompts at
    most. *)
Definition same_but_prompts (w1 w2 : Workspace) : Prop :=
  @globAsync w1 = @globAsync w2
  /\ @showQuickPick w1 = @showQuickPick w2
  /\ @readFile w1 = @readFile w2
  /\ @initializeNetCoreForDebugging w1 = @initializeNetCoreForDebugging w2
  /\ @getSubfolderDepth w1 = @getSubfolderDepth w2
  /\ @path_join w1 = @path_join w2
  /\ @path_relative w1 = @path_relative w2
  /\ @path_resolve w1 = @path_resolve w2
  /\ @path_posix_join w1 = @path_posix_join w2
  /\ @path_posix_relative w1 = @path_posix_relative w2.

(** Timers that are never late. *)
Definition punctual {timers : AzureAccount.Timers} : Prop :=
  forall k, AzureAccount.lateness k = 0%N.

(** The check number [k] (from 0) is the first that finds the
    extension. *)
Definition first_found_at {timers : AzureAccount.Timers} (k : nat) : Prop :=
  AzureAccount.extension_installed k = true
  /\ forall j, (j < k)%nat -> AzureAccount.extension_installed j = false.

(** The time-out has only run once ten minutes have passed, and nothing
    but the end of the poll refreshes. *)
Definition timeout_invariant (st : AzureAccount.State) : Prop :=
  (AzureAccount.timedout st = true ->
   (AzureAccount.maxTimeout <= AzureAccount.now st)%N)
  /\ AzureAccount.refreshes st = 0%nat.

(** After [j] punctual bodies without time-out or extension. *)
Definition waiting (j : nat) : AzureAccount.State :=
  {| AzureAccount.now := 1000 * N.of_nat j;
     AzureAccount.timedout := false;
     AzureAccount.isExtensionInstalled := false;
     AzureAccount.iterations := j;
     AzureAccount.refreshes := 0 |}.


(** What a pattern matches (vocabulary of the statements): the text [m]
    between [before] and [after]. *)
Fixpoint matched (p : Pattern.pattern) (before m after : string) : Prop :=
  match p with
  | Pattern.Empty => m = EmptyString
  | Pattern.Char cls => exists c, m = String c EmptyString /\ cls c = true
  | Pattern.Repeat cls min max =>
      (min <= length m)%nat
      /\ match max with Some n => (length m <= n)%nat | None => True end
      /\ Str.all cls m = true
  | Pattern.NotAhead cls =>
      m = EmptyString
      /\ match after with
         | String c _ => cls c = false
         | EmptyString => True
         end
  | Pattern.Bol => m = EmptyString /\ before = EmptyString
  | Pattern.Eol => m = EmptyString /\ after = EmptyString
  | Pattern.Seq p q =>
      exists m1 m2,
        m = m1 ++ m2
        /\ matched p before m1 (m2 ++ after)
        /\ matched q (before ++ m1) m2 after
  | Pattern.Group _ p => matched p before m after
  | Pattern.Optional p =>
      m = EmptyString \/ (m <> EmptyString /\ matched p before m after)
  end.

(** The code units that [imageTagRegExp] lets through: those from [.]
    to [_] and the small letters. *)
Definition imageTagCodeUnit : ascii -> bool :=
  Pattern.union [Pattern.range "." "_"; Pattern.range "a" "z"].

Definition no_dot (c : ascii) : bool := negb (Ascii.eqb "." c).
Definition no_space (c : ascii) : bool := negb (Pattern.space c).

(* ================================================================== *)
(** * Further sample hosts *)
(* ================================================================== *)

Module MoreSamples.

(** The sample workspace without any project file. *)
Definition workspace_without_project : Workspace := {|
  promptForOS := Ok (Some "Linux");
  promptForPorts := fun defaults => Ok (Some defaults);
  globAsync := fun _ _ => Ok [];
  showQuickPick := @showQuickPick Sample.workspace;
  readFile := @readFile Sample.workspace;
  initializeNetCoreForDebugging :=
    @initializeNetCoreForDebugging Sample.workspace;
  getSubfolderDepth := @getSubfolderDepth Sample.workspace;
  path_join := Sample.join;
  path_relative := @path_relative Sample.workspace;
  path_resolve := Sample.join;
  path_posix_join := Sample.join;
  path_posix_relative := @path_posix_relative Sample.workspace
|}.

(** A context that leaves the target system to the prompt and asks for
    the debugging to be initialised. *)
Definition context_debugging : ScaffolderContext := {|
  context_os := None;
  context_platform := ".NET Core Console";
  context_ports := None;
  context_rootFolder := "/work";
  context_outputFolder := None;
  context_folder := "/work";
  context_initializeForDebugging := true
|}.

(** Timers that are never late, on a host where the third check is the
    first to find the extension. *)
Definition found_by_third_check : AzureAccount.Timers := {|
  AzureAccount.lateness := fun _ => 0%N;
  AzureAccount.timeout_first := fun _ => false;
  AzureAccount.extension_installed := fun k => (2 <=? k)%nat
|}.


(** The item that offers to install the Azure Account extension. *)
Definition install_item : AzureAccountTree.AzExtTreeItem := {|
  AzureAccountTree.label := "Install Azure Account Extension...";
  AzureAccountTree.commandId := Some "extension.open"
|}.

(** A context whose output folder is the empty text. *)
Definition context_empty_output : ScaffolderContext := {|
  context_os := Some "Linux";
  context_platform := "ASP.NET Core";
  context_ports := Some [80%Z; 443%Z];
  context_rootFolder := "/work";
  context_outputFolder := Some EmptyString;
  context_folder := "/work";
  context_initializeForDebugging := false
|}.

End MoreSamples.


(* ================================================================== *)
(** * Facts about strings *)
(* ================================================================== *)

Module StrFacts.
Import Str.

Lemma app_assoc (a b c : string) : (a ++ b) ++ c = a ++ b ++ c.
Proof. induction a as [|x a IH]; simpl; [reflexivity | now rewrite IH]. Qed.

Lemma app_nil_r (a : string) : a ++ EmptyString = a.
Proof. induction a as [|x a IH]; simpl; [reflexivity | now rewrite IH]. Qed.

Lemma length_app (a b : string) :
  length (a ++ b) = (length a + length b)%nat.
Proof. induction a as [|x a IH]; simpl; [reflexivity | now rewrite IH]. Qed.

Lemma all_app (p : ascii -> bool) (a b : string) :
  all p (a ++ b) = all p a && all p b.
Proof.
  induction a as [|x a IH]; simpl; [reflexivity|].
  now rewrite IH, andb_assoc.
Qed.

Lemma lacks_app (c : ascii) (a b : string) :
  lacks c (a ++ b) = lacks c a && lacks c b.
Proof. apply all_app. Qed.

Lemma lacks_cons (c d : ascii) (s : string) :
  lacks c (String d s) = true -> Ascii.eqb c d = false /\ lacks c s = true.
Proof.
  unfold lacks; simpl. intros E. apply andb_true_iff in E as [E1 E2].
  split; [now apply negb_true_iff|assumption].
Qed.

Lemma prefix_app (p s : string) : prefix p (p ++ s) = true.
Proof.
  induction p as [|x p IH]; simpl.
  - now destruct s.
  - destruct (ascii_dec x x); [assumption | congruence].
Qed.

Lemma prefix_cons (c d : ascii) (p s : string) :
  prefix (String c p) (String d s) = Ascii.eqb c d && prefix p s.
Proof.
  simpl. destruct (ascii_dec c d) as [->|N].
  - now rewrite Ascii.eqb_refl.
  - apply Ascii.eqb_neq in N. now rewrite N.
Qed.

Lemma prefix_nil (s : string) : prefix EmptyString s = true.
Proof. now destruct s. Qed.

Lemma drop_app (p s : string) : drop (length p) (p ++ s) = s.
Proof. induction p as [|x p IH]; simpl; [reflexivity | assumption]. Qed.

Lemma prefix_split (p s : string) :
  prefix p s = true -> s = p ++ drop (length p) s.
Proof.
  revert s; induction p as [|x p IH]; intros s E; [reflexivity|].
  destruct s as [|y s]; [discriminate|].
  rewrite prefix_cons in E. apply andb_true_iff in E as [E1 E2].
  apply Ascii.eqb_eq in E1; subst y. simpl. f_equal. now apply IH.
Qed.

(** A pattern cannot run across a character that it does not contain. *)
Lemma prefix_barrier (c : ascii) (p t u : string) :
  lacks c p = true -> prefix p (t ++ String c u) = true ->
  (length p <= length t)%nat.
Proof.
  revert t; induction p as [|x p IH]; intros t L E; simpl; [lia|].
  apply lacks_cons in L as [L1 L2].
  destruct t as [|y t]; simpl in E |- *.
  - destruct (ascii_dec x c) as [->|N]; [|discriminate].
    now rewrite Ascii.eqb_refl in L1.
  - destruct (ascii_dec x y); [|discriminate].
    apply le_n_S. now apply IH.
Qed.

Lemma drop_app_le (n : nat) (t u : string) :
  (n <= length t)%nat -> drop n (t ++ u) = drop n t ++ u.
Proof.
  revert t; induction n as [|n IH]; intros t Hn; [reflexivity|].
  destruct t as [|y t]; simpl in *; [lia|]. apply IH; lia.
Qed.

Lemma ends_with_drop (s t : string) :
  ends_with s t -> drop (length s - length t) s = t.
Proof.
  intros [pre ->]. rewrite length_app.
  replace (length pre + length t - length t)%nat with (length pre) by lia.
  apply drop_app.
Qed.

Lemma length_drop (n : nat) (t : string) :
  length (drop n t) = (length t - n)%nat.
Proof.
  revert t; induction n as [|n IH]; intros t; simpl; [lia|].
  destruct t as [|y t]; simpl; [reflexivity | apply IH].
Qed.

End StrFacts.

(* ================================================================== *)
(** * Facts about [replace] *)
(* ================================================================== *)

Module JSFacts.
Import Str StrFacts JS.

(** A replacement text without [$] is inserted as it is. *)
Lemma GetSubstitution_plain (m b a r : string) :
  lacks "$" r = true -> GetSubstitution m b a r = r.
Proof.
  induction r as [|c r IH]; intros L; [reflexivity|].
  apply lacks_cons in L as [L1 L2].
  cbn [GetSubstitution]. rewrite Ascii.eqb_sym, L1. now rewrite IH.
Qed.

(** ** First occurrence *)

Lemma replace_from_hit (pat repl pre s : string) :
  replace_from pat repl pre (pat ++ s)
  = GetSubstitution pat pre s repl ++ s.
Proof.
  destruct pat as [|c pat].
  - simpl append. destruct s; simpl; reflexivity.
  - cbn [append replace_from].
    change (String c (pat ++ s)) with (String c pat ++ s).
    now rewrite prefix_app, drop_app.
Qed.

Lemma replace_from_miss (pat repl pre : string) (c : ascii) (s : string) :
  prefix pat (String c s) = false ->
  replace_from pat repl pre (String c s)
  = String c (replace_from pat repl (pre ++ String c EmptyString) s).
Proof. intros E. cbn [replace_from]. now rewrite E. Qed.

(** Text without the first character of the pattern is passed over. *)
Lemma replace_from_skip (c0 : ascii) (pat repl pre a s : string) :
  lacks c0 a = true ->
  replace_from (String c0 pat) repl pre (a ++ s)
  = a ++ replace_from (String c0 pat) repl (pre ++ a) s.
Proof.
  revert pre; induction a as [|d a IH]; intros pre L.
  - now rewrite app_nil_r.
  - apply lacks_cons in L as [L1 L2]. cbn [append].
    rewrite replace_from_miss by (now rewrite prefix_cons, L1).
    rewrite IH by assumption. now rewrite app_assoc.
Qed.

Lemma replace_from_nil (c0 : ascii) (pat repl pre : string) :
  replace_from (String c0 pat) repl pre EmptyString = EmptyString.
Proof. reflexivity. Qed.

(** ** Every occurrence *)

Lemma replaceAll_from_skipping (pat repl pre a s : string) :
  replaceAll_from pat repl pre (length a) (a ++ s)
  = replaceAll_from pat repl (pre ++ a) 0 s.
Proof.
  revert pre; induction a as [|d a IH]; intros pre.
  - now rewrite app_nil_r.
  - cbn [append length replaceAll_from]. rewrite IH. now rewrite app_assoc.
Qed.

Lemma replaceAll_from_hit (c0 : ascii) (pat repl pre s : string) :
  replaceAll_from (String c0 pat) repl pre 0 (String c0 pat ++ s)
  = GetSubstitution (String c0 pat) pre s repl
      ++ replaceAll_from (String c0 pat) repl (pre ++ String c0 pat) 0 s.
Proof.
  cbn [append replaceAll_from].
  change (String c0 (pat ++ s)) with (String c0 pat ++ s).
  rewrite prefix_app, drop_app. f_equal.
  replace (length (String c0 pat) - 1)%nat with (length pat)
    by (simpl; lia).
  rewrite replaceAll_from_skipping. now rewrite app_assoc.
Qed.

Lemma replaceAll_from_miss (pat repl pre : string) (c : ascii)
    (s : string) :
  prefix pat (String c s) = false ->
  replaceAll_from pat repl pre 0 (String c s)
  = String c (replaceAll_from pat repl (pre ++ String c EmptyString) 0 s).
Proof. intros E. cbn [replaceAll_from]. now rewrite E. Qed.

Lemma replaceAll_from_skip (c0 : ascii) (pat repl pre a s : string) :
  lacks c0 a = true ->
  replaceAll_from (String c0 pat) repl pre 0 (a ++ s)
  = a ++ replaceAll_from (String c0 pat) repl (pre ++ a) 0 s.
Proof.
  revert pre; induction a as [|d a IH]; intros pre L.
  - now rewrite app_nil_r.
  - apply lacks_cons in L as [L1 L2]. cbn [append].
    rewrite replaceAll_from_miss by (now rewrite prefix_cons, L1).
    rewrite IH by assumption. now rewrite app_assoc.
Qed.

Lemma replaceAll_from_nil (pat repl pre : string) (skip : nat) :
  replaceAll_from pat repl pre skip EmptyString = EmptyString.
Proof. reflexivity. Qed.

End JSFacts.

(* ================================================================== *)
(** * The templates, filled *)
(* ================================================================== *)

Module TemplateFacts.
Import Str StrFacts JS JSFacts.

Lemma clash_prefix (p t s : string) :
  clash p t = true -> prefix p (t ++ s) = false.
Proof.
  revert t; induction p as [|a p IH]; intros t E; [discriminate|].
  destruct t as [|b t]; [discriminate|].
  cbn [append]. rewrite prefix_cons. simpl in E.
  destruct (Ascii.eqb a b); [|reflexivity].
  now rewrite IH.
Qed.

(** Text in which no occurrence of the pattern starts is passed over. *)
Lemma replaceAll_from_pass (pat repl pre a b s : string) :
  no_match pat a b = true ->
  replaceAll_from pat repl pre 0 (a ++ b ++ s)
  = a ++ replaceAll_from pat repl (pre ++ a) 0 (b ++ s).
Proof.
  revert pre; induction a as [|c a IH]; intros pre E.
  - now rewrite app_nil_r.
  - cbn [no_match] in E. apply andb_true_iff in E as [E1 E2].
    cbn [append]. rewrite replaceAll_from_miss.
    + rewrite IH by assumption. now rewrite app_assoc.
    + change (String c (a ++ b ++ s)) with (String c a ++ b ++ s).
      rewrite <- app_assoc. now apply clash_prefix.
Qed.

Lemma replace_from_pass (pat repl pre a b s : string) :
  no_match pat a b = true ->
  replace_from pat repl pre (a ++ b ++ s)
  = a ++ replace_from pat repl (pre ++ a) (b ++ s).
Proof.
  revert pre; induction a as [|c a IH]; intros pre E.
  - now rewrite app_nil_r.
  - cbn [no_match] in E. apply andb_true_iff in E as [E1 E2].
    cbn [append]. rewrite replace_from_miss.
    + rewrite IH by assumption. now rewrite app_assoc.
    + change (String c (a ++ b ++ s)) with (String c a ++ b ++ s).
      rewrite <- app_assoc. now apply clash_prefix.
Qed.

Lemma linux_pieces : aspNetCoreLinuxTemplate = templateBody.
Proof. reflexivity. Qed.

Lemma windows_pieces :
  aspNetCoreWindowsTemplate = windowsComment ++ templateBody.
Proof. reflexivity. Qed.

(** With a replacement text without [$], the text before the match
    does not matter. *)
Lemma replaceAll_from_pre (pat repl pre pre' : string) (skip : nat)
    (s : string) :
  lacks "$" repl = true ->
  replaceAll_from pat repl pre skip s = replaceAll_from pat repl pre' skip s.
Proof.
  intros L. revert pre pre' skip.
  induction s as [|c s IH]; intros pre pre' skip; [reflexivity|].
  cbn [replaceAll_from]. destruct skip as [|k].
  - destruct (prefix pat (String c s)).
    + rewrite !GetSubstitution_plain by assumption. f_equal. apply IH.
    + f_equal. apply IH.
  - apply IH.
Qed.

Lemma replaceAll_hit (c0 : ascii) (pat repl s : string) :
  lacks "$" repl = true ->
  replaceAll (String c0 pat) repl (String c0 pat ++ s)
  = repl ++ replaceAll (String c0 pat) repl s.
Proof.
  intros L. unfold replaceAll. rewrite replaceAll_from_hit.
  rewrite GetSubstitution_plain by assumption. f_equal.
  now apply replaceAll_from_pre.
Qed.

Lemma replaceAll_skip (c0 : ascii) (pat repl a s : string) :
  lacks "$" repl = true -> lacks c0 a = true ->
  replaceAll (String c0 pat) repl (a ++ s)
  = a ++ replaceAll (String c0 pat) repl s.
Proof.
  intros L La. unfold replaceAll. rewrite replaceAll_from_skip by assumption.
  f_equal. now apply replaceAll_from_pre.
Qed.

Lemma replaceAll_pass (pat repl a b s : string) :
  lacks "$" repl = true -> no_match pat a b = true ->
  replaceAll pat repl (a ++ b ++ s) = a ++ replaceAll pat repl (b ++ s).
Proof.
  intros L N. unfold replaceAll. rewrite replaceAll_from_pass by assumption.
  f_equal. now apply replaceAll_from_pre.
Qed.

Lemma replaceAll_plain (c0 : ascii) (pat repl a : string) :
  lacks c0 a = true -> replaceAll (String c0 pat) repl a = a.
Proof.
  intros L. unfold replaceAll. rewrite <- (app_nil_r a) at 1.
  rewrite replaceAll_from_skip by assumption.
  now rewrite replaceAll_from_nil, app_nil_r.
Qed.

Lemma replace_skip_hit (c0 : ascii) (pat repl a s : string) :
  lacks "$" repl = true -> lacks c0 a = true ->
  replace (String c0 pat) repl (a ++ String c0 pat ++ s) = a ++ repl ++ s.
Proof.
  intros L La. unfold replace. rewrite replace_from_skip by assumption.
  rewrite replace_from_hit. now rewrite GetSubstitution_plain.
Qed.

Ltac pass_step :=
  match goal with
  | |- context [replaceAll (String ?c ?p) ?r (String ?c ?p ++ ?s)] =>
      rewrite (replaceAll_hit c p r s) by assumption
  | |- context [replaceAll (String ?c ?p) ?r (?a ++ ?s)] =>
      rewrite (replaceAll_skip c p r a s) by (assumption || reflexivity)
  | |- context [replaceAll ?p ?r (?a ++ ?b ++ ?s)] =>
      rewrite (replaceAll_pass p r a b s) by (assumption || reflexivity)
  | |- context [replaceAll (String ?c ?p) ?r ?a] =>
      rewrite (replaceAll_plain c p r a) by (assumption || reflexivity)
  end.

Lemma substituteTokens_body (header B E S D P A C : string) :
  lacks "$" header = true ->
  lacks "$" B = true -> lacks "$" E = true -> lacks "$" S = true ->
  lacks "$" D = true -> lacks "$" P = true -> lacks "$" A = true ->
  lacks "$" C = true ->
  substituteTokens (header ++ templateBody) B E S D P A C
  = header
    ++ unlines
         [ "FROM " ++ B ++ " AS base";
           "WORKDIR /app";
           E;
           EmptyString;
           "FROM " ++ S ++ " AS build";
           "WORKDIR /src";
           C;
           "RUN dotnet restore " ++ quoted (D ++ "/" ++ P);
           "COPY . .";
           "WORKDIR " ++ quoted ("/src/" ++ D);
           "RUN dotnet build " ++ quoted P ++ " -c Release -o /app/build";
           EmptyString;
           "FROM build AS publish";
           "RUN dotnet publish " ++ quoted P
             ++ " -c Release -o /app/publish";
           EmptyString ]
    ++ finalStage A.
Proof.
  intros Hh HB HE HS HD HP HA HC.
  unfold substituteTokens, templateBody.
  rewrite <- (app_assoc header "FROM ").
  assert (Hh' : lacks "$" (header ++ "FROM ") = true)
    by (rewrite lacks_app, Hh; reflexivity).
  rewrite replace_skip_hit by assumption.
  repeat pass_step.
  unfold finalStage, unlines, quoted.
  rewrite !app_assoc. reflexivity.
Qed.
End TemplateFacts.

(* ================================================================== *)
(** * Versions and image names *)
(* ================================================================== *)

Module VersionFacts.
Import Str StrFacts JS JSFacts.

Lemma all_impl (p q : ascii -> bool) (s : string) :
  (forall c, p c = true -> q c = true) ->
  all p s = true -> all q s = true.
Proof.
  intros I. induction s as [|c s IH]; simpl; [reflexivity|].
  intros E. apply andb_true_iff in E as [E1 E2].
  now rewrite (I c E1), IH.
Qed.

Lemma digit_not (d : ascii) :
  RegExp.digit d = false ->
  forall c, RegExp.digit c = true -> negb (Ascii.eqb d c) = true.
Proof.
  intros Hd c Hc. apply negb_true_iff, Ascii.eqb_neq. congruence.
Qed.

Lemma digits_lack (d : ascii) (s : string) :
  RegExp.digit d = false -> all RegExp.digit s = true -> lacks d s = true.
Proof. intros Hd. apply all_impl. now apply digit_not. Qed.

Lemma string_of_uint_digits (d : Decimal.uint) :
  all RegExp.digit (NilEmpty.string_of_uint d) = true.
Proof. induction d; simpl; auto. Qed.

Lemma toString_digits (n : N) :
  all RegExp.digit (semver.toString n) = true.
Proof. apply string_of_uint_digits. Qed.

Lemma toString_lacks (d : ascii) (n : N) :
  RegExp.digit d = false -> lacks d (semver.toString n) = true.
Proof. intros Hd. apply digits_lack; [assumption | apply toString_digits]. Qed.

(** An image format with its three placeholders filled. *)
Lemma formatVersion_fill (repository suffix version tag : string)
    (v : semver.SemVer) :
  semver.parse version = Ok v ->
  lacks "{" repository = true -> lacks "{" suffix = true ->
  lacks "$" tag = true ->
  formatVersion
    (repository ++ ":" ++ "{0}" ++ "." ++ "{1}" ++ suffix ++ "{2}")
    version tag
  = Ok (imageName repository suffix v tag).
Proof.
  intros P Lr Ls Lt. unfold formatVersion. rewrite P. cbn [bind].
  f_equal. unfold imageName, JS.replace.
  change (suffix ++ "{2}") with (suffix ++ "{2}" ++ EmptyString).
  set (M := semver.toString (semver.major v)).
  set (m := semver.toString (semver.minor v)).
  assert (LM : lacks "{" M = true) by (now apply toString_lacks).
  assert (Lm : lacks "{" m = true) by (now apply toString_lacks).
  assert (DM : lacks "$" M = true) by (now apply toString_lacks).
  assert (Dm : lacks "$" m = true) by (now apply toString_lacks).
  repeat first
    [ rewrite replace_from_hit
    | rewrite GetSubstitution_plain by assumption
    | rewrite replace_from_skip by (assumption || reflexivity) ].
  now rewrite app_nil_r.
Qed.

Lemma gte_of_parse (version : string) (v : semver.SemVer) :
  semver.parse version = Ok v ->
  semver.gte version "2.1.0" = Ok (semver.gte_parsed v v2_1_0).
Proof. intros P. unfold semver.gte. now rewrite P. Qed.

Lemma lt_of_parse (version : string) (v : semver.SemVer) :
  semver.parse version = Ok v ->
  semver.lt version "2.0.0" = Ok (semver.lt_parsed v v2_0_0).
Proof. intros P. unfold semver.lt. now rewrite P. Qed.

Section Host.
Context {Host : Type} {osUtils : OsUtils Host}.

Lemma GetWindowsImageTag_cases (host : Host) :
  In (GetWindowsImageTag host) nanoserverTags.
Proof.
  unfold GetWindowsImageTag, nanoserverTags.
  destruct (negb (isWindows host) || isWindows1019H1OrNewer host);
    [simpl; tauto|].
  destruct (isWindows10RS5OrNewer host); [simpl; tauto|].
  destruct (isWindows10RS4OrNewer host); [simpl; tauto|].
  destruct (isWindows10RS3OrNewer host); simpl; tauto.
Qed.

Lemma nanoserverTags_plain (tag : string) :
  In tag nanoserverTags -> lacks "$" tag = true.
Proof.
  unfold nanoserverTags. simpl.
  intros [<-|[<-|[<-|[<-|[<-|[]]]]]]; reflexivity.
Qed.

Lemma windowsTag_plain (host : Host) (os : option string)
    (v : semver.SemVer) :
  lacks "$" (windowsTag host os v) = true.
Proof.
  unfold windowsTag.
  destruct (os_is os "Linux" || semver.lt_parsed v v2_0_0);
    [reflexivity|].
  apply nanoserverTags_plain, GetWindowsImageTag_cases.
Qed.

Lemma tagForWindowsVersion_of_parse (host : Host) (os : option string)
    (version : string) (v : semver.SemVer) :
  semver.parse version = Ok v ->
  tagForWindowsVersion host os version = Ok (windowsTag host os v).
Proof.
  intros P. unfold tagForWindowsVersion, windowsTag.
  destruct (os_is os "Linux"); [reflexivity|].
  rewrite (lt_of_parse _ _ P). cbn [bind orb].
  now destruct (semver.lt_parsed v v2_0_0).
Qed.

Lemma resolveImageNames_of_parse (host : Host) (platform : string)
    (os : option string) (version : string) (v : semver.SemVer) :
  is_platform platform ->
  semver.parse (netCoreAppVersion version) = Ok v ->
  resolveImageNames host platform os version
  = Ok (expectedImageNames platform v (windowsTag host os v)).
Proof.
  intros Hp P. unfold resolveImageNames, imageFormats, expectedImageNames.
  rewrite (gte_of_parse _ _ P). cbn [bind].
  pose proof (windowsTag_plain host os v) as Lt.
  destruct (semver.gte_parsed v v2_1_0);
    destruct Hp as [-> | ->]; cbn [String.eqb Ascii.eqb Bool.eqb bind fst snd];
    rewrite (tagForWindowsVersion_of_parse _ _ _ _ P); cbn [bind].
  all: unfold AspNetCoreRuntimeImageFormat, DotNetCoreSdkImageFormat,
         DotNetCoreRuntimeImageFormat, LegacyAspNetCoreRuntimeImageFormat,
         LegacyAspNetCoreSdkImageFormat, LegacyDotNetCoreRuntimeImageFormat,
         LegacyDotNetCoreSdkImageFormat.
  - rewrite (formatVersion_fill "mcr.microsoft.com/dotnet/core/aspnet"
               EmptyString _ _ v P) by (assumption || reflexivity).
    cbn [bind].
    now rewrite (formatVersion_fill "mcr.microsoft.com/dotnet/core/sdk"
                   EmptyString _ _ v P) by (assumption || reflexivity).
  - rewrite (formatVersion_fill "mcr.microsoft.com/dotnet/core/runtime"
               EmptyString _ _ v P) by (assumption || reflexivity).
    cbn [bind].
    now rewrite (formatVersion_fill "mcr.microsoft.com/dotnet/core/sdk"
                   EmptyString _ _ v P) by (assumption || reflexivity).
  - rewrite (formatVersion_fill "microsoft/aspnetcore"
               EmptyString _ _ v P) by (assumption || reflexivity).
    cbn [bind].
    now rewrite (formatVersion_fill "microsoft/aspnetcore-build"
                   EmptyString _ _ v P) by (assumption || reflexivity).
  - rewrite (formatVersion_fill "microsoft/dotnet"
               "-runtime" _ _ v P) by (assumption || reflexivity).
    cbn [bind].
    now rewrite (formatVersion_fill "microsoft/dotnet"
                   "-sdk" _ _ v P) by (assumption || reflexivity).
Qed.
End Host.
End VersionFacts.

(* ================================================================== *)
(** * The regular expressions of the sources *)
(* ================================================================== *)

Module RegExpFacts.
Import Str StrFacts RegExp VersionFacts.

(** An anchored expression matches at the start of the input only. *)
Lemma search_Bol (re : regexp) (s : string) :
  search (Bol :: re) false s = None.
Proof. induction s as [|c s IH]; simpl; [reflexivity | assumption]. Qed.

Lemma groups_Bol (re : regexp) (s : string) :
  groups (Bol :: re) s = run re true EmptyString [] s.
Proof.
  unfold groups. destruct s as [|c s]; cbn [search run].
  - now destruct (run re true EmptyString [] EmptyString).
  - destruct (run re true EmptyString [] (String c s)); [reflexivity|].
    apply search_Bol.
Qed.

Lemma run_lits_hit (l : string) (re : regexp) (a : bool)
    (grp : string) (caps : list string) (s : string) :
  run (lits l ++ re)%list a grp caps (l ++ s)
  = run re (a && (l =? EmptyString)) (grp ++ l) caps s.
Proof.
  revert a grp; induction l as [|d l IH]; intros a grp.
  - cbn. now rewrite app_nil_r, andb_true_r.
  - cbn [lits List.app append run]. rewrite Ascii.eqb_refl.
    rewrite IH. cbn. now rewrite app_assoc, andb_false_r.
Qed.

Lemma run_lits_miss (l : string) (re : regexp) (a : bool)
    (grp : string) (caps : list string) (s : string) :
  prefix l s = false -> run (lits l ++ re)%list a grp caps s = None.
Proof.
  revert a grp s; induction l as [|d l IH]; intros a grp s E.
  - now rewrite prefix_nil in E.
  - destruct s as [|c s]; [reflexivity|].
    rewrite prefix_cons in E. cbn [lits List.app run].
    destruct (Ascii.eqb d c); [|reflexivity].
    apply IH. exact E.
Qed.

(** A repetition that must reach the end of the input. *)
Lemma plus_to_end (cls : ascii -> bool) (caps : list string)
    (s grp : string) :
  plus cls (fun g s' => run [GroupClose; Eol] false g caps s') grp s
  = if negb (s =? EmptyString) && all cls s
    then Some (rev ((grp ++ s) :: caps)) else None.
Proof.
  revert grp; induction s as [|c s IH]; intros grp; [reflexivity|].
  cbn [plus all String.eqb negb andb]. destruct (cls c); [|reflexivity].
  rewrite IH. cbn [andb]. destruct s as [|d s].
  - cbn. reflexivity.
  - cbn [String.eqb negb andb]. destruct (all cls (String d s)).
    + now rewrite app_assoc.
    + reflexivity.
Qed.

Lemma run_group_to_end (cls : ascii -> bool) (a : bool)
    (caps : list string) (s grp : string) :
  run [GroupOpen; Plus cls; GroupClose; Eol] a grp caps s
  = if negb (s =? EmptyString) && all cls s
    then Some (rev (s :: caps)) else None.
Proof.
  change (run [GroupOpen; Plus cls; GroupClose; Eol] a grp caps s)
    with (plus cls (fun g s' => run [GroupClose; Eol] false g caps s')
            EmptyString s).
  now rewrite plus_to_end.
Qed.

(** The groups of [/^netcoreapp([0-9.]+)$/]. *)
Lemma targetFrameworkVersion_groups (version : string) :
  groups targetFrameworkVersionRegExp version
  = let g := drop 10 version in
    if prefix "netcoreapp" version && negb (g =? EmptyString)
         && all digit_or_dot g
    then Some [g] else None.
Proof.
  unfold targetFrameworkVersionRegExp. cbn [List.app].
  rewrite groups_Bol.
  destruct (prefix "netcoreapp" version) eqn:E.
  - rewrite (prefix_split _ _ E) at 1.
    rewrite run_lits_hit, run_group_to_end.
    cbn [length andb]. now cbn [append rev List.app].
  - cbn [andb]. now apply run_lits_miss.
Qed.

Lemma targetFrameworkVersion_match (g : string) :
  g <> EmptyString -> all digit_or_dot g = true ->
  groups targetFrameworkVersionRegExp ("netcoreapp" ++ g) = Some [g].
Proof.
  intros N A. rewrite targetFrameworkVersion_groups.
  cbv zeta. rewrite prefix_app.
  change 10%nat with (length "netcoreapp"). rewrite drop_app, A.
  apply String.eqb_neq in N. now rewrite N.
Qed.

(** The longest repetition is tried first. *)
Lemma plus_longest {R : Type} (cls : ascii -> bool)
    (k : string -> string -> option R) (x s grp : string) (r : R) :
  x <> EmptyString -> all cls x = true ->
  (forall g, plus cls k g s = None) ->
  k (grp ++ x) s = Some r ->
  plus cls k grp (x ++ s) = Some r.
Proof.
  revert grp; induction x as [|c x IH]; intros grp N A B K;
    [congruence|].
  cbn [all] in A. apply andb_true_iff in A as [A1 A2].
  cbn [append plus]. rewrite A1. destruct x as [|d x].
  - cbn [append]. now rewrite B.
  - rewrite (IH (grp ++ String c EmptyString)); try easy.
    now rewrite app_assoc.
Qed.

Lemma plus_blocked {R : Type} (cls : ascii -> bool)
    (k : string -> string -> option R) (c : ascii) (s g : string) :
  cls c = false -> plus cls k g (String c s) = None.
Proof. intros E. cbn. now rewrite E. Qed.

Lemma digit_not_dot (c : ascii) : digit c = true -> not_dot c = true.
Proof.
  intros D. unfold not_dot. apply negb_true_iff, Ascii.eqb_neq.
  intros ->. discriminate.
Qed.

Lemma digit_digit_or_dot (c : ascii) :
  digit c = true -> digit_or_dot c = true.
Proof. intros D. unfold digit_or_dot. now rewrite D. Qed.

(** [/^[^.]+\.[^.]+$/] accepts [major.minor]. *)
Lemma majorMinor_match (x y : string) :
  x <> EmptyString -> y <> EmptyString ->
  all digit x = true -> all digit y = true ->
  test majorMinorRegExp (x ++ "." ++ y) = true.
Proof.
  intros Nx Ny Ax Ay. unfold test, majorMinorRegExp.
  rewrite groups_Bol.
  change (run [Plus not_dot; Lit "."; Plus not_dot; Eol] true EmptyString []
            (x ++ "." ++ y))
    with (plus not_dot
            (fun g s' => run [Lit "."; Plus not_dot; Eol] false g [] s')
            EmptyString (x ++ "." ++ y)).
  assert (E : plus not_dot
            (fun g s' => run [Lit "."; Plus not_dot; Eol] false g [] s')
            EmptyString (x ++ "." ++ y) = Some []).
  { apply plus_longest.
    - exact Nx.
    - now apply (all_impl digit), Ax; apply digit_not_dot.
    - intros g. now apply plus_blocked.
    - cbn [append].
      change (run [Lit "."; Plus not_dot; Eol] false x [] (String "." y))
        with (plus not_dot (fun g s' => run [Eol] false g [] s')
                (x ++ ".") y).
      rewrite <- (app_nil_r y).
      apply plus_longest.
      + exact Ny.
      + now apply (all_impl digit), Ay; apply digit_not_dot.
      + reflexivity.
      + reflexivity. }
  now rewrite E.
Qed.

(** A text without [$] holds no template token. *)
Lemma search_token_plain (a : bool) (s : string) :
  lacks "$" s = true -> search templateTokenRegExp a s = None.
Proof.
  revert a; induction s as [|c s IH]; intros a L; [reflexivity|].
  apply lacks_cons in L as [L1 L2].
  cbn [search templateTokenRegExp run]. rewrite L1. now apply IH.
Qed.

Lemma has_token_plain (s : string) :
  lacks "$" s = true -> has_token s = false.
Proof.
  intros L. unfold has_token, test, groups.
  now rewrite search_token_plain.
Qed.

(** The version handed to semver is made of digits and dots. *)
Lemma netCoreAppVersion_alphabet (version : string) :
  all digit_or_dot (netCoreAppVersion version) = true.
Proof.
  unfold netCoreAppVersion, extractRegExGroups.
  rewrite targetFrameworkVersion_groups. cbv zeta.
  destruct (prefix "netcoreapp" version
            && negb (drop 10 version =? EmptyString)
            && all digit_or_dot (drop 10 version)) eqn:E.
  - apply andb_true_iff in E as [_ A]. cbn [first hd].
    destruct (test majorMinorRegExp (drop 10 version)); [|exact A].
    now rewrite all_app, A.
  - reflexivity.
Qed.

(** What a repetition that succeeds has consumed. *)
Lemma plus_consumed {R : Type} (cls : ascii -> bool)
    (k : string -> string -> option R) (s grp : string) (r : R) :
  plus cls k grp s = Some r ->
  exists g t,
    s = g ++ t /\ g <> EmptyString /\ all cls g = true
    /\ k (grp ++ g) t = Some r.
Proof.
  revert grp; induction s as [|c s IH]; intros grp E; [discriminate|].
  cbn [plus] in E. destruct (cls c) eqn:C; [|discriminate].
  destruct (plus cls k (grp ++ String c EmptyString) s) eqn:P.
  - injection E as <-. apply IH in P as (g & t & -> & _ & A & K).
    exists (String c g), t. cbn [all append]. rewrite C, A.
    rewrite app_assoc in K. now repeat split.
  - exists (String c EmptyString), s. cbn [all append]. rewrite C.
    now repeat split.
Qed.

Lemma search_found (re : regexp) (pre s : string) (a : bool)
    (gs : list string) :
  (forall a', run re a' EmptyString [] s = Some gs) ->
  exists gs', search re a (pre ++ s) = Some gs'.
Proof.
  intros M. revert a; induction pre as [|c pre IH]; intros a.
  - exists gs. cbn [append]. destruct s; cbn [search]; now rewrite M.
  - cbn [append search].
    destruct (run re a EmptyString [] (String c (pre ++ s))); [eauto|].
    apply IH.
Qed.

Lemma search_position (re : regexp) (s : string) (a : bool)
    (gs : list string) :
  search re a s = Some gs ->
  exists pre s' a', s = pre ++ s' /\ run re a' EmptyString [] s' = Some gs.
Proof.
  revert a; induction s as [|c s IH]; intros a E.
  - cbn [search] in E.
    destruct (run re a EmptyString [] EmptyString) eqn:R; [|discriminate].
    injection E as <-. now exists EmptyString, EmptyString, a.
  - cbn [search] in E.
    destruct (run re a EmptyString [] (String c s)) eqn:R.
    + injection E as <-. now exists EmptyString, (String c s), a.
    + apply IH in E as (pre & s' & a' & -> & M).
      now exists (String c pre), s', a'.
Qed.

(** [has_token] holds of the texts that contain [$name$], where [name]
    is one or more lower-case letters or underscores. *)
Lemma has_token_iff (s : string) :
  has_token s = true
  <-> exists pre name post,
        s = pre ++ "$" ++ name ++ "$" ++ post
        /\ name <> EmptyString /\ all lower_or_underscore name = true.
Proof.
  unfold has_token, test, groups. split.
  - destruct (search templateTokenRegExp true s) as [gs|] eqn:E;
      [intros _ | discriminate].
    apply search_position in E as (pre & s' & a' & -> & M).
    unfold templateTokenRegExp in M. cbn [run] in M.
    destruct s' as [|c s']; [discriminate|].
    destruct (Ascii.eqb_spec "$" c) as [<-|]; [|discriminate].
    change (plus lower_or_underscore
              (fun g t => run [Lit "$"; GroupClose] false g [] t)
              (EmptyString ++ "$") s' = Some gs) in M.
    apply plus_consumed in M as (name & t & -> & N & A & K).
    cbn [run] in K. destruct t as [|d t]; [discriminate|].
    destruct (Ascii.eqb_spec "$" d) as [<-|]; [|discriminate].
    now exists pre, name, t.
  - intros (pre & name & post & -> & N & A).
    destruct (search_found templateTokenRegExp pre
                ("$" ++ name ++ "$" ++ post) true ["$" ++ name ++ "$"])
      as [gs' ->]; [|reflexivity].
    intros a'. unfold templateTokenRegExp. cbn [run append].
    change (plus lower_or_underscore
              (fun g t => run [Lit "$"; GroupClose] false g [] t)
              "$" (name ++ String "$" post)
            = Some [String "$" (name ++ "$")]).
    apply plus_longest; try assumption.
    + intros g. now apply plus_blocked.
    + reflexivity.
Qed.

End RegExpFacts.

(* ================================================================== *)
(** * The final stage of the templates *)
(* ================================================================== *)

Module TailFacts.
Import Str StrFacts JS JSFacts TemplateFacts.

(** A character that the pattern does not contain stops every match:
    what follows it is replaced as if it stood alone. *)
Lemma replaceAll_from_barrier (pat repl : string) (c : ascii) (u : string) :
  lacks c pat = true ->
  forall (s pre : string) (skip : nat),
    (skip <= length s)%nat ->
    exists out pre',
      replaceAll_from pat repl pre skip (s ++ String c u)
      = out ++ replaceAll_from pat repl pre' 0 (String c u).
Proof.
  intros L. induction s as [|d s IH]; intros pre skip Hs.
  - exists EmptyString, pre. simpl in Hs.
    now replace skip with 0%nat by lia.
  - cbn [append replaceAll_from]. destruct skip as [|k].
    + destruct (prefix pat (String d (s ++ String c u))) eqn:E.
      * change (String d (s ++ String c u))
          with (String d s ++ String c u) in E.
        pose proof (prefix_barrier _ _ _ _ L E) as B. cbn [length] in B.
        destruct (IH (pre ++ String d EmptyString) (length pat - 1)%nat)
          as (out & pre' & Ho); [lia|].
        rewrite Ho. eexists (_ ++ out), pre'. now rewrite app_assoc.
      * destruct (IH (pre ++ String d EmptyString) 0%nat)
          as (out & pre' & Ho); [lia|].
        rewrite Ho. now exists (String d out), pre'.
    + cbn [length] in Hs.
      destruct (IH (pre ++ String d EmptyString) k) as (out & pre' & Ho);
        [lia|].
      rewrite Ho. now exists out, pre'.
Qed.

(** An end that the replacement maps to [t'] becomes [t']. *)
Lemma replaceAll_end (pat repl : string) (c : ascii) (t t' s : string) :
  lacks c pat = true -> starts_with t (String c EmptyString) ->
  (forall pre, replaceAll_from pat repl pre 0 t = t') ->
  ends_with s t -> ends_with (replaceAll pat repl s) t'.
Proof.
  intros L [u ->] K [front ->]. unfold replaceAll. cbn [append] in *.
  destruct (replaceAll_from_barrier pat repl c u L front EmptyString 0)
    as (out & pre' & Ho); [lia|].
  rewrite Ho, K. now exists out.
Qed.

Lemma replace_end (pat repl : string) (c : ascii) (t s : string) :
  lacks c pat = true -> starts_with t (String c EmptyString) ->
  (forall pre, replace_from pat repl pre t = t) ->
  ends_with s t -> ends_with (replace pat repl s) t.
Proof.
  intros L [u ->] K [front ->]. unfold replace. cbn [append] in *.
  generalize EmptyString as pre.
  induction front as [|d s IH]; intros pre.
  - exists EmptyString. apply K.
  - cbn [append replace_from].
    destruct (prefix pat (String d (s ++ String c u))) eqn:E.
    + change (String d (s ++ String c u))
        with (String d s ++ String c u) in E |- *.
      pose proof (prefix_barrier _ _ _ _ L E) as B.
      rewrite (drop_app_le _ _ _ B).
      eexists. now rewrite <- app_assoc.
    + destruct (IH (pre ++ String d EmptyString)) as [out Ho].
      rewrite Ho. now exists (String d out).
Qed.

Lemma replaceAll_from_plain (c0 : ascii) (pat repl pre a : string) :
  lacks c0 a = true ->
  replaceAll_from (String c0 pat) repl pre 0 a = a.
Proof.
  intros L. rewrite <- (app_nil_r a) at 1.
  rewrite replaceAll_from_skip by assumption.
  now rewrite replaceAll_from_nil, app_nil_r.
Qed.

Lemma replace_from_plain (c0 : ascii) (pat repl pre a : string) :
  lacks c0 a = true ->
  replace_from (String c0 pat) repl pre a = a.
Proof.
  intros L. rewrite <- (app_nil_r a) at 1.
  rewrite replace_from_skip by assumption.
  now rewrite replace_from_nil, app_nil_r.
Qed.

Lemma templateFor_end (os : option string) :
  ends_with (templateFor os) templateEnd.
Proof.
  unfold templateFor. destruct (os_is os "Linux").
  - exists (take (length templateBody - length templateEnd) templateBody).
    reflexivity.
  - exists (windowsComment
              ++ take (length templateBody - length templateEnd)
                   templateBody).
    reflexivity.
Qed.

Lemma finalStage_pieces (A : string) :
  newline ++ finalStage A = finalStageHead ++ A ++ finalStageEnd.
Proof.
  unfold finalStage, finalStageHead, finalStageEnd, unlines, quoted.
  rewrite !app_assoc. reflexivity.
Qed.

(** Another token leaves the end of the templates as it is. *)
Lemma templateEnd_kept (pat repl pre : string) :
  no_match pat "$assembly_name$" finalStageEnd = true ->
  prefix "$" pat = true ->
  replaceAll_from pat repl pre 0 templateEnd = templateEnd.
Proof.
  intros N P. destruct pat as [|c0 pat]; [discriminate|].
  rewrite prefix_cons, andb_true_iff in P. destruct P as [P _].
  apply Ascii.eqb_eq in P; subst c0. unfold templateEnd.
  rewrite replaceAll_from_skip by reflexivity.
  rewrite <- (app_nil_r finalStageEnd) at 1.
  rewrite replaceAll_from_pass by assumption.
  rewrite app_nil_r.
  now rewrite replaceAll_from_plain by reflexivity.
Qed.

Lemma substituteTokens_end (template B E S D P A C : string) :
  lacks "$" A = true ->
  ends_with template templateEnd ->
  ends_with (substituteTokens template B E S D P A C)
    (newline ++ finalStage A).
Proof.
  intros LA T. rewrite finalStage_pieces. unfold substituteTokens.
  assert (S0 : starts_with templateEnd newline) by (eexists; reflexivity).
  assert (S1 : starts_with (finalStageHead ++ A ++ finalStageEnd) newline)
    by (eexists; reflexivity).
  apply (replaceAll_end _ _ "010"%char
           (finalStageHead ++ A ++ finalStageEnd));
    [reflexivity | exact S1 | |].
  { intros pre.
    rewrite replaceAll_from_skip by reflexivity.
    rewrite replaceAll_from_skip by assumption.
    now rewrite replaceAll_from_plain by reflexivity. }
  apply (replaceAll_end _ _ "010"%char templateEnd);
    [reflexivity | exact S0 | |].
  { intros pre. unfold templateEnd.
    rewrite replaceAll_from_skip by reflexivity.
    rewrite replaceAll_from_hit.
    rewrite GetSubstitution_plain by assumption.
    now rewrite replaceAll_from_plain by reflexivity. }
  do 4 (apply (replaceAll_end _ _ "010"%char templateEnd);
        [reflexivity | exact S0
        | intros pre; now apply templateEnd_kept |]).
  apply (replace_end _ _ "010"%char); [reflexivity | exact S0 | | exact T].
  intros pre. unfold templateEnd.
  rewrite replace_from_skip by reflexivity.
  rewrite <- (app_nil_r finalStageEnd) at 1.
  rewrite replace_from_pass by reflexivity.
  rewrite app_nil_r.
  now rewrite replace_from_plain by reflexivity.
Qed.

End TailFacts.

(* ================================================================== *)
(** * Base names and directory names *)
(* ================================================================== *)

Module PathFacts.
Import Str StrFacts path.

Lemma all_of_list (p : ascii -> bool) (l : list ascii) :
  all p (string_of_list_ascii l) = forallb p l.
Proof. induction l as [|c l IH]; simpl; [reflexivity | now rewrite IH]. Qed.

Lemma forallb_list_of (p : ascii -> bool) (s : string) :
  forallb p (list_ascii_of_string s) = all p s.
Proof. induction s as [|c s IH]; simpl; [reflexivity | now rewrite IH]. Qed.

Lemma forallb_rev (p : ascii -> bool) (l : list ascii) :
  forallb p (rev l) = forallb p l.
Proof.
  induction l as [|c l IH]; simpl; [reflexivity|].
  rewrite forallb_app, IH. simpl. rewrite andb_true_r. apply andb_comm.
Qed.

Lemma forallb_dropWhile (p q : ascii -> bool) (l : list ascii) :
  forallb p l = true -> forallb p (dropWhile q l) = true.
Proof.
  induction l as [|c l IH]; simpl; [reflexivity|].
  intros E. destruct (q c); [|exact E].
  apply andb_true_iff in E as [_ E]. now apply IH.
Qed.

Lemma forallb_takeWhile (p q : ascii -> bool) (l : list ascii) :
  forallb p l = true -> forallb p (takeWhile q l) = true.
Proof.
  induction l as [|c l IH]; simpl; [reflexivity|].
  intros E. apply andb_true_iff in E as [E1 E2].
  destruct (q c); [|reflexivity]. simpl. now rewrite E1, IH.
Qed.

Lemma forallb_takeWhile_self (q : ascii -> bool) (l : list ascii) :
  forallb q (takeWhile q l) = true.
Proof.
  induction l as [|c l IH]; simpl; [reflexivity|].
  destruct (q c) eqn:E; [|reflexivity]. simpl. now rewrite E, IH.
Qed.

Lemma all_forwards (p : ascii -> bool) (l : list ascii) :
  all p (forwards l) = forallb p l.
Proof. unfold forwards. now rewrite all_of_list, forallb_rev. Qed.

Lemma forallb_backwards (p : ascii -> bool) (s : string) :
  forallb p (backwards s) = all p s.
Proof. unfold backwards. now rewrite forallb_rev, forallb_list_of. Qed.

(** The base name holds no separator: no folder is left in it. *)
Lemma basename_no_slash (p : string) : lacks "/" (basename p) = true.
Proof.
  unfold lacks, basename. rewrite all_forwards.
  apply forallb_takeWhile_self.
Qed.

(** The base name only holds characters of the path. *)
Lemma basename_all (q : ascii -> bool) (p : string) :
  all q p = true -> all q (basename p) = true.
Proof.
  intros A. unfold basename. rewrite all_forwards.
  apply forallb_takeWhile, forallb_dropWhile.
  now rewrite forallb_backwards.
Qed.

(** The directory name holds characters of the path, a dot or a
    separator. *)
Lemma dirname_all (q : ascii -> bool) (p : string) :
  q "."%char = true -> q "/"%char = true ->
  all q p = true -> all q (dirname p) = true.
Proof.
  intros Qd Qs A. unfold dirname. destruct p as [|c0 rest].
  - simpl. now rewrite Qd.
  - cbn [all] in A. apply andb_true_iff in A as [A0 A].
    assert (F : forallb q
              (dropWhile not_slash (dropWhile is_slash (backwards rest)))
            = true).
    { apply forallb_dropWhile, forallb_dropWhile.
      now rewrite forallb_backwards. }
    destruct (dropWhile not_slash (dropWhile is_slash (backwards rest)))
      as [|x before].
    + destruct (is_slash c0); simpl; now rewrite ?Qd, ?Qs.
    + cbn [forallb] in F. apply andb_true_iff in F as [_ F].
      destruct (is_slash c0 && (List.length before =? 0)%nat).
      * simpl. now rewrite Qs.
      * cbn [all]. now rewrite A0, all_forwards.
Qed.

Lemma list_of_app (a b : string) :
  list_ascii_of_string (a ++ b)
  = (list_ascii_of_string a ++ list_ascii_of_string b)%list.
Proof. induction a as [|c a IH]; simpl; [reflexivity | now rewrite IH]. Qed.

Lemma takeWhile_app_stop (q : ascii -> bool) (l : list ascii) (c : ascii)
    (r : list ascii) :
  forallb q l = true -> q c = false ->
  takeWhile q (l ++ c :: r)%list = l.
Proof.
  intros F E. induction l as [|d l IH]; simpl.
  - now rewrite E.
  - simpl in F. apply andb_true_iff in F as [F1 F2].
    now rewrite F1, IH.
Qed.

(** The base name of [folder/name] is [name]. *)
Lemma basename_of_file (folder name : string) :
  name <> EmptyString -> lacks "/" name = true ->
  basename (folder ++ "/" ++ name) = name.
Proof.
  intros N L. unfold basename, backwards.
  rewrite list_of_app. cbn [append list_ascii_of_string].
  rewrite rev_app_distr. cbn [rev]. rewrite <- !List.app_assoc.
  cbn [List.app].
  assert (F : forallb not_slash (rev (list_ascii_of_string name)) = true).
  { rewrite forallb_rev, forallb_list_of. exact L. }
  destruct (rev (list_ascii_of_string name)) as [|x l] eqn:R.
  - apply (f_equal (@rev ascii)) in R. rewrite rev_involutive in R.
    destruct name; [congruence | discriminate].
  - cbn [List.app dropWhile]. cbn [forallb] in F.
    apply andb_true_iff in F as [F1 F2].
    unfold not_slash in F1. apply negb_true_iff in F1. rewrite F1.
    change (x :: (l ++ "/"%char :: rev (list_ascii_of_string folder))%list)
      with ((x :: l) ++ "/"%char :: rev (list_ascii_of_string folder))%list.
    rewrite takeWhile_app_stop.
    + unfold forwards. rewrite <- R, rev_involutive.
      apply string_of_list_ascii_of_string.
    + cbn [forallb]. unfold not_slash at 1. now rewrite F1, F2.
    + reflexivity.
Qed.

End PathFacts.

(* ================================================================== *)
(** * [genDockerFile], step by step *)
(* ================================================================== *)

Module GenDockerFileFacts.
Import Str StrFacts JS JSFacts TemplateFacts VersionFacts RegExpFacts
       TailFacts PathFacts.

Lemma os_accepted (os : option string) :
  is_os os ->
  negb (os_is os "Windows") && negb (os_is os "Linux") = false.
Proof. intros [-> | ->]; reflexivity. Qed.

Lemma os_rejected (os : option string) :
  ~ is_os os ->
  negb (os_is os "Windows") && negb (os_is os "Linux") = true.
Proof.
  intros N. destruct os as [o|]; [|reflexivity]. cbn [os_is].
  destruct (String.eqb_spec o "Windows") as [->|_];
    [exfalso; apply N; now left|].
  destruct (String.eqb_spec o "Linux") as [->|_];
    [exfalso; apply N; now right|].
  reflexivity.
Qed.

Lemma selectTemplate_valid (platform : string) (os : option string) :
  is_platform platform -> selectTemplate platform os = Ok (templateFor os).
Proof.
  intros [-> | ->]; unfold selectTemplate, templateFor;
    cbn [String.eqb Ascii.eqb Bool.eqb]; destruct (os_is os "Linux");
    reflexivity.
Qed.

Lemma selectTemplate_Ok (platform : string) (os : option string)
    (template : string) :
  selectTemplate platform os = Ok template ->
  is_platform platform /\ template = templateFor os.
Proof.
  unfold selectTemplate, templateFor. intros E.
  destruct (String.eqb_spec platform ".NET Core Console") as [->|_].
  - split; [now right|]. injection E as <-.
    destruct (os_is os "Linux"); reflexivity.
  - destruct (String.eqb_spec platform "ASP.NET Core") as [->|_];
      [|discriminate].
    split; [now left|]. injection E as <-.
    destruct (os_is os "Linux"); reflexivity.
Qed.

(** The captured token is never empty. *)
Lemma plus_result {R : Type} (cls : ascii -> bool)
    (k : string -> string -> option R) (s grp : string) (r : R) :
  RegExp.plus cls k grp s = Some r -> exists g t, k (grp ++ g) t = Some r.
Proof.
  revert grp; induction s as [|c s IH]; intros grp E; [discriminate|].
  cbn [RegExp.plus] in E. destruct (cls c); [|discriminate].
  destruct (RegExp.plus cls k (grp ++ String c EmptyString) s) eqn:P.
  - injection E as <-. apply IH in P as (g & t & K).
    exists (String c g), t. now rewrite app_assoc in K.
  - now exists (String c EmptyString), s.
Qed.

Lemma token_groups (a : bool) (s : string) (gs : list string) :
  RegExp.search templateTokenRegExp a s = Some gs ->
  first gs <> EmptyString.
Proof.
  revert a; induction s as [|c s IH]; intros a E.
  - discriminate.
  - cbn [RegExp.search] in E.
    destruct (RegExp.run templateTokenRegExp a EmptyString [] (String c s))
      eqn:R.
    + injection E as <-. clear IH.
      unfold templateTokenRegExp in R. cbn [RegExp.run] in R.
      destruct (Ascii.eqb "$" c); [|discriminate].
      change (RegExp.plus RegExp.lower_or_underscore
                (fun g s' =>
                   RegExp.run [RegExp.Lit "$"; RegExp.GroupClose] false g []
                     s')
                (EmptyString ++ String c EmptyString) s = Some l) in R.
      apply plus_result in R as (g & t & K).
      cbn [RegExp.run] in K. destruct t as [|d t]; [discriminate|].
      destruct (Ascii.eqb "$" d); [|discriminate].
      injection K as <-. cbn. discriminate.
    + now apply IH in E.
Qed.

Lemma checkUnreplacedToken_Ok (contents result : string) :
  checkUnreplacedToken contents = Ok result ->
  result = contents /\ has_token contents = false.
Proof.
  unfold checkUnreplacedToken, extractRegExGroups, has_token, RegExp.test,
    RegExp.groups.
  destruct (RegExp.search templateTokenRegExp true contents) as [gs|] eqn:S.
  - apply token_groups in S. apply String.eqb_neq in S. rewrite S.
    discriminate.
  - cbn. intros E. injection E as <-. now split.
Qed.

Lemma checkUnreplacedToken_plain (contents : string) :
  lacks "$" contents = true -> checkUnreplacedToken contents = Ok contents.
Proof.
  intros L. unfold checkUnreplacedToken, extractRegExGroups, RegExp.groups.
  now rewrite search_token_plain.
Qed.

Lemma imageName_plain (repository suffix tag : string) (v : semver.SemVer) :
  lacks "$" repository = true -> lacks "$" suffix = true ->
  lacks "$" tag = true ->
  lacks "$" (imageName repository suffix v tag) = true.
Proof.
  intros Lr Ls Lt. unfold imageName.
  rewrite !lacks_app, Lr, Ls, Lt, !toString_lacks by reflexivity.
  reflexivity.
Qed.

Lemma expectedImageNames_plain (platform tag : string) (v : semver.SemVer) :
  lacks "$" tag = true ->
  lacks "$" (fst (expectedImageNames platform v tag)) = true
  /\ lacks "$" (snd (expectedImageNames platform v tag)) = true.
Proof.
  intros Lt. unfold expectedImageNames.
  destruct (semver.gte_parsed v v2_1_0);
    destruct (platform =? "ASP.NET Core"); cbn [fst snd];
    split; now apply imageName_plain.
Qed.

Lemma dockerfileText_plain (os : option string)
    (B E S D P A C : string) :
  lacks "$" B = true -> lacks "$" E = true -> lacks "$" S = true ->
  lacks "$" D = true -> lacks "$" P = true -> lacks "$" A = true ->
  lacks "$" C = true ->
  lacks "$" (dockerfileText os B E S D P A C) = true.
Proof.
  intros HB HE HS HD HP HA HC.
  unfold dockerfileText, finalStage, unlines, quoted.
  rewrite !lacks_app, HB, HE, HS, HD, HP, HA, HC.
  now destruct (os_is os "Linux").
Qed.

Lemma copyCommand_plain (artifactName projectDirectory : string) :
  lacks "$" artifactName = true -> lacks "$" projectDirectory = true ->
  lacks "$" (copyCommand artifactName projectDirectory) = true.
Proof.
  intros La Ld. unfold copyCommand, quoted.
  now rewrite !lacks_app, La, Ld.
Qed.

Lemma substituteTokens_plain (os : option string)
    (B E S D P A C : string) :
  lacks "$" B = true -> lacks "$" E = true -> lacks "$" S = true ->
  lacks "$" D = true -> lacks "$" P = true -> lacks "$" A = true ->
  lacks "$" C = true ->
  substituteTokens (templateFor os) B E S D P A C
  = dockerfileText os B E S D P A C.
Proof.
  intros. unfold templateFor, dockerfileText.
  rewrite substituteTokens_body by
    (assumption || (destruct (os_is os "Linux"); reflexivity)).
  reflexivity.
Qed.

Section Host.
Context {Host : Type} {osUtils : OsUtils Host}
      {configUtils : ConfigUtils}.

Lemma resolveImageNames_parse (host : Host) (platform : string)
    (os : option string) (version : string) :
  is_platform platform ->
  resolveImageNames host platform os version
  = match semver.parse (netCoreAppVersion version) with
    | Ok v => Ok (expectedImageNames platform v (windowsTag host os v))
    | Throw e => Throw e
    end.
Proof.
  intros Hp.
  destruct (semver.parse (netCoreAppVersion version)) as [v|e] eqn:P.
  - now apply resolveImageNames_of_parse.
  - unfold resolveImageNames, imageFormats, semver.gte. now rewrite P.
Qed.

(** [genDockerFile] on accepted arguments: the template of the target
    system, filled with the image names of the version. *)
Lemma genDockerFile_accepted (host : Host)
    (serviceNameAndRelativePath platform : string) (os : option string)
    (ports : option (list Z)) (version artifactName : string) :
  is_platform platform -> is_os os ->
  genDockerFile host serviceNameAndRelativePath platform os ports version
    artifactName
  = match semver.parse (netCoreAppVersion version) with
    | Ok v =>
        let names :=
          expectedImageNames platform v (windowsTag host os v) in
        checkUnreplacedToken
          (substituteTokens (templateFor os) (fst names)
             (getExposeStatements ports) (snd names)
             (path.dirname serviceNameAndRelativePath)
             (path.basename artifactName)
             (path.basename serviceNameAndRelativePath)
             (copyCommand artifactName
                (path.dirname serviceNameAndRelativePath)))
    | Throw e => Throw e
    end.
Proof.
  intros Hp Ho. unfold genDockerFile.
  rewrite (os_accepted _ Ho), (resolveImageNames_parse _ _ _ _ Hp).
  destruct (semver.parse (netCoreAppVersion version)); [|reflexivity].
  cbn [bind]. now rewrite (selectTemplate_valid _ _ Hp).
Qed.

(** A Dockerfile that is returned is the filled template of an
    accepted call. *)
Lemma genDockerFile_Ok (host : Host)
    (serviceNameAndRelativePath platform : string) (os : option string)
    (ports : option (list Z)) (version artifactName contents : string) :
  genDockerFile host serviceNameAndRelativePath platform os ports version
    artifactName = Ok contents ->
  has_token contents = false
  /\ exists B S,
       contents
       = substituteTokens (templateFor os) B
           (getExposeStatements ports) S
           (path.dirname serviceNameAndRelativePath)
           (path.basename artifactName)
           (path.basename serviceNameAndRelativePath)
           (copyCommand artifactName
              (path.dirname serviceNameAndRelativePath)).
Proof.
  unfold genDockerFile.
  destruct (negb (os_is os "Windows") && negb (os_is os "Linux"));
    [discriminate|].
  destruct (resolveImageNames host platform os version) as [names|];
    [|discriminate].
  cbn [bind].
  destruct (selectTemplate platform os) as [template|] eqn:T;
    [|discriminate].
  apply selectTemplate_Ok in T as [_ ->]. cbn [bind]. intros E.
  apply checkUnreplacedToken_Ok in E as [-> N].
  split; [exact N|]. now exists (fst names), (snd names).
Qed.

End Host.
End GenDockerFileFacts.

(* ================================================================== *)
(** * Versions that semver rejects *)
(* ================================================================== *)

Module SemverFacts.

Lemma parse_Throw (version : string) (e : exn) :
  semver.parse version = Throw e -> exists msg, e = TypeError msg.
Proof.
  unfold semver.parse. intros E.
  repeat match type of E with
         | context [match ?x with _ => _ end] => destruct x
         end;
    try discriminate; injection E as <-; eauto.
Qed.

End SemverFacts.


(* ================================================================== *)
(** * The poll, body by body *)
(* ================================================================== *)

Module PollFacts.
Import AzureAccount.

Section Timers.
Context {timers : Timers}.



Lemma loop_stops (st : State) :
  negb (timedout st) && negb (isExtensionInstalled st) = false ->
  forall fuel, loop fuel st = Some st.
Proof. intros C fuel. destruct fuel; cbn [loop]; now rewrite C. Qed.








End Timers.
End PollFacts.


(* ================================================================== *)
(** * The state after [activate] *)
(* ================================================================== *)

Module ExtensionFacts.
Import Extension Wiring.

Lemma skipn_length_app {A : Type} (l l' : list A) :
  skipn (List.length l) (l ++ l')%list = l'.
Proof. induction l as [|a l IH]; simpl; [reflexivity | assumption]. Qed.

Lemma offsets_S (n m : nat) : offsets n (S m) = n :: offsets (S n) m.
Proof.
  unfold offsets. cbn [List.seq map]. f_equal; [lia|].
  rewrite <- seq_shift, map_map. apply map_ext. intros k. lia.
Qed.

Lemma wire_all_cons (r : Registration) (rs : list Registration)
    (k : action unit) (st : State) :
  wire_all (r :: rs) k st
  = wire_all rs k
      {| registry := (registry st ++ [r])%list;
         subscriptions :=
           (subscriptions st ++ [List.length (registry st)])%list;
         diagnosticCollection := diagnosticCollection st;
         textDocuments := textDocuments st;
         validated := validated st |}.
Proof. reflexivity. Qed.

Lemma wire_all_spec (rs : list Registration) (k : action unit)
    (st : State) :
  wire_all rs k st
  = k {| registry := (registry st ++ rs)%list;
         subscriptions :=
           (subscriptions st ++ offsets (List.length (registry st))
                                  (List.length rs))%list;
         diagnosticCollection := diagnosticCollection st;
         textDocuments := textDocuments st;
         validated := validated st |}.
Proof.
  revert st; induction rs as [|r rs IH]; intros st.
  - destruct st. cbn. now rewrite !List.app_nil_r.
  - rewrite wire_all_cons, IH.
    cbn [registry subscriptions diagnosticCollection textDocuments
         validated List.length].
    rewrite offsets_S, <- !List.app_assoc, length_app.
    cbn [List.length List.app]. now rewrite Nat.add_1_r.
Qed.

Lemma activate_steps :
  activate
  = wire_all (Reporter :: providers_and_commands) diagnostics_and_listeners.
Proof.
  cbv [activate registerHoverProvider registerCompletionItemProvider
       registerCommand wire_all providers_and_commands commands map
       fold_right List.app fst snd DOCKERFILE_MODE_ID YAML_MODE_ID
       diagnostics_and_listeners].
  reflexivity.
Qed.

Lemma activate_state (st : State) :
  let n := List.length (registry st) in
  snd (activate st)
  = {| registry := (registry st ++ (Reporter :: wiring) ++ listeners)%list;
       subscriptions := (subscriptions st ++ offsets n 22)%list;
       diagnosticCollection := Some (n + 21);
       textDocuments := textDocuments st;
       validated := (validated st ++ textDocuments st)%list |}.
Proof.
  intros n. rewrite activate_steps, wire_all_spec. fold n.
  change (List.length (Reporter :: providers_and_commands)) with 21.
  cbv [diagnostics_and_listeners subscribe Extension.seq register push ret
       createDiagnosticCollection set_diagnosticCollection
       validate_open_documents snd fst].
  cbn [registry subscriptions diagnosticCollection textDocuments validated].
  rewrite !length_app. fold n.
  change (List.length (Reporter :: providers_and_commands)) with 21.
  f_equal; unfold wiring, listeners; rewrite <- !List.app_assoc;
    reflexivity.
Qed.

Lemma offsets_In (n m d : nat) :
  (n <= d < n + m)%nat -> In d (offsets n m).
Proof.
  intros B. unfold offsets. apply in_map_iff. exists (d - n)%nat.
  split; [lia|]. apply in_seq. lia.
Qed.

Lemma activate_registered (st : State) :
  registered st (snd (activate st))
  = number (List.length (registry st))
      ((Reporter :: wiring) ++ listeners)%list.
Proof.
  unfold registered. rewrite activate_state.
  cbn [registry]. now rewrite skipn_length_app.
Qed.

End ExtensionFacts.


(* ================================================================== *)
(** * [scaffoldNetCore], step by step *)
(* ================================================================== *)

Module ScaffoldFacts.
Import GenDockerFileFacts.

Section Host.
Context {Host : Type} {osUtils : OsUtils Host}
      {configUtils : ConfigUtils} {workspace : Workspace}.

Lemma findCSProjOrFSProjFile_pure (folderPath : string)
    (t : ConfigureTelemetryProperties) :
  findCSProjOrFSProjFile folderPath t = (t, found_project folderPath).
Proof.
  unfold found_project, findCSProjOrFSProjFile, task_bind, await.
  now destruct (globAsync "**/*.@(c|f)sproj" folderPath).
Qed.

Lemma genDockerFile_rejected (host : Host)
    (serviceNameAndRelativePath platform : string) (os : option string)
    (ports : option (list Z)) (version artifactName : string) :
  ~ is_os os ->
  genDockerFile host serviceNameAndRelativePath platform os ports version
    artifactName
  = Throw (Error ("Unexpected OS " ++ quoted (os_text os))).
Proof. intros N. unfold genDockerFile. now rewrite (os_rejected _ N). Qed.

Lemma bind_await {A B : Type} (r : result A) (k : A -> task B)
    (t : ConfigureTelemetryProperties) :
  task_bind (await r) k t
  = match r with Ok a => k a t | Throw e => (t, Throw e) end.
Proof. unfold task_bind, await. now destruct r. Qed.

Lemma bind_set {B : Type}
    (f : ConfigureTelemetryProperties -> ConfigureTelemetryProperties)
    (k : unit -> task B) (t : ConfigureTelemetryProperties) :
  task_bind (set_telemetry f) k t = k tt (f t).
Proof. reflexivity. Qed.

Lemma bind_find {B : Type} (folderPath : string) (k : string -> task B)
    (t : ConfigureTelemetryProperties) :
  task_bind (findCSProjOrFSProjFile folderPath) k t
  = match found_project folderPath with
    | Ok a => k a t
    | Throw e => (t, Throw e)
    end.
Proof.
  unfold task_bind at 1. rewrite findCSProjOrFSProjFile_pure.
  now destruct (found_project folderPath).
Qed.

(** A run that returns files went through every step. *)
Lemma scaffoldNetCore_Ok (host : Host) (context : ScaffolderContext)
    (t t' : ConfigureTelemetryProperties) (files : list ScaffoldFile) :
  scaffoldNetCore host context t = (t', Ok files) ->
  exists os ports projectFile svc version artifactName dockerFile
         dockerFileContents,
    effective_os context = Ok os
    /\ effective_ports context = Ok ports
    /\ found_project (context_rootFolder context) = Ok projectFile
    /\ genDockerFile host svc (context_platform context) os ports version
         artifactName = Ok dockerFile
    /\ files = expectedFiles context projectFile dockerFileContents.
Proof.
  unfold scaffoldNetCore, initializeForDebugging.
  fold (effective_os context) (effective_ports context).
  rewrite bind_await.
  destruct (effective_os context) as [os|]; [|discriminate].
  rewrite bind_set, bind_await.
  destruct (effective_ports context) as [ports|]; [|discriminate].
  rewrite bind_find.
  destruct (found_project (context_rootFolder context)) as [proj|];
    [|discriminate].
  rewrite bind_set, bind_await.
  destruct (readFile _) as [projFileContents|]; [|discriminate].
  rewrite bind_await.
  destruct (genDockerFile _ _ _ _ _ _ _) as [dockerFile|] eqn:G;
    [|discriminate].
  destruct (context_initializeForDebugging context).
  - rewrite bind_await.
    destruct (initializeNetCoreForDebugging _ _ _); [|discriminate].
    intros E. injection E as _ <-.
    do 8 eexists. repeat split; try reflexivity. exact G.
  - intros E. injection E as _ <-.
    do 8 eexists. repeat split; try reflexivity. exact G.
Qed.

(** With a target system that is not accepted, a run that reaches
    [genDockerFile] throws its error. *)
Lemma scaffoldNetCore_rejected (host : Host) (context : ScaffolderContext)
    (t : ConfigureTelemetryProperties) (os : option string)
    (ports : option (list Z)) (projectFile projFileContents : string) :
  ~ is_os os ->
  effective_os context = Ok os ->
  effective_ports context = Ok ports ->
  found_project (context_rootFolder context) = Ok projectFile ->
  readFile (path_join (context_rootFolder context) projectFile)
  = Ok projFileContents ->
  snd (scaffoldNetCore host context t)
  = Throw (Error ("Unexpected OS " ++ quoted (os_text os))).
Proof.
  intros N Eo Ep Ef Er.
  unfold scaffoldNetCore, initializeForDebugging.
  fold (effective_os context) (effective_ports context).
  rewrite bind_await, Eo, bind_set, bind_await, Ep, bind_find, Ef,
    bind_set, bind_await, Er, bind_await.
  now rewrite genDockerFile_rejected.
Qed.

End Host.
End ScaffoldFacts.


(* ================================================================== *)
(** * The claims about [genDockerFile] *)
(* ================================================================== *)

Section GenDockerFileClaims.
Import SemverFacts.
Import Str StrFacts JSFacts TemplateFacts VersionFacts RegExpFacts
       TailFacts PathFacts GenDockerFileFacts.
Context {Host : Type} {osUtils : OsUtils Host}
      {configUtils : ConfigUtils}.

(** C1. Version-aware base-image selection: for a valid platform and a
    valid target system, when the version parsed from the TargetFramework
    is at least 2.1.0 the base image format is the MCR [aspnet] one
    (ASP.NET Core) or the MCR [runtime] one (.NET Core Console) and the
    SDK image format is the MCR [sdk] one; below 2.1.0 the formats are
    the Docker Hub ones, [microsoft/aspnetcore] and
    [microsoft/aspnetcore-build], or [microsoft/dotnet:{0}.{1}-runtime]
    and [microsoft/dotnet:{0}.{1}-sdk].  The image names that
    [genDockerFile] substitutes are these formats, filled. *)
Theorem version_aware_image_selection (host : Host)
    (serviceNameAndRelativePath platform : string) (os : option string)
    (ports : option (list Z)) (version artifactName : string)
    (v : semver.SemVer) :
  is_platform platform -> is_os os ->
  semver.parse (netCoreAppVersion version) = Ok v ->
  let tag := windowsTag host os v in
  let asp := platform =? "ASP.NET Core" in
  (semver.gte_parsed v v2_1_0 = true ->
   imageFormats platform (netCoreAppVersion version)
   = Ok (if asp then AspNetCoreRuntimeImageFormat
         else DotNetCoreRuntimeImageFormat,
         DotNetCoreSdkImageFormat)
   /\ resolveImageNames host platform os version
      = Ok (imageName
              (if asp then "mcr.microsoft.com/dotnet/core/aspnet"
               else "mcr.microsoft.com/dotnet/core/runtime")
              EmptyString v tag,
            imageName "mcr.microsoft.com/dotnet/core/sdk" EmptyString v tag))
  /\ (semver.gte_parsed v v2_1_0 = false ->
      imageFormats platform (netCoreAppVersion version)
      = Ok (if asp
            then (LegacyAspNetCoreRuntimeImageFormat,
                  LegacyAspNetCoreSdkImageFormat)
            else (LegacyDotNetCoreRuntimeImageFormat,
                  LegacyDotNetCoreSdkImageFormat))
      /\ resolveImageNames host platform os version
         = Ok (if asp
               then (imageName "microsoft/aspnetcore" EmptyString v tag,
                     imageName "microsoft/aspnetcore-build" EmptyString v tag)
               else (imageName "microsoft/dotnet" "-runtime" v tag,
                     imageName "microsoft/dotnet" "-sdk" v tag)))
  /\ genDockerFile host serviceNameAndRelativePath platform os ports version
       artifactName
     = checkUnreplacedToken
         (substituteTokens (templateFor os)
            (fst (expectedImageNames platform v tag))
            (getExposeStatements ports)
            (snd (expectedImageNames platform v tag))
            (path.dirname serviceNameAndRelativePath)
            (path.basename artifactName)
            (path.basename serviceNameAndRelativePath)
            (copyCommand artifactName
               (path.dirname serviceNameAndRelativePath))).
Proof.
  intros Hp Ho P tag asp.
  pose proof (resolveImageNames_of_parse host platform os version v Hp P)
    as R.
  pose proof (genDockerFile_accepted host serviceNameAndRelativePath platform
                os ports version artifactName Hp Ho) as G.
  rewrite P in G. cbv zeta in G.
  unfold expectedImageNames in R. fold tag asp in R.
  split; [|split]; [| |exact G].
  - intros M. rewrite M in R. split; [|exact R].
    unfold imageFormats. rewrite (gte_of_parse _ _ P), M. cbn [bind].
    subst asp. destruct Hp as [-> | ->]; reflexivity.
  - intros M. rewrite M in R. split.
    + unfold imageFormats. rewrite (gte_of_parse _ _ P), M. cbn [bind].
      subst asp. destruct Hp as [-> | ->]; reflexivity.
    + rewrite R. now destruct asp.
Qed.

(** C2. OS-specific tag resolution: when the target system is Linux or
    the parsed version is below 2.0.0 the tag is empty; for Windows and a
    version from 2.0.0 on it is one of the five nanoserver suffixes, and
    the predicates of the host choose which: [-nanoserver-1903] whenever
    the host is not Windows or is Windows 19H1 or newer, and on an older
    Windows host [-nanoserver-1809] from RS5 on, [-nanoserver-1803] from
    RS4 on, [-nanoserver-1709] from RS3 on and [-nanoserver-sac2016]
    below.  Both image names end with that tag. *)
Theorem os_specific_tag_resolution (host : Host) (platform : string)
    (os : option string) (version : string) (v : semver.SemVer) :
  is_platform platform -> is_os os ->
  semver.parse (netCoreAppVersion version) = Ok v ->
  exists tag,
    tagForWindowsVersion host os (netCoreAppVersion version) = Ok tag
    /\ resolveImageNames host platform os version
       = Ok (fst (expectedImageNames platform v EmptyString) ++ tag,
             snd (expectedImageNames platform v EmptyString) ++ tag)
    /\ (os = Some "Linux" \/ semver.lt_parsed v v2_0_0 = true ->
        tag = EmptyString)
    /\ (os = Some "Windows" -> semver.lt_parsed v v2_0_0 = false ->
        In tag nanoserverTags
        /\ (isWindows host = false \/ isWindows1019H1OrNewer host = true ->
            tag = "-nanoserver-1903")
        /\ (isWindows host = true -> isWindows1019H1OrNewer host = false ->
            (isWindows10RS5OrNewer host = true -> tag = "-nanoserver-1809")
            /\ (isWindows10RS5OrNewer host = false ->
                isWindows10RS4OrNewer host = true ->
                tag = "-nanoserver-1803")
            /\ (isWindows10RS5OrNewer host = false ->
                isWindows10RS4OrNewer host = false ->
                isWindows10RS3OrNewer host = true ->
                tag = "-nanoserver-1709")
            /\ (isWindows10RS5OrNewer host = false ->
                isWindows10RS4OrNewer host = false ->
                isWindows10RS3OrNewer host = false ->
                tag = "-nanoserver-sac2016"))).
Proof.
  intros Hp Ho P. exists (windowsTag host os v).
  split; [now apply tagForWindowsVersion_of_parse|].
  split.
  - rewrite (resolveImageNames_of_parse host platform os version v Hp P).
    unfold expectedImageNames, imageName.
    destruct (semver.gte_parsed v v2_1_0);
      destruct (platform =? "ASP.NET Core"); cbn [fst snd];
      now rewrite !app_assoc, ?app_nil_r.
  - unfold windowsTag. split.
    + intros [-> | L]; [reflexivity|]. rewrite L. now rewrite orb_true_r.
    + intros -> L. rewrite L. cbn [os_is String.eqb Ascii.eqb Bool.eqb orb].
      split; [apply GetWindowsImageTag_cases|].
      unfold GetWindowsImageTag. split.
      * intros [W | W]; rewrite W; [reflexivity | now rewrite orb_true_r].
      * intros W N. rewrite W, N. cbn [negb orb].
        split; [intros R5; now rewrite R5|].
        split; [intros R5 R4; now rewrite R5, R4|].
        split; intros R5 R4 R3; now rewrite R5, R4, R3.
Qed.


(** C10. Version-parsing defaults: a TargetFramework that does not match
    [/^netcoreapp([0-9.]+)$/], as the empty text taken when the project
    file has no TargetFramework element, is treated as version 2.1, so
    that the MCR 2.1 images are selected; and a version [major.minor]
    gets the patch [.0] before it is compared. *)
Theorem version_parsing_defaults (host : Host) (platform : string)
    (os : option string) (version projFileContents major minor : string) :
  is_platform platform -> is_os os ->
  RegExp.test targetFrameworkVersionRegExp version = false ->
  RegExp.test targetFrameworkElementRegExp projFileContents = false ->
  major <> EmptyString -> minor <> EmptyString ->
  all RegExp.digit major = true -> all RegExp.digit minor = true ->
  let tag := windowsTag host os v2_1_0 in
  netCoreAppVersion version = "2.1.0"
  /\ resolveImageNames host platform os version
     = Ok ((if platform =? "ASP.NET Core"
            then "mcr.microsoft.com/dotnet/core/aspnet:2.1"
            else "mcr.microsoft.com/dotnet/core/runtime:2.1") ++ tag,
           "mcr.microsoft.com/dotnet/core/sdk:2.1" ++ tag)
  /\ first (extractRegExGroups projFileContents targetFrameworkElementRegExp
              [EmptyString]) = EmptyString
  /\ RegExp.test targetFrameworkVersionRegExp EmptyString = false
  /\ netCoreAppVersion ("netcoreapp" ++ major ++ "." ++ minor)
     = major ++ "." ++ minor ++ ".0".
Proof.
  intros Hp Ho T Te Nma Nmi Dma Dmi tag.
  assert (V : netCoreAppVersion version = "2.1.0").
  { unfold netCoreAppVersion, extractRegExGroups. unfold RegExp.test in T.
    destruct (RegExp.groups targetFrameworkVersionRegExp version);
      [discriminate | reflexivity]. }
  split; [exact V|]. split; [|split; [|split]].
  - rewrite (resolveImageNames_of_parse host platform os version v2_1_0 Hp)
      by (now rewrite V).
    unfold expectedImageNames. cbn [semver.gte_parsed semver.compare].
    fold tag. now destruct (platform =? "ASP.NET Core").
  - unfold extractRegExGroups. unfold RegExp.test in Te.
    destruct (RegExp.groups targetFrameworkElementRegExp projFileContents);
      [discriminate | reflexivity].
  - reflexivity.
  - unfold netCoreAppVersion, extractRegExGroups.
    rewrite targetFrameworkVersion_match.
    + cbn [first hd]. rewrite majorMinor_match by assumption.
      now rewrite !app_assoc.
    + destruct major; [congruence | discriminate].
    + rewrite !all_app, (all_impl _ _ _ digit_digit_or_dot Dma),
        (all_impl _ _ _ digit_digit_or_dot Dmi). reflexivity.
Qed.


End GenDockerFileClaims.

(* ================================================================== *)
(** * The claims about [scaffoldNetCore] *)
(* ================================================================== *)

Section ScaffoldClaims.
Import GenDockerFileFacts ScaffoldFacts.
Context {Host : Type} {osUtils : OsUtils Host}
      {configUtils : ConfigUtils} {workspace : Workspace}.

(** C6. Scaffolding output: a run of [scaffoldNetCore] that succeeds
    returns exactly two files, in this order: the file [Dockerfile],
    joined to the output folder or, when there is none, to the directory
    of the project file, with [open] set to [true]; and the file
    [.dockerignore], whose contents are those of
    [genCommonDockerIgnoreFile] for the platform of the context. *)
Theorem scaffolding_output (host : Host) (context : ScaffolderContext)
    (telemetry : ConfigureTelemetryProperties) (files : list ScaffoldFile) :
  snd (scaffoldNetCore host context telemetry) = Ok files ->
  exists projectFile dockerFileContents,
    found_project (context_rootFolder context) = Ok projectFile
    /\ files
       = [ {| fileName :=
                path_join (nullish (context_outputFolder context)
                             (path.dirname projectFile)) "Dockerfile";
              contents := dockerFileContents;
              open := Some true |};
           {| fileName :=
                path_join (nullish (context_outputFolder context) EmptyString)
                  ".dockerignore";
              contents :=
                genCommonDockerIgnoreFile (context_platform context);
              open := None |} ]
    /\ List.length files = 2.
Proof.
  intros E.
  destruct (scaffoldNetCore host context telemetry) as [t' r] eqn:S.
  cbn [snd] in E. subst r.
  apply scaffoldNetCore_Ok in S
    as (os & ports & proj & svc & version & art & df & dfc
          & _ & _ & F & _ & ->).
  exists proj, dfc. now repeat split.
Qed.

(** C9. For a target system other than ['Windows'] and ['Linux'],
    [undefined] included, [genDockerFile] throws the error that names
    the unexpected system; a run of [scaffoldNetCore] with that system
    returns no files, and when its steps before [genDockerFile] succeed
    it ends with that error. *)
Theorem unexpected_os_rejected (host : Host)
    (serviceNameAndRelativePath platform : string) (os : option string)
    (ports : option (list Z)) (version artifactName : string)
    (context : ScaffolderContext) (telemetry : ConfigureTelemetryProperties) :
  ~ is_os os ->
  genDockerFile host serviceNameAndRelativePath platform os ports version
    artifactName
  = Throw (Error ("Unexpected OS " ++ quoted (os_text os)))
  /\ (effective_os context = Ok os ->
      (forall files,
         snd (scaffoldNetCore host context telemetry) <> Ok files)
      /\ (forall ports' projectFile projFileContents,
            effective_ports context = Ok ports' ->
            found_project (context_rootFolder context) = Ok projectFile ->
            readFile (path_join (context_rootFolder context) projectFile)
            = Ok projFileContents ->
            snd (scaffoldNetCore host context telemetry)
            = Throw (Error ("Unexpected OS " ++ quoted (os_text os))))).
Proof.
  intros N. split; [now apply genDockerFile_rejected|].
  intros Eo. split.
  - intros files E.
    destruct (scaffoldNetCore host context telemetry) as [t' r] eqn:S.
    cbn [snd] in E. subst r.
    apply scaffoldNetCore_Ok in S
      as (os' & ports' & proj & svc & v & art & df & dfc
            & Eo' & _ & _ & G & _).
    rewrite Eo in Eo'. injection Eo' as <-.
    rewrite genDockerFile_rejected in G by assumption. discriminate.
  - intros ports' proj pc Ep Ef Er.
    now apply (scaffoldNetCore_rejected host context telemetry os ports'
                 proj pc).
Qed.

End ScaffoldClaims.

(* ================================================================== *)
(** * The claim about [activate] *)
(* ================================================================== *)

Section ActivationClaim.
Import Extension Wiring ExtensionFacts.

(** C7. Activation wiring: one call of [activate] registers with the
    host, in this order, the Dockerfile hover provider, the Dockerfile
    completion provider, the compose-file hover provider, the
    compose-file completion provider, one command for each of the
    sixteen [vscode-docker.*] identifiers, and creates the diagnostics
    collection [docker-diagnostics]; the disposable of every one of these
    registrations is pushed into the subscriptions of the context. *)
Theorem activation_wiring (st : State) :
  let st' := snd (activate st) in
  let made := filter (fun dr => is_wiring (snd dr)) (registered st st') in
  map snd made = wiring
  /\ Forall (fun dr => In (fst dr) (subscriptions st')) made
  /\ NoDup (map fst commands)
  /\ Forall (fun c => prefix "vscode-docker." (fst c) = true) commands
  /\ List.length commands = 16
  /\ (exists d, diagnosticCollection st' = Some d
                /\ In (d, DiagnosticCollection "docker-diagnostics") made).
Proof.
  intros st' made. subst st' made.
  rewrite activate_registered, activate_state.
  set (n := List.length (registry st)).
  cbn [subscriptions diagnosticCollection].
  refine (conj _ (conj _ (conj _ (conj _ (conj _ _))))).
  - reflexivity.
  - cbn [wiring providers_and_commands listeners commands map List.app
         number filter is_wiring snd fst].
    repeat constructor; cbn [fst]; apply in_or_app; right;
      apply offsets_In; lia.
  - assert (E : nodup string_dec (map fst commands) = map fst commands)
      by (vm_compute; reflexivity).
    rewrite <- E. apply NoDup_nodup.
  - repeat constructor.
  - reflexivity.
  - exists (n + 21). split; [reflexivity|].
    cbn [wiring providers_and_commands listeners commands map List.app
         number filter is_wiring snd fst].
    clearbody n. do 20 right. left. apply f_equal2; [lia | reflexivity].
Qed.

(** The three listeners of document events are registered after these.
    Their disposables are not pushed: [ctx.subscriptions] is handed over
    as the [thisArgs] argument of the events, so that the call adds
    twenty-two disposables for twenty-five registrations. *)
Remark activate_listeners (st : State) :
  let st' := snd (activate st) in
  subscriptions st'
  = (subscriptions st ++ offsets (List.length (registry st)) 22)%list
  /\ map snd (skipn 22 (registered st st')) = listeners
  /\ List.length (registered st st') = 25.
Proof.
  intros st'. subst st'. rewrite activate_registered, activate_state.
  cbn [subscriptions]. repeat split; reflexivity.
Qed.

End ActivationClaim.

(* ================================================================== *)
(** * The claim about the poll *)
(* ================================================================== *)

Section PollClaim.
Import AzureAccount PollFacts.
Context {timers : Timers}.


End PollClaim.

(* ================================================================== *)
(** * Facts for the further properties *)
(* ================================================================== *)

Module PatchFacts.
Import Str StrFacts VersionFacts RegExpFacts.

(** Against 2.1.0 and 2.0.0 the patch number decides nothing. *)
Lemma gte_2_1_0_patch (v w : semver.SemVer) :
  semver.major v = semver.major w -> semver.minor v = semver.minor w ->
  semver.gte_parsed v v2_1_0 = semver.gte_parsed w v2_1_0.
Proof.
  intros Ma Mi. unfold semver.gte_parsed, semver.compare. rewrite Ma, Mi.
  cbn [v2_1_0 semver.major semver.minor semver.patch].
  destruct (semver.major w ?= 2)%N; try reflexivity.
  destruct (semver.minor w ?= 1)%N; try reflexivity.
  now destruct (semver.patch v), (semver.patch w).
Qed.

Lemma lt_2_0_0_patch (v w : semver.SemVer) :
  semver.major v = semver.major w -> semver.minor v = semver.minor w ->
  semver.lt_parsed v v2_0_0 = semver.lt_parsed w v2_0_0.
Proof.
  intros Ma Mi. unfold semver.lt_parsed, semver.compare. rewrite Ma, Mi.
  cbn [v2_0_0 semver.major semver.minor semver.patch].
  destruct (semver.major w ?= 2)%N; try reflexivity.
  destruct (semver.minor w ?= 0)%N; try reflexivity.
  now destruct (semver.patch v), (semver.patch w).
Qed.

End PatchFacts.

Module PlatformFacts.
Import Str StrFacts VersionFacts RegExpFacts SemverFacts.

(** What [resolveImageNames] throws is the [TypeError] of semver or the
    assertion on the platform. *)
Lemma resolveImageNames_Throw {Host : Type} {osUtils : OsUtils Host}
    (host : Host) (platform : string) (os : option string) (version : string)
    (e : exn) :
  resolveImageNames host platform os version = Throw e ->
  (exists msg, e = TypeError msg) \/ e = AssertionError "Unknown platform".
Proof.
  unfold resolveImageNames, imageFormats, tagForWindowsVersion, formatVersion,
    semver.gte, semver.lt.
  destruct (semver.parse (netCoreAppVersion version)) as [v|e'] eqn:P;
    cbn [bind].
  - change (semver.parse "2.1.0") with (Ok v2_1_0).
    change (semver.parse "2.0.0") with (Ok v2_0_0). cbn [bind].
    destruct (semver.gte_parsed v v2_1_0);
      destruct (platform =? "ASP.NET Core");
      destruct (platform =? ".NET Core Console");
      destruct (os_is os "Linux"); cbn [bind];
      try destruct (semver.lt_parsed v v2_0_0); cbn [bind];
      intros E; try discriminate; injection E as <-; now right.
  - intros E. injection E as <-. left. now apply parse_Throw in P.
Qed.

Lemma resolveImageNames_unknown_platform {Host : Type}
    {osUtils : OsUtils Host} (host : Host) (platform : string)
    (os : option string) (version : string) :
  ~ is_platform platform ->
  resolveImageNames host platform os version
  = match semver.parse (netCoreAppVersion version) with
    | Ok _ => Throw (AssertionError "Unknown platform")
    | Throw e => Throw e
    end.
Proof.
  intros N.
  assert (A : (platform =? "ASP.NET Core") = false).
  { apply String.eqb_neq. intros E. apply N. now left. }
  assert (C : (platform =? ".NET Core Console") = false).
  { apply String.eqb_neq. intros E. apply N. now right. }
  unfold resolveImageNames, imageFormats, semver.gte.
  destruct (semver.parse (netCoreAppVersion version)) as [v|e'];
    cbn [bind]; [|reflexivity].
  change (semver.parse "2.1.0") with (Ok v2_1_0). cbn [bind].
  rewrite A, C. now destruct (semver.gte_parsed v v2_1_0).
Qed.

End PlatformFacts.

Module NumeralFacts.
Import Str StrFacts VersionFacts RegExp RegExpFacts.

Lemma digit_cases (c : ascii) :
  digit c = true ->
  In c ["0"; "1"; "2"; "3"; "4"; "5"; "6"; "7"; "8"; "9"]%char.
Proof.
  destruct c as [[] [] [] [] [] [] [] []]; vm_compute; intros E;
    try discriminate; tauto.
Qed.

(** [digits_value] reads a numeral the way [N.of_uint] does. *)
Lemma digits_value_acc (s : string) :
  all digit s = true ->
  exists d,
    NilEmpty.uint_of_string s = Some d
    /\ forall acc,
         semver.digits_value (N.pos acc) s = N.pos (Pos.of_uint_acc d acc).
Proof.
  induction s as [|c s IH]; intros A.
  - exists Decimal.Nil. split; reflexivity.
  - cbn [all] in A. apply andb_true_iff in A as [D A].
    destruct (IH A) as (d & U & V).
    apply digit_cases in D. cbn [In] in D.
    repeat (destruct D as [<- | D]; [|]); try contradiction;
      cbn [NilEmpty.uint_of_string]; rewrite U;
      eexists; (split; [reflexivity|]); intros acc;
      cbn [semver.digits_value Pos.of_uint_acc]; rewrite <- V;
      match goal with
      | |- context [semver.digit_value ?c] =>
          let n := eval vm_compute in (semver.digit_value c) in
          change (semver.digit_value c) with n
      end; apply (f_equal (fun a => semver.digits_value a s)); lia.
Qed.

Lemma digits_value_of_uint (s : string) :
  all digit s = true ->
  exists d,
    NilEmpty.uint_of_string s = Some d
    /\ semver.digits_value 0 s = N.of_uint d.
Proof.
  induction s as [|c s IH]; intros A.
  - exists Decimal.Nil. split; reflexivity.
  - pose proof A as A'. cbn [all] in A. apply andb_true_iff in A as [D A].
    destruct (digits_value_acc s A) as (d & U & V).
    destruct (IH A) as (d0 & U0 & V0).
    rewrite U in U0. injection U0 as <-.
    apply digit_cases in D. cbn [In] in D.
    repeat (destruct D as [<- | D]; [|]); try contradiction;
      cbn [NilEmpty.uint_of_string]; rewrite U;
      eexists; (split; [reflexivity|]);
      cbn [semver.digits_value N.of_uint Pos.of_uint];
      match goal with
      | |- context [semver.digit_value ?c] =>
          let n := eval vm_compute in (semver.digit_value c) in
          change (semver.digit_value c) with n
      end; cbn [N.mul N.add]; try exact V0; apply V.
Qed.

(** A numeric identifier is printed back as it was written. *)
Lemma toString_numeric (s : string) (n : N) :
  semver.numeric s = Some n -> semver.toString n = s.
Proof.
  unfold semver.numeric. destruct s as [|c s]; [discriminate|].
  destruct (all digit (String c s)) eqn:A; [|discriminate].
  cbn [andb]. intros E.
  destruct (digits_value_of_uint _ A) as (d & U & V).
  destruct (negb (Ascii.eqb c "0") || (s =? EmptyString)) eqn:C;
    [|discriminate].
  injection E as <-.
  change (semver.digits_value (semver.digit_value c) s)
    with (semver.digits_value 0 (String c s)).
  rewrite V. unfold semver.toString.
  rewrite DecimalN.Unsigned.to_of.
  assert (Nz : Decimal.unorm d = d).
  { apply orb_true_iff in C as [C | C].
    - apply negb_true_iff, Ascii.eqb_neq in C.
      cbn [all] in A. apply andb_true_iff in A as [D _].
      apply digit_cases in D. cbn [In] in D.
      cbn [NilEmpty.uint_of_string] in U.
      destruct (NilEmpty.uint_of_string s) as [d'|];
        repeat (destruct D as [<- | D]; [|]); try contradiction;
        try congruence; cbn in U; try discriminate;
        injection U as <-; reflexivity.
    - apply String.eqb_eq in C. subst s.
      cbn [all] in A. apply andb_true_iff in A as [D _].
      apply digit_cases in D. cbn [In] in D.
      repeat (destruct D as [<- | D]; [|]); try contradiction;
        cbn in U; injection U as <-; reflexivity. }
  rewrite Nz. now apply NilEmpty.sus.
Qed.

End NumeralFacts.

Module ParseFacts.
Import Str StrFacts VersionFacts RegExp RegExpFacts NumeralFacts.

(** Without a dot, [/^[^.]+\.[^.]+$/] has nothing to match. *)
Lemma plus_needs_dot (re : regexp) (caps : list string) (s grp : string) :
  all not_dot s = true ->
  plus not_dot (fun g s' => run (Lit "." :: re) false g caps s') grp s = None.
Proof.
  revert grp; induction s as [|c s IH]; intros grp A; [reflexivity|].
  cbn [all] in A. apply andb_true_iff in A as [D A].
  cbn [plus]. rewrite D, (IH _ A).
  destruct s as [|d s]; [reflexivity|].
  cbn [all] in A. apply andb_true_iff in A as [D' _].
  unfold not_dot in D'. apply negb_true_iff in D'.
  cbn [run]. now rewrite Ascii.eqb_sym, D'.
Qed.

Lemma majorMinor_needs_dot (s : string) :
  all not_dot s = true -> test majorMinorRegExp s = false.
Proof.
  intros A. unfold test, majorMinorRegExp. rewrite groups_Bol.
  change (run [Plus not_dot; Lit "."; Plus not_dot; Eol] true EmptyString []
            s)
    with (plus not_dot
            (fun g s' => run [Lit "."; Plus not_dot; Eol] false g [] s')
            EmptyString s).
  now rewrite plus_needs_dot.
Qed.

Lemma split_dots_plain (cur s : string) :
  all not_dot s = true -> semver.split_dots cur s = [cur ++ s].
Proof.
  revert cur; induction s as [|c s IH]; intros cur A.
  - cbn. now rewrite app_nil_r.
  - cbn [all] in A. apply andb_true_iff in A as [D A].
    unfold not_dot in D. apply negb_true_iff in D.
    cbn [semver.split_dots]. rewrite D, (IH _ A). now rewrite app_assoc.
Qed.

Lemma split_dots_app (cur x rest : string) :
  all not_dot x = true ->
  semver.split_dots cur (x ++ "." ++ rest)
  = (cur ++ x) :: semver.split_dots EmptyString rest.
Proof.
  revert cur; induction x as [|c x IH]; intros cur A.
  - cbn. now rewrite app_nil_r.
  - cbn [all] in A. apply andb_true_iff in A as [D A].
    unfold not_dot in D. apply negb_true_iff in D.
    cbn [append semver.split_dots]. rewrite D.
    change (x ++ String "." rest) with (x ++ "." ++ rest).
    rewrite (IH _ A). now rewrite app_assoc.
Qed.

Lemma numeric_digits (s : string) (n : N) :
  semver.numeric s = Some n -> s <> EmptyString /\ all digit s = true.
Proof.
  unfold semver.numeric. destruct s as [|c s]; [discriminate|].
  destruct (all digit (String c s)); [|discriminate].
  intros _. split; [discriminate | reflexivity].
Qed.

Lemma all_digit_not_dot (s : string) :
  all digit s = true -> all not_dot s = true.
Proof. apply all_impl, digit_not_dot. Qed.

(** A version without dot is no version for semver. *)
Lemma parse_without_dot (d : string) :
  all digit d = true -> (length d <= 256)%nat ->
  semver.parse d = Throw (TypeError ("Invalid Version: " ++ d)).
Proof.
  intros A L. unfold semver.parse.
  assert (E : (semver.MAX_LENGTH <? length d)%nat = false)
    by (apply Nat.ltb_ge; exact L).
  rewrite E, (split_dots_plain _ _ (all_digit_not_dot _ A)).
  cbn [map append]. now destruct (semver.numeric d).
Qed.

Lemma parse_major_minor (A B : string) (a b : N) :
  semver.numeric A = Some a -> semver.numeric B = Some b ->
  (a <= semver.MAX_SAFE_INTEGER)%N -> (b <= semver.MAX_SAFE_INTEGER)%N ->
  (length A + length B <= 253)%nat ->
  semver.parse (A ++ "." ++ B ++ ".0")
  = Ok {| semver.major := a; semver.minor := b; semver.patch := 0 |}.
Proof.
  intros Na Nb La Lb L. unfold semver.parse.
  destruct (numeric_digits _ _ Na) as [_ Da].
  destruct (numeric_digits _ _ Nb) as [_ Db].
  assert (E : (semver.MAX_LENGTH <? length (A ++ "." ++ B ++ ".0"))%nat
              = false).
  { apply Nat.ltb_ge. rewrite !length_app. cbn [length].
    unfold semver.MAX_LENGTH. lia. }
  rewrite E, (split_dots_app _ _ _ (all_digit_not_dot _ Da)).
  change (B ++ ".0") with (B ++ "." ++ "0").
  rewrite (split_dots_app _ _ _ (all_digit_not_dot _ Db)).
  cbn [map append semver.split_dots]. rewrite Na, Nb.
  change (semver.numeric "0") with (Some 0%N).
  apply N.ltb_ge in La, Lb. now rewrite La, Lb.
Qed.

Lemma netCoreAppVersion_major (d : string) :
  d <> EmptyString -> all digit d = true ->
  netCoreAppVersion ("netcoreapp" ++ d) = d.
Proof.
  intros N A. unfold netCoreAppVersion, extractRegExGroups.
  rewrite targetFrameworkVersion_match;
    [|exact N | now apply (all_impl digit), A; apply digit_digit_or_dot].
  cbn [first hd].
  now rewrite (majorMinor_needs_dot _ (all_digit_not_dot _ A)).
Qed.

Lemma netCoreAppVersion_major_minor (A B : string) :
  A <> EmptyString -> B <> EmptyString ->
  all digit A = true -> all digit B = true ->
  netCoreAppVersion ("netcoreapp" ++ A ++ "." ++ B) = A ++ "." ++ B ++ ".0".
Proof.
  intros Na Nb Da Db. unfold netCoreAppVersion, extractRegExGroups.
  rewrite targetFrameworkVersion_match.
  - cbn [first hd]. rewrite majorMinor_match by assumption.
    now rewrite !app_assoc.
  - destruct A; [congruence | discriminate].
  - rewrite !all_app, (all_impl _ _ _ digit_digit_or_dot Da),
      (all_impl _ _ _ digit_digit_or_dot Db). reflexivity.
Qed.

End ParseFacts.

Module PathUseFacts.
Import Str StrFacts path PathFacts.

Lemma forwards_rev (s : string) :
  forwards (rev (list_ascii_of_string s)) = s.
Proof.
  unfold forwards. rewrite rev_involutive.
  apply string_of_list_ascii_of_string.
Qed.

Lemma dropWhile_head (q : ascii -> bool) (c : ascii) (l : list ascii) :
  q c = false -> dropWhile q (c :: l) = c :: l.
Proof. intros E. cbn. now rewrite E. Qed.

Lemma dropWhile_app_stop (q : ascii -> bool) (l : list ascii) (c : ascii)
    (r : list ascii) :
  forallb q l = true -> q c = false ->
  dropWhile q (l ++ c :: r)%list = c :: r.
Proof.
  intros F E. induction l as [|d l IH]; simpl.
  - now rewrite E.
  - simpl in F. apply andb_true_iff in F as [F1 F2].
    now rewrite F1, IH.
Qed.

Lemma takeWhile_all (q : ascii -> bool) (l : list ascii) :
  forallb q l = true -> takeWhile q l = l.
Proof.
  induction l as [|d l IH]; simpl; [reflexivity|].
  intros F. apply andb_true_iff in F as [F1 F2]. now rewrite F1, IH.
Qed.

Lemma dropWhile_all (q : ascii -> bool) (l : list ascii) :
  forallb q l = true -> dropWhile q l = [].
Proof.
  induction l as [|d l IH]; simpl; [reflexivity|].
  intros F. apply andb_true_iff in F as [F1 F2]. now rewrite F1, IH.
Qed.

(** The reversed code units of a name that is not empty and holds no
    separator start with one that is no separator. *)
Lemma backwards_name (name : string) :
  name <> EmptyString -> lacks "/" name = true ->
  exists x l,
    rev (list_ascii_of_string name) = x :: l
    /\ is_slash x = false /\ forallb not_slash (x :: l) = true.
Proof.
  intros N L.
  assert (F : forallb not_slash (rev (list_ascii_of_string name)) = true).
  { rewrite forallb_rev, forallb_list_of. exact L. }
  destruct (rev (list_ascii_of_string name)) as [|x l] eqn:R.
  - apply (f_equal (@rev ascii)) in R. rewrite rev_involutive in R.
    destruct name; [congruence | discriminate].
  - exists x, l. split; [reflexivity|]. split; [|exact F].
    cbn [forallb] in F. apply andb_true_iff in F as [F1 _].
    unfold not_slash in F1. now apply negb_true_iff in F1.
Qed.

(** A bare name is its own base name, in the directory [.]. *)
Lemma basename_of_name (name : string) :
  name <> EmptyString -> lacks "/" name = true -> basename name = name.
Proof.
  intros N L. destruct (backwards_name name N L) as (x & l & R & X & F).
  unfold basename, backwards. rewrite R, (dropWhile_head _ _ _ X).
  rewrite (takeWhile_all _ _ F), <- R. apply forwards_rev.
Qed.

Lemma dirname_of_name (name : string) :
  name <> EmptyString -> lacks "/" name = true -> dirname name = ".".
Proof.
  intros N L. destruct name as [|c0 rest]; [congruence|].
  cbn [lacks all] in L. apply andb_true_iff in L as [L0 L].
  unfold dirname, backwards.
  assert (F : forallb not_slash (rev (list_ascii_of_string rest)) = true).
  { rewrite forallb_rev, forallb_list_of. exact L. }
  assert (D : dropWhile is_slash (rev (list_ascii_of_string rest))
              = rev (list_ascii_of_string rest)).
  { destruct (rev (list_ascii_of_string rest)) as [|x l]; [reflexivity|].
    cbn [forallb] in F. apply andb_true_iff in F as [F1 _].
    unfold not_slash in F1. apply negb_true_iff in F1.
    now apply dropWhile_head. }
  rewrite D, (dropWhile_all _ _ F).
  apply negb_true_iff in L0. unfold is_slash.
  now rewrite Ascii.eqb_sym, L0.
Qed.

(** The directory of [folder/name] is [folder], unless the folder is
    empty or the root. *)
Lemma dirname_of_file (folder name : string) :
  folder <> EmptyString -> folder <> "/" ->
  name <> EmptyString -> lacks "/" name = true ->
  dirname (folder ++ "/" ++ name) = folder.
Proof.
  intros Nf Nr N L. destruct folder as [|c0 f]; [congruence|].
  destruct (backwards_name name N L) as (x & l & R & X & F).
  cbn [append]. unfold dirname, backwards.
  rewrite list_of_app. cbn [list_ascii_of_string].
  rewrite rev_app_distr. cbn [rev]. rewrite <- !List.app_assoc.
  cbn [List.app]. rewrite R. cbn [List.app].
  rewrite (dropWhile_head _ _ _ X).
  change (x :: (l ++ "/"%char :: rev (list_ascii_of_string f))%list)
    with ((x :: l) ++ "/"%char :: rev (list_ascii_of_string f))%list.
  rewrite (dropWhile_app_stop _ _ _ _ F) by reflexivity.
  destruct (is_slash c0
            && (List.length (rev (list_ascii_of_string f)) =? 0)%nat) eqn:E.
  - apply andb_true_iff in E as [E0 E1].
    apply Nat.eqb_eq in E1. rewrite length_rev in E1.
    destruct f; [|discriminate].
    unfold is_slash in E0. apply Ascii.eqb_eq in E0. now subst c0.
  - now rewrite forwards_rev.
Qed.

Lemma length_forwards (l : list ascii) :
  length (forwards l) = List.length l.
Proof.
  unfold forwards. rewrite <- (length_rev l).
  induction (rev l) as [|c m IH]; simpl; [reflexivity | now rewrite IH].
Qed.

Lemma take_app (a b : string) : take (length a) (a ++ b) = a.
Proof. induction a as [|c a IH]; simpl; [now destruct b | now rewrite IH]. Qed.

(** The extension of [stem.ext], when the dot does not open the last
    component. *)
Lemma extname_of_file (pre : string) (c : ascii) (ext : string) :
  is_slash c = false ->
  ext <> EmptyString -> lacks "/" ext = true -> lacks "." ext = true ->
  extname (pre ++ String c EmptyString ++ "." ++ ext) = "." ++ ext.
Proof.
  intros C N Ls Ld.
  destruct (backwards_name ext N Ls) as (x & l & R & X & F).
  assert (Fd : forallb (fun c => negb (is_dot c))
                 (rev (list_ascii_of_string ext)) = true).
  { rewrite forallb_rev, forallb_list_of. exact Ld. }
  unfold extname, backwards.
  rewrite list_of_app. cbn [append list_ascii_of_string].
  rewrite rev_app_distr. cbn [rev]. rewrite <- !List.app_assoc.
  cbn [List.app].
  set (e := rev (list_ascii_of_string ext)) in *.
  set (p := rev (list_ascii_of_string pre)).
  assert (D : dropWhile is_slash (e ++ "."%char :: c :: p)%list
              = (e ++ "."%char :: c :: p)%list).
  { rewrite R. now apply dropWhile_head. }
  rewrite D.
  assert (T : takeWhile not_slash (e ++ "."%char :: c :: p)%list
              = (e ++ "."%char :: c :: takeWhile not_slash p)%list).
  { rewrite R. clear -F C. revert F.
    generalize (x :: l). intros m F.
    induction m as [|y m IH]; cbn [List.app takeWhile].
    - unfold not_slash at 2. rewrite C. reflexivity.
    - cbn [forallb] in F. apply andb_true_iff in F as [F1 F2].
      now rewrite F1, IH. }
  rewrite T.
  rewrite (takeWhile_app_stop _ e) by (exact Fd || reflexivity).
  rewrite (dropWhile_app_stop _ e) by (exact Fd || reflexivity).
  assert (Ne : (forwards (e ++ "."%char :: c :: takeWhile not_slash p)
                =? "..") = false).
  { apply String.eqb_neq. intros E.
    apply (f_equal length) in E.
    rewrite length_forwards, List.length_app, R in E. cbn in E. lia. }
  rewrite Ne. unfold forwards. rewrite rev_app_distr. cbn [rev List.app].
  unfold e. rewrite rev_involutive. cbn [string_of_list_ascii].
  now rewrite string_of_list_ascii_of_string.
Qed.

End PathUseFacts.

Module PlainFacts.
Import Str StrFacts VersionFacts RegExpFacts PathFacts GenDockerFileFacts.

Section Host.
Context {Host : Type} {osUtils : OsUtils Host} {configUtils : ConfigUtils}.

(** With values that hold no [$], the Dockerfile is the template with
    its tokens filled. *)
Lemma genDockerFile_plain (host : Host)
    (serviceNameAndRelativePath platform : string) (os : option string)
    (ports : option (list Z)) (version artifactName : string)
    (v : semver.SemVer) :
  is_platform platform -> is_os os ->
  lacks "$" serviceNameAndRelativePath = true ->
  lacks "$" artifactName = true ->
  lacks "$" (getExposeStatements ports) = true ->
  semver.parse (netCoreAppVersion version) = Ok v ->
  let names := expectedImageNames platform v (windowsTag host os v) in
  genDockerFile host serviceNameAndRelativePath platform os ports version
    artifactName
  = Ok (dockerfileText os (fst names) (getExposeStatements ports)
          (snd names) (path.dirname serviceNameAndRelativePath)
          (path.basename artifactName)
          (path.basename serviceNameAndRelativePath)
          (copyCommand artifactName
             (path.dirname serviceNameAndRelativePath))).
Proof.
  intros Hp Ho Ls La Le P.
  rewrite (genDockerFile_accepted host _ _ _ ports version artifactName
             Hp Ho), P.
  cbv zeta.
  destruct (expectedImageNames_plain platform (windowsTag host os v) v
              (windowsTag_plain host os v)) as [LB LS].
  assert (LD : lacks "$" (path.dirname serviceNameAndRelativePath) = true)
    by (now apply dirname_all).
  assert (LP : lacks "$" (path.basename artifactName) = true)
    by (now apply basename_all).
  assert (LA : lacks "$" (path.basename serviceNameAndRelativePath) = true)
    by (now apply basename_all).
  assert (LC : lacks "$"
            (copyCommand artifactName
               (path.dirname serviceNameAndRelativePath)) = true)
    by (now apply copyCommand_plain).
  rewrite substituteTokens_plain by assumption.
  apply checkUnreplacedToken_plain.
  now apply dockerfileText_plain.
Qed.

End Host.
End PlainFacts.

Module CollapseFacts.
Import Str StrFacts.

Lemma prefix_head (c d : ascii) (x s : string) :
  c <> d -> prefix (String c x) (String d s) = false.
Proof. intros N. cbn [prefix]. now destruct (ascii_dec c d). Qed.

Lemma collapse_crlf_plain (s : string) :
  lacks (ascii_of_nat 13) s = true -> collapseRuns crlf (crlf ++ crlf) s = s.
Proof.
  unfold collapseRuns. induction s as [|c s IH]; intros L; [reflexivity|].
  cbn [lacks all] in L. apply andb_true_iff in L as [L0 L].
  apply negb_true_iff, Ascii.eqb_neq in L0.
  cbn [collapseRuns_from].
  change (crlf ++ crlf ++ crlf ++ crlf)
    with (String (ascii_of_nat 13) (newline ++ crlf ++ crlf ++ crlf)).
  change (crlf ++ crlf ++ crlf)
    with (String (ascii_of_nat 13) (newline ++ crlf ++ crlf)).
  rewrite !prefix_head by exact L0.
  now rewrite (IH L).
Qed.

Lemma lineFeeds_lacks_cr (n : nat) :
  lacks (ascii_of_nat 13) (lineFeeds n) = true.
Proof. induction n as [|n IH]; [reflexivity | exact IH]. Qed.

Lemma collapse_four (n : nat) (rest : string) :
  collapseRuns newline (newline ++ newline) (lineFeeds (4 + n) ++ rest)
  = lineFeeds 2
      ++ collapseRuns newline (newline ++ newline) (lineFeeds n ++ rest).
Proof.
  unfold collapseRuns.
  assert (E : prefix (newline ++ newline ++ newline ++ newline)
                (lineFeeds (4 + n) ++ rest) = true)
    by apply (prefix_app (newline ++ newline ++ newline ++ newline)).
  change (lineFeeds (4 + n) ++ rest)
    with (String (ascii_of_nat 10) (lineFeeds (3 + n) ++ rest)) in E |- *.
  cbn [collapseRuns_from]. rewrite E. reflexivity.
Qed.

Lemma collapse_few (n : nat) (rest : string) :
  (n <= 3)%nat -> prefix newline rest = false ->
  collapseRuns newline (newline ++ newline) (lineFeeds n ++ rest)
  = lineFeeds (Nat.min n 2)
      ++ collapseRuns newline (newline ++ newline) rest.
Proof.
  intros B P.
  assert (Q : forall x, prefix (String (ascii_of_nat 10) x) rest = false).
  { intros x. destruct rest as [|c rest]; [reflexivity|].
    rewrite prefix_cons. unfold newline in P. rewrite prefix_cons in P.
    rewrite prefix_nil, andb_true_r in P. now rewrite P. }
  unfold collapseRuns.
  destruct n as [|[|[|[|n]]]]; try lia; clear B P;
    cbn [lineFeeds Nat.min]; unfold newline;
    repeat (cbn [collapseRuns_from append length Nat.mul Nat.add Nat.sub];
            rewrite ?prefix_cons, ?Ascii.eqb_refl; cbn [andb];
            rewrite ?Q, ?prefix_nil);
    reflexivity.
Qed.

Lemma collapsed_four (n : nat) : collapsed (4 + n) = (2 + collapsed n)%nat.
Proof.
  unfold collapsed. replace (4 + n)%nat with (n + 1 * 4)%nat by lia.
  rewrite Nat.div_add by lia. rewrite Nat.Div0.mod_add. lia.
Qed.

Lemma collapsed_few (n : nat) : (n <= 3)%nat -> collapsed n = Nat.min n 2.
Proof.
  intros B. unfold collapsed.
  rewrite Nat.div_small, Nat.mod_small by lia. lia.
Qed.

(** Only runs of up to four line feeds end as at most two. *)
Lemma collapsed_small (n : nat) : (collapsed n <= 2 <-> n <= 4)%nat.
Proof.
  unfold collapsed.
  pose proof (Nat.div_mod_eq n 4) as E.
  pose proof (Nat.mod_upper_bound n 4) as B.
  lia.
Qed.

Lemma lineFeeds_add (n m : nat) :
  lineFeeds (n + m) = lineFeeds n ++ lineFeeds m.
Proof.
  induction n as [|n IH]; [reflexivity|].
  cbn [Nat.add lineFeeds]. now rewrite IH, app_assoc.
Qed.

Lemma collapse_run (n : nat) (rest : string) :
  prefix newline rest = false ->
  collapseRuns newline (newline ++ newline) (lineFeeds n ++ rest)
  = lineFeeds (collapsed n)
      ++ collapseRuns newline (newline ++ newline) rest.
Proof.
  intros P. induction n as [n IH] using lt_wf_ind.
  destruct (le_lt_dec n 3) as [B|B].
  - rewrite collapsed_few by exact B. now apply collapse_few.
  - replace n with (4 + (n - 4))%nat by lia.
    rewrite collapse_four, collapsed_four, IH by lia.
    now rewrite lineFeeds_add, app_assoc.
Qed.

End CollapseFacts.

Module BarrierFacts.
Import Str StrFacts CollapseFacts.

(** A pattern without [c] matches before [c] or not at all. *)
Lemma prefix_before (c : ascii) (p a b : string) :
  lacks c p = true ->
  prefix p (a ++ String c b) = prefix p a.
Proof.
  revert a; induction p as [|x p IH]; intros a L.
  - now rewrite !prefix_nil.
  - apply lacks_cons in L as [L1 L2].
    destruct a as [|y a].
    + cbn [append]. rewrite prefix_cons.
      rewrite Ascii.eqb_sym in L1. now rewrite L1.
    + cbn [append]. rewrite !prefix_cons. now rewrite (IH _ L2).
Qed.

Lemma prefix_length (p a : string) :
  prefix p a = true -> (length p <= length a)%nat.
Proof.
  revert a; induction p as [|x p IH]; intros a E; [cbn; lia|].
  destruct a as [|y a]; [discriminate|].
  rewrite prefix_cons in E. apply andb_true_iff in E as [_ E].
  cbn [length]. apply le_n_S. now apply IH.
Qed.

(** A code unit that is no line feed separates what is collapsed before
    it from what is collapsed after it. *)
Lemma collapse_barrier (c : ascii) (b a : string) (skip : nat) :
  c <> ascii_of_nat 10 -> (skip <= length a)%nat ->
  collapseRuns_from newline (newline ++ newline) skip (a ++ String c b)
  = collapseRuns_from newline (newline ++ newline) skip a
      ++ String c (collapseRuns_from newline (newline ++ newline) 0 b).
Proof.
  intros N. revert skip; induction a as [|y a IH]; intros skip S.
  - cbn [length] in S. replace skip with 0%nat by lia.
    cbn [append collapseRuns_from].
    unfold newline. cbn [append]. rewrite !prefix_cons.
    apply not_eq_sym, Ascii.eqb_neq in N. now rewrite N.
  - cbn [append collapseRuns_from]. destruct skip as [|k].
    + assert (L4 : lacks c (newline ++ newline ++ newline ++ newline)
                   = true).
      { cbn [newline append lacks all]. apply Ascii.eqb_neq in N.
        now rewrite N. }
      assert (L3 : lacks c (newline ++ newline ++ newline) = true).
      { cbn [newline append lacks all]. apply Ascii.eqb_neq in N.
        now rewrite N. }
      change (String y (a ++ String c b)) with (String y a ++ String c b).
      rewrite (prefix_before _ _ _ _ L4), (prefix_before _ _ _ _ L3).
      destruct (prefix (newline ++ newline ++ newline ++ newline)
                  (String y a)) eqn:P4.
      * apply prefix_length in P4. cbn [length newline append] in P4.
        rewrite IH by (cbn [length newline Nat.mul Nat.add Nat.sub]; lia).
        now rewrite app_assoc.
      * destruct (prefix (newline ++ newline ++ newline) (String y a))
          eqn:P3.
        -- apply prefix_length in P3. cbn [length newline append] in P3.
           rewrite IH by (cbn [length newline Nat.mul Nat.add Nat.sub]; lia).
           now rewrite app_assoc.
        -- rewrite IH by lia. reflexivity.
    + cbn [length] in S. apply IH. lia.
Qed.

End BarrierFacts.

Module SeparatorFacts.
Import Str StrFacts JS JSFacts.

Lemma replaceAll_backslash_from (s pre : string) :
  replaceAll_from backslash "/" pre 0 s = posix s.
Proof.
  revert pre; induction s as [|c s IH]; intros pre; [reflexivity|].
  cbn [replaceAll_from posix]. unfold backslash at 1.
  rewrite prefix_cons, prefix_nil, andb_true_r, Ascii.eqb_sym.
  destruct (Ascii.eqb c (ascii_of_nat 92)).
  - cbn [backslash length Nat.sub GetSubstitution Ascii.eqb Bool.eqb
         append]. now rewrite IH.
  - now rewrite IH.
Qed.

Lemma posix_lacks_backslash (s : string) :
  lacks (ascii_of_nat 92) (posix s) = true.
Proof.
  induction s as [|c s IH]; [reflexivity|].
  cbn [posix lacks all]. fold (lacks (ascii_of_nat 92) (posix s)).
  rewrite IH, andb_true_r.
  destruct (Ascii.eqb c (ascii_of_nat 92)) eqn:E; [reflexivity|].
  now rewrite Ascii.eqb_sym, E.
Qed.

Lemma posix_plain (s : string) :
  lacks (ascii_of_nat 92) s = true -> posix s = s.
Proof.
  induction s as [|c s IH]; [reflexivity|]. cbn [lacks all posix].
  intros L. apply andb_true_iff in L as [L0 L].
  apply negb_true_iff in L0. rewrite Ascii.eqb_sym in L0.
  now rewrite L0, (IH L).
Qed.

End SeparatorFacts.

Module RunFacts.
Import GenDockerFileFacts ScaffoldFacts.

Section Host.
Context {Host : Type} {osUtils : OsUtils Host}
      {configUtils : ConfigUtils} {workspace : Workspace}.

(** [scaffoldNetCore] as the sequence of its steps. *)
Lemma scaffoldNetCore_steps (host : Host) (context : ScaffolderContext)
    (t : ConfigureTelemetryProperties) :
  scaffoldNetCore host context t
  = match effective_os context with
    | Throw e => (t, Throw e)
    | Ok os =>
        let t1 := {| configureOs := os;
                     packageFileType := packageFileType t;
                     packageFileSubfolderDepth :=
                       packageFileSubfolderDepth t |} in
        match effective_ports context with
        | Throw e => (t1, Throw e)
        | Ok ports =>
            match found_project (context_rootFolder context) with
            | Throw e => (t1, Throw e)
            | Ok f =>
                let t2 := telemetryOf context os f in
                match readFile (path_join (context_rootFolder context) f)
                with
                | Throw e => (t2, Throw e)
                | Ok projFileContents =>
                    match genDockerFile host (servicePath context f)
                            (context_platform context) os ports
                            (targetFramework projFileContents)
                            (artifactPath context f) with
                    | Throw e => (t2, Throw e)
                    | Ok dockerFile =>
                        match debuggingInitialised context f with
                        | Throw e => (t2, Throw e)
                        | Ok _ =>
                            (t2,
                             Ok (expectedFiles context f
                                   (collapseBlankLines dockerFile)))
                        end
                    end
                end
            end
        end
    end.
Proof.
  unfold scaffoldNetCore, initializeForDebugging, debuggingInitialised.
  fold (effective_os context) (effective_ports context).
  rewrite bind_await.
  destruct (effective_os context) as [os|]; [|reflexivity].
  rewrite bind_set, bind_await.
  destruct (effective_ports context) as [ports|]; [|reflexivity].
  rewrite bind_find.
  destruct (found_project (context_rootFolder context)) as [f|];
    [|reflexivity].
  rewrite bind_set, bind_await. cbv zeta.
  cbn [configureOs packageFileType packageFileSubfolderDepth].
  fold (telemetryOf context os f).
  destruct (readFile _) as [projFileContents|]; [|reflexivity].
  rewrite bind_await.
  fold (targetFramework projFileContents) (servicePath context f)
    (artifactPath context f).
  destruct (genDockerFile _ _ _ _ _ _ _) as [dockerFile|]; [|reflexivity].
  destruct (context_initializeForDebugging context).
  - rewrite bind_await.
    now destruct (initializeNetCoreForDebugging _ _ _) as [[]|].
  - reflexivity.
Qed.

End Host.
End RunFacts.

Module TimeoutFacts.
Import AzureAccount PollFacts.

Section Timers.
Context {timers : Timers}.

Lemma timeout_invariant_body (st : State) :
  timeout_invariant st -> timeout_invariant (body st).
Proof.
  intros [T R]. split; [|exact R].
  unfold body; cbn [timedout now]. intros E.
  apply orb_true_iff in E as [E | E];
    [apply orb_true_iff in E as [E | E]|].
  - apply T in E. lia.
  - apply N.ltb_lt in E. lia.
  - apply andb_true_iff in E as [E _]. now apply N.leb_le in E.
Qed.

Lemma loop_end (fuel : nat) (st st' : State) :
  loop fuel st = Some st' -> timeout_invariant st ->
  timeout_invariant st'
  /\ (timedout st' = true \/ isExtensionInstalled st' = true).
Proof.
  revert st; induction fuel as [|fuel IH]; intros st; cbn [loop];
    destruct (negb (timedout st) && negb (isExtensionInstalled st)) eqn:C;
    try discriminate.
  - intros E I. injection E as <-. split; [exact I|].
    apply andb_false_iff in C as [C | C]; apply negb_false_iff in C;
      [now left | now right].
  - intros E I. apply (IH _ E), timeout_invariant_body, I.
  - intros E I. injection E as <-. split; [exact I|].
    apply andb_false_iff in C as [C | C]; apply negb_false_iff in C;
      [now left | now right].
Qed.

Lemma body_waiting (j : nat) :
  punctual -> (j < 599)%nat -> extension_installed j = false ->
  body (waiting j) = waiting (S j).
Proof.
  intros P B E. unfold body, waiting.
  cbn [now timedout isExtensionInstalled iterations refreshes].
  rewrite P, E.
  assert (T : (1000 * N.of_nat j + 1000 + 0 = 1000 * N.of_nat (S j))%N)
    by lia.
  rewrite T.
  assert (L : (maxTimeout <? 1000 * N.of_nat (S j))%N = false)
    by (apply N.ltb_ge; unfold maxTimeout; lia).
  assert (L' : (maxTimeout <=? 1000 * N.of_nat (S j))%N = false)
    by (apply N.leb_gt; unfold maxTimeout; lia).
  replace (1000 * N.of_nat j + 1000)%N with (1000 * N.of_nat (S j))%N by lia.
  now rewrite L, L'.
Qed.

Lemma loop_waiting (k m : nat) :
  punctual -> first_found_at k -> (k < 600)%nat ->
  forall j, (j + m = k)%nat ->
  exists st,
    (forall extra, loop (S m + extra) (waiting j) = Some st)
    /\ iterations st = S k
    /\ now st = (1000 * N.of_nat (S k))%N
    /\ isExtensionInstalled st = true
    /\ refreshes st = 0%nat.
Proof.
  intros P [F1 F2] K. induction m as [|m IH]; intros j J.
  - assert (j = k) by lia. subst j.
    exists (body (waiting k)). split; [|repeat split].
    + intros extra. cbn [Nat.add loop waiting timedout isExtensionInstalled
                           negb andb].
      apply loop_stops. cbn [body isExtensionInstalled iterations waiting].
      rewrite F1. now rewrite andb_false_r.
    + cbn [body now waiting iterations]. rewrite P. lia.
    + cbn [body isExtensionInstalled waiting iterations]. exact F1.
  - destruct (IH (S j)) as (st & L & R); [lia|].
    exists st. split; [|exact R].
    intros extra. cbn [Nat.add loop waiting timedout isExtensionInstalled
                         negb andb].
    fold (waiting j). rewrite body_waiting; [apply L | exact P | lia |].
    apply F2. lia.
Qed.

End Timers.
End TimeoutFacts.

Module PatternFacts.
Import Str StrFacts Pattern.

Lemma length_zero (s : string) : (length s =? 0)%nat = true -> s = EmptyString.
Proof. destruct s; [reflexivity | discriminate]. Qed.

Lemma greedy_sound {R : Type} (cls : ascii -> bool)
    (k : string -> string -> option R) (rest : string) :
  forall min max before x,
    greedy cls k min max before rest = Some x ->
    exists m a,
      rest = m ++ a
      /\ (min <= length m)%nat
      /\ match max with Some n => (length m <= n)%nat | None => True end
      /\ all cls m = true
      /\ k (before ++ m) a = Some x.
Proof.
  induction rest as [|c rest IH]; intros min max before x.
  - cbn [greedy]. destruct min; [|discriminate]. intros E.
    exists EmptyString, EmptyString.
    split; [reflexivity|]. split; [cbn; lia|].
    split; [destruct max; cbn; [lia | exact I]|].
    split; [reflexivity | now rewrite app_nil_r].
  - cbn [greedy].
    assert (Stop : match min with O => k before (String c rest) | S _ => None
                   end = Some x ->
                   exists m a,
                     String c rest = m ++ a
                     /\ (min <= length m)%nat
                     /\ match max with
                        | Some n => (length m <= n)%nat
                        | None => True
                        end
                     /\ all cls m = true
                     /\ k (before ++ m) a = Some x).
    { destruct min; [|discriminate]. intros E.
      exists EmptyString, (String c rest).
      split; [reflexivity|]. split; [cbn; lia|].
      split; [destruct max; cbn; [lia | exact I]|].
      split; [reflexivity | now rewrite app_nil_r]. }
    destruct (negb match max with Some O => true | _ => false end
              && cls c) eqn:G; [|exact Stop].
    apply andb_true_iff in G as [G1 G2].
    destruct (greedy cls k (Nat.pred min) (option_map Nat.pred max)
                (before ++ String c EmptyString) rest) as [y|] eqn:E;
      [|exact Stop].
    intros Ey. injection Ey as <-.
    apply IH in E as (m & a & -> & Mi & Ma & A & K).
    exists (String c m), a. rewrite app_assoc in K.
    repeat split; try assumption.
    + cbn [length]. lia.
    + destruct max as [[|n]|]; cbn in *; try discriminate; try exact I; lia.
    + cbn [all]. now rewrite G2.
Qed.

Lemma greedy_complete {R : Type} (cls : ascii -> bool)
    (k : string -> string -> option R) (m a : string) :
  forall min max before,
    (min <= length m)%nat ->
    match max with Some n => (length m <= n)%nat | None => True end ->
    all cls m = true ->
    k (before ++ m) a <> None ->
    greedy cls k min max before (m ++ a) <> None.
Proof.
  induction m as [|c m IH]; intros min max before Mi Ma A K.
  - cbn [length] in Mi. assert (min = 0)%nat by lia. subst min.
    rewrite app_nil_r in K. cbn [append].
    destruct a as [|d a]; cbn [greedy]; [exact K|].
    destruct (negb _ && cls d); [|exact K].
    now destruct (greedy cls k _ _ _ a).
  - cbn [all] in A. apply andb_true_iff in A as [A1 A2].
    cbn [append greedy]. rewrite A1.
    assert (M : negb match max with Some O => true | _ => false end = true).
    { destruct max as [[|n]|]; cbn in *; try reflexivity; lia. }
    rewrite M. cbn [andb].
    assert (G : greedy cls k (Nat.pred min) (option_map Nat.pred max)
                  (before ++ String c EmptyString) (m ++ a) <> None).
    { apply IH; try assumption.
      - cbn [length] in Mi. lia.
      - destruct max as [[|n]|]; cbn in *; try exact I; lia.
      - now rewrite app_assoc. }
    destruct (greedy cls k _ _ _ (m ++ a)); [discriminate | congruence].
Qed.

(** The longest repetition is tried first: when it ends where the class
    ends, and the continuation succeeds there, that is the result. *)
Lemma greedy_longest {R : Type} (cls : ascii -> bool)
    (k : string -> string -> option R) (m a : string) (r : R) :
  forall min max before,
    (min <= length m)%nat ->
    match max with Some n => (length m <= n)%nat | None => True end ->
    all cls m = true ->
    match a with String c _ => cls c = false | EmptyString => True end ->
    k (before ++ m) a = Some r ->
    greedy cls k min max before (m ++ a) = Some r.
Proof.
  induction m as [|c m IH]; intros min max before Mi Ma A B K.
  - cbn [length] in Mi. assert (min = 0)%nat by lia. subst min.
    rewrite app_nil_r in K. cbn [append].
    destruct a as [|d a]; cbn [greedy]; [exact K|].
    rewrite B, andb_false_r. exact K.
  - cbn [all] in A. apply andb_true_iff in A as [A1 A2].
    cbn [append greedy]. rewrite A1.
    assert (M : negb match max with Some O => true | _ => false end = true).
    { destruct max as [[|n]|]; cbn in *; try reflexivity; lia. }
    rewrite M. cbn [andb].
    rewrite (IH (Nat.pred min) (option_map Nat.pred max)
               (before ++ String c EmptyString)); try assumption.
    + reflexivity.
    + cbn [length] in Mi. lia.
    + destruct max as [[|n]|]; cbn in *; try exact I; lia.
    + now rewrite app_assoc.
Qed.

Lemma exec_sound {R : Type} (p : pattern) :
  forall (k : string -> string -> captures -> option R)
         (before rest : string) (caps : captures) (x : R),
    exec p k before rest caps = Some x ->
    exists m a caps',
      rest = m ++ a /\ matched p before m a
      /\ k (before ++ m) a caps' = Some x.
Proof.
  induction p as [|cls|cls min max|cls| | |p IHp q IHq|i p IH|p IH];
    intros k before rest caps x; cbn [exec matched].
  - intros E. exists EmptyString, rest, caps.
    rewrite (app_nil_r before). auto.
  - destruct rest as [|c rest]; [discriminate|].
    destruct (cls c) eqn:C; [|discriminate]. intros E.
    exists (String c EmptyString), rest, caps. eauto 6.
  - intros E. apply greedy_sound in E as (m & a & -> & Mi & Ma & A & K).
    exists m, a, caps. auto 6.
  - destruct rest as [|c rest].
    + intros E. exists EmptyString, EmptyString, caps.
      rewrite (app_nil_r before). auto.
    + destruct (cls c) eqn:C; [discriminate|]. intros E.
      exists EmptyString, (String c rest), caps.
      rewrite (app_nil_r before). auto.
  - destruct (length before =? 0)%nat eqn:B; [|discriminate].
    apply length_zero in B. intros E.
    exists EmptyString, rest, caps. rewrite (app_nil_r before). auto.
  - destruct rest as [|c rest]; [|discriminate]. intros E.
    exists EmptyString, EmptyString, caps. rewrite (app_nil_r before). auto.
  - intros E. apply IHp in E as (m1 & a1 & caps1 & -> & M1 & E).
    apply IHq in E as (m2 & a2 & caps2 & -> & M2 & E).
    exists (m1 ++ m2), a2, caps2.
    split; [now rewrite app_assoc|].
    split; [|now rewrite <- app_assoc].
    exists m1, m2. auto.
  - intros E. apply IH in E as (m & a & caps' & -> & M & E). eauto 6.
  - destruct (exec p _ before rest caps) as [y|] eqn:E.
    + intros Ey. injection Ey as <-.
      apply IH in E as (m & a & caps' & -> & M & E).
      destruct (length (before ++ m) =? length before)%nat eqn:L;
        [discriminate|].
      exists m, a, caps'. split; [reflexivity|]. split; [|exact E].
      right. split; [|exact M]. intros ->.
      rewrite app_nil_r, Nat.eqb_refl in L. discriminate.
    + intros E'. exists EmptyString, rest, caps.
      rewrite (app_nil_r before). auto.
Qed.

Lemma exec_complete {R : Type} (p : pattern) :
  forall (k : string -> string -> captures -> option R)
         (before m a : string) (caps : captures),
    matched p before m a ->
    (forall caps', k (before ++ m) a caps' <> None) ->
    exec p k before (m ++ a) caps <> None.
Proof.
  induction p as [|cls|cls min max|cls| | |p IHp q IHq|i p IH|p IH];
    intros k before m a caps; cbn [exec matched].
  - intros -> K. rewrite app_nil_r in K. apply K.
  - intros (c & -> & C) K. cbn [append]. rewrite C. apply K.
  - intros (Mi & Ma & A) K. apply greedy_complete; auto.
  - intros [-> N] K. rewrite app_nil_r in K. cbn [append].
    destruct a as [|c a]; [apply K|]. rewrite N. apply K.
  - intros [-> ->] K. cbn [length Nat.eqb append]. apply K.
  - intros [-> ->] K. cbn [append]. rewrite app_nil_r in K. apply K.
  - intros (m1 & m2 & -> & M1 & M2) K. rewrite app_assoc.
    apply IHp; [exact M1|]. intros caps'. apply IHq; [exact M2|].
    intros caps''. rewrite app_assoc. apply K.
  - intros M K. apply IH; [exact M|]. intros caps'. apply K.
  - intros [-> | [N M]] K.
    + rewrite app_nil_r in K. cbn [append].
      destruct (exec p _ before a caps); [discriminate | apply K].
    + assert (E : exec p
                    (fun b r cs =>
                       if (length b =? length before)%nat then None
                       else k b r cs) before (m ++ a) caps <> None).
      { apply IH; [exact M|]. intros caps'.
        assert (L : (length (before ++ m) =? length before)%nat = false).
        { apply Nat.eqb_neq. rewrite length_app.
          destruct m; [congruence | cbn [length]; lia]. }
        rewrite L. apply K. }
      destruct (exec p _ before (m ++ a) caps); [discriminate | congruence].
Qed.

(** [re.test(input)] holds exactly when the pattern matches
    somewhere. *)
Lemma search_sound (re : regexp) (rest : string) :
  forall before caps,
    search re before rest = Some caps ->
    exists b m a,
      before ++ rest = b ++ m ++ a /\ matched (source re) b m a.
Proof.
  induction rest as [|c rest IH]; intros before caps; cbn [search];
    destruct (exec (source re) _ before _ _) as [y|] eqn:E.
  - intros _. apply exec_sound in E as (m & a & _ & -> & M & _).
    now exists before, m, a.
  - discriminate.
  - intros _. apply exec_sound in E as (m & a & _ & -> & M & _).
    now exists before, m, a.
  - intros S. apply IH in S as (b & m & a & E' & M).
    exists b, m, a. split; [|exact M].
    now rewrite <- E', app_assoc.
Qed.

Lemma search_complete (re : regexp) (x m a : string) :
  forall before,
    matched (source re) (before ++ x) m a ->
    search re before (x ++ m ++ a) <> None.
Proof.
  induction x as [|c x IH]; intros before M.
  - rewrite app_nil_r in M. cbn [append].
    assert (E : exec (source re) (fun _ _ caps => Some caps) before (m ++ a)
                  (List.repeat None (groups re)) <> None)
      by (apply exec_complete; [exact M | discriminate]).
    destruct (m ++ a); cbn [search];
      destruct (exec (source re) _ before _ _); congruence.
  - cbn [append search].
    destruct (exec (source re) _ before _ _); [discriminate|].
    apply IH. now rewrite app_assoc.
Qed.

Lemma test_iff (re : regexp) (input : string) :
  test re input = true
  <-> exists b m a, input = b ++ m ++ a /\ matched (source re) b m a.
Proof.
  unfold test, match_groups. split.
  - destruct (search re EmptyString input) as [caps|] eqn:S; [|discriminate].
    intros _. now apply search_sound in S.
  - intros (b & m & a & -> & M).
    pose proof (search_complete re b m a EmptyString M) as S.
    now destruct (search re EmptyString (b ++ m ++ a)).
Qed.

End PatternFacts.

Module ConstantsFacts.
Import Str StrFacts Pattern constants PatternFacts VersionFacts.

(** A property of every code unit, by running through them. *)
Ltac each_code_unit c :=
  destruct c as [[] [] [] [] [] [] [] []]; vm_compute;
  try reflexivity; try discriminate; try tauto.

Lemma repositoryClass_codes (c : ascii) :
  repositoryClass c = imageTagCodeUnit c.
Proof. each_code_unit c. Qed.

Lemma tagClass_codes (c : ascii) : tagClass c = imageTagCodeUnit c.
Proof. each_code_unit c. Qed.

Lemma imageTagCodeUnit_no_dash (c : ascii) :
  imageTagCodeUnit c = true -> negb (Ascii.eqb "-" c) = true.
Proof. each_code_unit c. Qed.

Lemma all_ext (p q : ascii -> bool) (s : string) :
  (forall c, p c = q c) -> all p s = all q s.
Proof.
  intros E. induction s as [|c s IH]; [reflexivity|].
  cbn [all]. now rewrite E, IH.
Qed.

Lemma imageTag_matched (b m a : string) :
  matched (source imageTagRegExp) b m a
  <-> b = EmptyString /\ a = EmptyString
      /\ exists repository tag,
           m = repository ++ ":" ++ tag
           /\ (1 <= length repository <= 256)%nat
           /\ (1 <= length tag <= 128)%nat
           /\ all imageTagCodeUnit repository = true
           /\ all imageTagCodeUnit tag = true
           /\ prefix "." tag = false.
Proof.
  cbn [imageTagRegExp source seq matched]. split.
  - intros (m1 & m2 & -> & [-> ->] & m3 & m4 & -> & (L3 & U3 & A3)
             & m5 & m6 & -> & (c & -> & C) & m7 & m8 & -> & (-> & N)
             & m9 & m10 & -> & (L9 & U9 & A9) & -> & ->).
    split; [reflexivity|]. split; [reflexivity|].
    exists m3, m9. apply Ascii.eqb_eq in C. subst c.
    rewrite !app_nil_r in *. cbn [append] in *.
    rewrite (all_ext _ _ _ repositoryClass_codes) in A3.
    rewrite (all_ext _ _ _ tagClass_codes) in A9.
    repeat split; try assumption.
    destruct m9 as [|d m9]; [reflexivity|].
    rewrite prefix_cons, prefix_nil, andb_true_r.
    revert N. unfold dotOrDash, union, one. cbn [existsb].
    destruct (Ascii.eqb "." d); [discriminate | reflexivity].
  - intros (-> & -> & r & t & -> & [L1 U1] & [L2 U2] & A1 & A2 & P).
    exists EmptyString, (r ++ ":" ++ t). split; [reflexivity|].
    split; [now split|].
    exists r, (":" ++ t). split; [reflexivity|].
    rewrite <- (all_ext _ _ _ repositoryClass_codes) in A1.
    split; [now repeat split|].
    exists ":", t. split; [reflexivity|]. split; [now exists ":"%char|].
    exists EmptyString, t. split; [reflexivity|].
    split.
    { split; [reflexivity|]. rewrite app_nil_r.
      destruct t as [|d t]; [exact I|].
      cbn [all] in A2. apply andb_true_iff in A2 as [A2 _].
      apply imageTagCodeUnit_no_dash in A2.
      rewrite prefix_cons, prefix_nil, andb_true_r in P.
      unfold dotOrDash, union, one. cbn [existsb].
      apply negb_true_iff in A2. now rewrite P, A2. }
    exists t, EmptyString. rewrite app_nil_r.
    rewrite <- (all_ext _ _ _ tagClass_codes) in A2.
    now repeat split.
Qed.

End ConstantsFacts.

Module FromFacts.
Import Str StrFacts Pattern constants PatternFacts ConstantsFacts VersionFacts.

Lemma ignoreCase_member (cls : ascii -> bool) (c : ascii) :
  cls c = true -> ignoreCase cls c = true.
Proof. intros E. unfold ignoreCase. now rewrite E. Qed.

Lemma imageClass_not_space (c : ascii) :
  imageClass c = true -> ignoreCase space c = false.
Proof. each_code_unit c. Qed.

Lemma letter_not_space (c : ascii) :
  range "a" "z" c = true -> ignoreCase space c = false.
Proof. each_code_unit c. Qed.

Lemma head_not_space (s : string) :
  all imageClass s = true ->
  match s with
  | String c _ => ignoreCase space c = false
  | EmptyString => True
  end.
Proof.
  destruct s as [|c s]; [easy|]. intros A. cbn [all] in A.
  apply andb_true_iff in A as [A _]. now apply imageClass_not_space.
Qed.

Ltac longest m a :=
  match goal with
  | |- greedy ?cls ?k ?min ?max ?b _ = Some ?r =>
      apply (greedy_longest cls k m a r min max b);
      [cbn [length]; lia | exact I | | | cbv beta]
  end.

(** Decide the classes at the code units that are known. *)
Ltac known_code_units :=
  repeat match goal with
         | |- context [ignoreCase ?cls
                         (Ascii ?b0 ?b1 ?b2 ?b3 ?b4 ?b5 ?b6 ?b7)] =>
             let v := eval vm_compute in
                        (ignoreCase cls (Ascii b0 b1 b2 b3 b4 b5 b6 b7)) in
             change (ignoreCase cls (Ascii b0 b1 b2 b3 b4 b5 b6 b7)) with v
         end; cbv iota.

Lemma all_ignoreCase (cls : ascii -> bool) (s : string) :
  all cls s = true -> all (ignoreCase cls) s = true.
Proof. apply all_impl, ignoreCase_member. Qed.

Lemma from_exec_plain (image : string) :
  image <> EmptyString -> all imageClass image = true ->
  exec (source FROM_DIRECTIVE_PATTERN) (fun _ _ caps => Some caps)
    EmptyString ("FROM " ++ image ++ EmptyString) [None; None]
  = Some [Some image; None].
Proof.
  intros N A.
  cbn [FROM_DIRECTIVE_PATTERN source seq List.app literal_i exec length
       Nat.eqb].
  longest EmptyString ("FROM " ++ image ++ EmptyString);
    [reflexivity | reflexivity |].
  cbn [append]. known_code_units.
  longest " " (image ++ EmptyString);
    [reflexivity | rewrite app_nil_r; now apply head_not_space |].
  longest image EmptyString; [now apply all_ignoreCase | exact I |].
  cbn [greedy]. reflexivity.
Qed.

Lemma from_exec_stage (image stage : string) (c : ascii) :
  image <> EmptyString -> all imageClass image = true ->
  range "a" "z" c = true -> all stageClass stage = true ->
  exec (source FROM_DIRECTIVE_PATTERN) (fun _ _ caps => Some caps)
    EmptyString ("FROM " ++ image ++ " AS " ++ String c stage ++ EmptyString)
    [None; None]
  = Some [Some image; Some (" AS " ++ String c stage)].
Proof.
  intros N A C S.
  cbn [FROM_DIRECTIVE_PATTERN source seq List.app literal_i exec length
       Nat.eqb].
  longest EmptyString
    ("FROM " ++ image ++ " AS " ++ String c stage ++ EmptyString);
    [reflexivity | reflexivity |].
  cbn [append]. known_code_units.
  longest " " (image ++ " AS " ++ String c stage ++ EmptyString).
  { reflexivity. }
  { destruct image as [|d image]; [congruence|]. cbn [append].
    cbn [all] in A. apply andb_true_iff in A as [A _].
    now apply imageClass_not_space. }
  longest image (" AS " ++ String c stage ++ EmptyString);
    [now apply all_ignoreCase | reflexivity |].
  match goal with
  | |- match ?g with Some r0 => _ | None => _ end = Some ?r =>
      assert (E : g = Some r); [|now rewrite E]
  end.
  longest " " ("AS " ++ String c stage ++ EmptyString);
    [reflexivity | reflexivity |].
  cbn [append]. known_code_units.
  longest " " (String c stage ++ EmptyString);
    [reflexivity | now apply letter_not_space |].
  cbn [append]. rewrite (ignoreCase_member _ _ C).
  longest stage EmptyString; [now apply all_ignoreCase | exact I |].
  cbn [append]. rewrite !app_assoc. cbn [append].
  set (stageText := String " " (String "A" (String "S" (String " "
                      (String c stage))))).
  change (String "F" (String "R" (String "O" (String "M" (String " "
            (image ++ stageText))))))
    with (("FROM " ++ image) ++ stageText).
  change (String "F" (String "R" (String "O" (String "M"
            (String " " image)))))
    with ("FROM " ++ image).
  rewrite length_app, !drop_app.
  assert (L : (length ("FROM " ++ image) + length stageText
               =? length ("FROM " ++ image))%nat = false).
  { apply Nat.eqb_neq. unfold stageText. cbn [length]. lia. }
  rewrite L. reflexivity.
Qed.

(** A pattern that starts with [^] matches at the start or nowhere. *)
Lemma search_from (input : string) (caps : captures) :
  exec (source FROM_DIRECTIVE_PATTERN) (fun _ _ caps => Some caps)
    EmptyString input [None; None] = Some caps ->
  match_groups FROM_DIRECTIVE_PATTERN input = Some caps.
Proof.
  intros E. unfold match_groups.
  destruct input as [|c input]; cbn [search];
    change (List.repeat None (groups FROM_DIRECTIVE_PATTERN))
      with [@None string; None];
    now rewrite E.
Qed.

End FromFacts.

Module FromShapeFacts.
Import Str StrFacts Pattern constants PatternFacts ConstantsFacts VersionFacts
       FromFacts.


Lemma space_no_dot (c : ascii) : ignoreCase space c = true -> no_dot c = true.
Proof. each_code_unit c. Qed.

Lemma image_no_dot (c : ascii) :
  ignoreCase imageClass c = true -> no_dot c = true.
Proof. each_code_unit c. Qed.

Lemma letter_no_dot (c : ascii) :
  ignoreCase (range "a" "z") c = true -> no_dot c = true.
Proof. each_code_unit c. Qed.

Lemma stage_no_space (c : ascii) :
  ignoreCase stageClass c = true -> no_space c = true.
Proof. each_code_unit c. Qed.

Lemma one_no_dot (l c : ascii) :
  range "a" "z" l || range "A" "Z" l = true ->
  ignoreCase (one l) c = true -> no_dot c = true.
Proof.
  intros L E. unfold no_dot. apply negb_true_iff, Ascii.eqb_neq.
  intros <-. revert L E. unfold ignoreCase, one.
  change (toUpperCase ".") with "."%char.
  change (toLowerCase ".") with "."%char.
  rewrite !orb_diag. intros L E. apply Ascii.eqb_eq in E. subst l.
  discriminate.
Qed.

(** What [FROM_DIRECTIVE_PATTERN] matches is the whole input: a text
    without dot, then a text without white space. *)
Lemma from_matched (b m a : string) :
  matched (source FROM_DIRECTIVE_PATTERN) b m a ->
  b = EmptyString /\ a = EmptyString
  /\ exists head tail,
       m = head ++ tail /\ all no_dot head = true
       /\ all no_space tail = true.
Proof.
  cbn [FROM_DIRECTIVE_PATTERN source seq List.app literal_i matched].
  intros (m0 & r0 & -> & [-> ->] & ws1 & r1 & -> & (_ & _ & W1)
            & f & r2 & -> & (cf & -> & F) & r & r3 & -> & (cr & -> & R)
            & o & r4 & -> & (co & -> & O) & mm & r5 & -> & (cm & -> & M)
            & ws2 & r6 & -> & (_ & _ & W2) & g0 & r7 & -> & (_ & _ & G)
            & opt & r8 & -> & Opt & -> & ->).
  split; [reflexivity|]. split; [reflexivity|].
  apply (all_impl _ _ _ space_no_dot) in W1, W2.
  apply (all_impl _ _ _ image_no_dot) in G.
  apply (one_no_dot "F") in F; [|reflexivity].
  apply (one_no_dot "R") in R; [|reflexivity].
  apply (one_no_dot "O") in O; [|reflexivity].
  apply (one_no_dot "M") in M; [|reflexivity].
  destruct Opt as [-> | [_ Opt]].
  - exists (ws1 ++ String cf (String cr (String co (String cm (ws2 ++ g0))))),
      EmptyString.
    split.
    { repeat (progress (rewrite ?app_assoc, ?app_nil_r; cbn [append])).
      reflexivity. }
    split; [|reflexivity].
    rewrite all_app. cbn [all]. rewrite all_app.
    now rewrite W1, F, R, O, M, W2, G.
  - destruct Opt as (ws3 & r9 & -> & (_ & _ & W3) & x & r10 & ->
                       & (ca & -> & A) & y & r11 & -> & (cs & -> & S)
                       & ws4 & r12 & -> & (_ & _ & W4) & l & st & ->
                       & (cl & -> & L) & (_ & _ & St)).
    apply (all_impl _ _ _ space_no_dot) in W3, W4.
    apply (one_no_dot "A") in A; [|reflexivity].
    apply (one_no_dot "S") in S; [|reflexivity].
    apply letter_no_dot in L.
    apply (all_impl _ _ _ stage_no_space) in St.
    exists (ws1 ++ String cf (String cr (String co (String cm
              (ws2 ++ g0 ++ ws3 ++ String ca (String cs
                 (ws4 ++ String cl EmptyString))))))), st.
    split.
    { repeat (progress (rewrite ?app_assoc, ?app_nil_r; cbn [append])).
      reflexivity. }
    split; [|exact St].
    rewrite all_app. cbn [all]. rewrite !all_app. cbn [all].
    rewrite all_app. cbn [all].
    now rewrite W1, F, R, O, M, W2, G, W3, A, S, W4, L.
Qed.

Lemma lacks_split (c : ascii) (s : string) :
  lacks c s = false -> exists x y, s = x ++ String c y.
Proof.
  induction s as [|d s IH]; [discriminate|]. cbn [lacks all].
  destruct (Ascii.eqb c d) eqn:E.
  - apply Ascii.eqb_eq in E. subst d. intros _.
    now exists EmptyString, s.
  - cbn [negb andb]. intros L. destruct (IH L) as (x & y & ->).
    now exists (String d x), y.
Qed.

(** A dot of [head ++ tail] lies in [tail] when [head] has none. *)
Lemma dot_in_tail (head tail x y : string) :
  all no_dot head = true -> head ++ tail = x ++ String "." y ->
  exists z, tail = z ++ String "." y.
Proof.
  revert x; induction head as [|c head IH]; intros x D E.
  - now exists x.
  - cbn [all] in D. apply andb_true_iff in D as [D0 D].
    destruct x as [|d x]; cbn [append] in E; injection E as E0 E.
    + subst c. discriminate.
    + now apply (IH x).
Qed.

(** In a line that the pattern matches, no white space follows a
    dot. *)
Lemma from_dot_then_no_space (x y : string) :
  test FROM_DIRECTIVE_PATTERN (x ++ String "." y) = true ->
  all no_space y = true.
Proof.
  intros T. apply test_iff in T as (b & m & a & E & M).
  apply from_matched in M as (-> & -> & head & tail & -> & D & Sp).
  rewrite app_nil_r in E. cbn [append] in E. symmetry in E.
  destruct (dot_in_tail _ _ _ _ D E) as (z & ->).
  rewrite all_app in Sp. cbn [all] in Sp.
  apply andb_true_iff in Sp as [_ Sp].
  now apply andb_true_iff in Sp as [_ Sp].
Qed.

End FromShapeFacts.

Module LineFacts.
Import Str StrFacts Pattern constants PatternFacts FromFacts FromShapeFacts
       VersionFacts.

Lemma from_rejects_dotted (image stage : string) :
  lacks "." image = false ->
  test FROM_DIRECTIVE_PATTERN ("FROM " ++ image ++ " AS " ++ stage) = false.
Proof.
  intros L. apply not_true_is_false. intros T.
  destruct (lacks_split _ _ L) as (x & y & ->).
  assert (E : "FROM " ++ (x ++ String "." y) ++ " AS " ++ stage
              = ("FROM " ++ x) ++ String "." (y ++ " AS " ++ stage)).
  { cbn [append]. now rewrite !app_assoc. }
  rewrite E in T. apply from_dot_then_no_space in T.
  rewrite all_app in T. cbn [append all] in T.
  change (no_space " ") with false in T.
  now rewrite andb_false_r in T.
Qed.

Lemma imageName_dotted (repository suffix tag : string) (v : semver.SemVer) :
  lacks "." (imageName repository suffix v tag) = false.
Proof.
  unfold imageName, lacks. rewrite !all_app. cbn [all].
  change (negb (Ascii.eqb "." ".")) with false.
  now rewrite !andb_false_r, ?andb_false_l.
Qed.

Lemma expectedImageNames_dotted (platform tag : string) (v : semver.SemVer) :
  lacks "." (fst (expectedImageNames platform v tag)) = false
  /\ lacks "." (snd (expectedImageNames platform v tag)) = false.
Proof.
  unfold expectedImageNames.
  destruct (semver.gte_parsed v v2_1_0);
    [|destruct (platform =? "ASP.NET Core")]; cbn [fst snd];
    split; apply imageName_dotted.
Qed.

End LineFacts.


(* ================================================================== *)
(** * Further properties of [genDockerFile] *)
(* ================================================================== *)

Section FurtherGenDockerFile.
Import Str StrFacts VersionFacts RegExpFacts SemverFacts GenDockerFileFacts
       PatchFacts PlatformFacts NumeralFacts ParseFacts PathFacts
       PathUseFacts PlainFacts.
Context {Host : Type} {osUtils : OsUtils Host}
      {configUtils : ConfigUtils}.

(** X1. A platform that is neither ['ASP.NET Core'] nor
    ['.NET Core Console']: for a valid target system [genDockerFile]
    throws the assertion [Unknown platform] of lines 203 and 216, or,
    before it, the [TypeError] of a version that semver rejects.  The
    [Error] of the [switch] of lines 240-241, [Unexpected platform], is
    thrown for no arguments at all: the assertion always comes first. *)
Theorem unknown_platform_asserted (host : Host)
    (serviceNameAndRelativePath platform : string) (os : option string)
    (ports : option (list Z)) (version artifactName : string) :
  (~ is_platform platform -> is_os os ->
   genDockerFile host serviceNameAndRelativePath platform os ports version
     artifactName
   = match semver.parse (netCoreAppVersion version) with
     | Ok _ => Throw (AssertionError "Unknown platform")
     | Throw e => Throw e
     end)
  /\ genDockerFile host serviceNameAndRelativePath platform os ports version
       artifactName
     <> Throw (Error ("Unexpected platform " ++ quoted platform)).
Proof.
  split.
  - intros N O. unfold genDockerFile. rewrite (os_accepted _ O).
    rewrite (resolveImageNames_unknown_platform host platform os version N).
    now destruct (semver.parse (netCoreAppVersion version)).
  - unfold genDockerFile.
    destruct (negb (os_is os "Windows") && negb (os_is os "Linux")).
    + intros E. injection E as E. discriminate.
    + destruct (resolveImageNames host platform os version) as [names|e]
        eqn:R; cbn [bind].
      * destruct (selectTemplate platform os) as [template|e] eqn:T;
          cbn [bind].
        -- unfold checkUnreplacedToken.
           destruct (negb _); discriminate.
        -- unfold selectTemplate in T.
           destruct (platform =? ".NET Core Console") eqn:C;
             [discriminate|].
           destruct (platform =? "ASP.NET Core") eqn:A; [discriminate|].
           assert (N : ~ is_platform platform).
           { intros [-> | ->]; discriminate. }
           rewrite (resolveImageNames_unknown_platform host platform os
                      version N) in R.
           destruct (semver.parse (netCoreAppVersion version)); discriminate.
      * apply resolveImageNames_Throw in R as [[msg ->] | ->]; discriminate.
Qed.


(** X3. The patch number of the TargetFramework decides nothing: two
    TargetFrameworks whose versions have the same major and minor
    numbers give the same result, whatever the other arguments. *)
Theorem patch_number_ignored (host : Host)
    (serviceNameAndRelativePath platform : string) (os : option string)
    (ports : option (list Z)) (version1 version2 artifactName : string)
    (v1 v2 : semver.SemVer) :
  semver.parse (netCoreAppVersion version1) = Ok v1 ->
  semver.parse (netCoreAppVersion version2) = Ok v2 ->
  semver.major v1 = semver.major v2 ->
  semver.minor v1 = semver.minor v2 ->
  genDockerFile host serviceNameAndRelativePath platform os ports version1
    artifactName
  = genDockerFile host serviceNameAndRelativePath platform os ports version2
      artifactName.
Proof.
  intros P1 P2 Ma Mi.
  unfold genDockerFile, resolveImageNames, imageFormats,
    tagForWindowsVersion, formatVersion.
  rewrite !(gte_of_parse _ _ P1), !(gte_of_parse _ _ P2),
    !(lt_of_parse _ _ P1), !(lt_of_parse _ _ P2), P1, P2.
  cbn [bind].
  now rewrite (gte_2_1_0_patch v1 v2 Ma Mi), (lt_2_0_0_patch v1 v2 Ma Mi),
    Ma, Mi.
Qed.

(** X4. A TargetFramework [netcoreapp<major>] without minor number, as
    [netcoreapp3]: the version taken from it is [<major>], to which no
    patch is added, and for a valid target system [genDockerFile] throws
    the [TypeError] [Invalid Version: <major>] of semver, whatever the
    platform. *)
Theorem target_framework_without_minor (host : Host)
    (serviceNameAndRelativePath platform : string) (os : option string)
    (ports : option (list Z)) (major artifactName : string) :
  is_os os -> major <> EmptyString -> all RegExp.digit major = true ->
  (length major <= 256)%nat ->
  netCoreAppVersion ("netcoreapp" ++ major) = major
  /\ genDockerFile host serviceNameAndRelativePath platform os ports
       ("netcoreapp" ++ major) artifactName
     = Throw (TypeError ("Invalid Version: " ++ major)).
Proof.
  intros O N A L. split; [now apply netCoreAppVersion_major|].
  unfold genDockerFile. rewrite (os_accepted _ O).
  unfold resolveImageNames, imageFormats, semver.gte.
  rewrite (netCoreAppVersion_major _ N A), (parse_without_dot _ A L).
  reflexivity.
Qed.

(** X5. The image names repeat the version as it is written: for a
    TargetFramework [netcoreapp<major>.<minor>] whose numbers are
    numerals without leading zero, the version is parsed as
    [major.minor.0], and every image name is
    [repository:<major>.<minor><suffix><tag>] with the two numerals as
    they stand in the TargetFramework. *)
Theorem image_names_repeat_version (host : Host) (platform : string)
    (os : option string) (major minor : string) (ma mi : N) :
  is_platform platform ->
  semver.numeric major = Some ma -> semver.numeric minor = Some mi ->
  (ma <= semver.MAX_SAFE_INTEGER)%N -> (mi <= semver.MAX_SAFE_INTEGER)%N ->
  (length major + length minor <= 253)%nat ->
  let v := {| semver.major := ma; semver.minor := mi; semver.patch := 0 |} in
  resolveImageNames host platform os ("netcoreapp" ++ major ++ "." ++ minor)
  = Ok (expectedImageNames platform v (windowsTag host os v))
  /\ forall repository suffix tag,
       imageName repository suffix v tag
       = repository ++ ":" ++ major ++ "." ++ minor ++ suffix ++ tag.
Proof.
  intros Hp Na Nb La Lb L v.
  destruct (numeric_digits _ _ Na) as [Ea Da].
  destruct (numeric_digits _ _ Nb) as [Eb Db].
  split.
  - apply resolveImageNames_of_parse; [exact Hp|].
    rewrite netCoreAppVersion_major_minor by assumption.
    now apply parse_major_minor.
  - intros repository suffix tag. unfold imageName, v.
    cbn [semver.major semver.minor].
    now rewrite (toString_numeric _ _ Na), (toString_numeric _ _ Nb).
Qed.

(** X6. How the service path is taken apart (lines 172-179): for a
    path [folder/name] the Dockerfile copies the project file to
    [folder/], restores [folder/<project file>], works in [/src/folder]
    and starts [name.dll]; for a bare [name], a project in the root
    folder, the directory is [.].  Stated for a host that is not
    Windows, where [path] is the POSIX module, and for values that hold
    no [$]. *)
Theorem service_path_decomposed (host : Host)
    (folder name platform : string) (os : option string)
    (ports : option (list Z)) (version artifactName : string)
    (v : semver.SemVer) :
  isWindows host = false ->
  is_platform platform -> is_os os ->
  name <> EmptyString -> lacks "/" name = true ->
  lacks "$" folder = true -> lacks "$" name = true ->
  lacks "$" artifactName = true ->
  lacks "$" (getExposeStatements ports) = true ->
  semver.parse (netCoreAppVersion version) = Ok v ->
  let names := expectedImageNames platform v (windowsTag host os v) in
  (folder <> EmptyString -> folder <> "/" ->
   genDockerFile host (folder ++ "/" ++ name) platform os ports version
     artifactName
   = Ok (dockerfileText os (fst names) (getExposeStatements ports)
           (snd names) folder (path.basename artifactName) name
           (copyCommand artifactName folder)))
  /\ genDockerFile host name platform os ports version artifactName
     = Ok (dockerfileText os (fst names) (getExposeStatements ports)
             (snd names) "." (path.basename artifactName) name
             (copyCommand artifactName ".")).
Proof.
  intros _ Hp Ho N L Lf Ln La Le P names. split.
  - intros Nf Nr.
    rewrite (genDockerFile_plain host _ _ _ ports version artifactName v
               Hp Ho); try assumption.
    + now rewrite dirname_of_file, basename_of_file.
    + unfold lacks. rewrite !all_app. fold (lacks "$" folder).
      fold (lacks "$" name). now rewrite Lf, Ln.
  - rewrite (genDockerFile_plain host _ _ _ ports version artifactName v
               Hp Ho); try assumption.
    now rewrite (dirname_of_name name), (basename_of_name name).
Qed.

End FurtherGenDockerFile.

Section FurtherTokens.
Import SemverFacts.
Import Str StrFacts JSFacts TemplateFacts VersionFacts RegExpFacts
       TailFacts PathFacts GenDockerFileFacts.
Context {Host : Type} {osUtils : OsUtils Host}
      {configUtils : ConfigUtils}.

(** X25. Token substitution where the values hold no [$]: a Dockerfile
    that [genDockerFile] returns holds no template token, on every
    host.  On a host that is not Windows, where [path] is the POSIX
    module, with a valid platform and target system and with a service
    path, an artifact name and expose statements that hold no [$], the
    call returns the template with every token of the table replaced by
    its value, or throws the [TypeError] of a version that semver
    rejects: the unreplaced-token assertion is not reached. *)
Theorem template_tokens_substituted (host : Host)
    (serviceNameAndRelativePath platform : string) (os : option string)
    (ports : option (list Z)) (version artifactName : string) :
  (forall contents,
     genDockerFile host serviceNameAndRelativePath platform os ports version
       artifactName = Ok contents ->
     has_token contents = false)
  /\ (isWindows host = false -> is_platform platform -> is_os os ->
      lacks "$" serviceNameAndRelativePath = true ->
      lacks "$" artifactName = true ->
      lacks "$" (getExposeStatements ports) = true ->
      match semver.parse (netCoreAppVersion version) with
      | Ok v =>
          let names := expectedImageNames platform v (windowsTag host os v) in
          genDockerFile host serviceNameAndRelativePath platform os ports
            version artifactName
          = Ok (dockerfileText os (fst names) (getExposeStatements ports)
                  (snd names) (path.dirname serviceNameAndRelativePath)
                  (path.basename artifactName)
                  (path.basename serviceNameAndRelativePath)
                  (copyCommand artifactName
                     (path.dirname serviceNameAndRelativePath)))
      | Throw e =>
          genDockerFile host serviceNameAndRelativePath platform os ports
            version artifactName = Throw e
          /\ exists msg, e = TypeError msg
      end).
Proof.
  split.
  - intros contents E. now apply genDockerFile_Ok in E as [N _].
  - intros _ Hp Ho Ls La Le.
    rewrite (genDockerFile_accepted host _ _ _ ports version artifactName
               Hp Ho).
    destruct (semver.parse (netCoreAppVersion version)) as [v|e] eqn:P.
    + cbv zeta.
      destruct (expectedImageNames_plain platform (windowsTag host os v) v
                  (windowsTag_plain host os v)) as [LB LS].
      assert (LD : lacks "$" (path.dirname serviceNameAndRelativePath) = true)
        by (now apply dirname_all).
      assert (LP : lacks "$" (path.basename artifactName) = true)
        by (now apply basename_all).
      assert (LA : lacks "$" (path.basename serviceNameAndRelativePath) = true)
        by (now apply basename_all).
      assert (LC : lacks "$"
                (copyCommand artifactName
                   (path.dirname serviceNameAndRelativePath)) = true)
        by (now apply copyCommand_plain).
      rewrite substituteTokens_plain by assumption.
      apply checkUnreplacedToken_plain.
      now apply dockerfileText_plain.
    + split; [reflexivity|]. now apply parse_Throw in P.
Qed.

(** X26. The assembly name where the base name of the service path
    holds no [$]: on a host that is not Windows, every Dockerfile that
    [genDockerFile] returns ends with the final stage whose entry point
    is [ENTRYPOINT ["dotnet", "<serviceName>.dll"]], where
    [<serviceName>] is that base name; the base name holds no
    separator, and for a path [folder/name] it is [name]: the project
    folder is not part of it. *)
Theorem assembly_name_substitution (host : Host)
    (serviceNameAndRelativePath platform : string) (os : option string)
    (ports : option (list Z)) (version artifactName contents : string) :
  isWindows host = false ->
  genDockerFile host serviceNameAndRelativePath platform os ports version
    artifactName = Ok contents ->
  lacks "$" (path.basename serviceNameAndRelativePath) = true ->
  ends_with contents
    (newline ++ finalStage (path.basename serviceNameAndRelativePath))
  /\ lacks "/" (path.basename serviceNameAndRelativePath) = true
  /\ (forall folder name,
        serviceNameAndRelativePath = folder ++ "/" ++ name ->
        name <> EmptyString -> lacks "/" name = true ->
        path.basename serviceNameAndRelativePath = name).
Proof.
  intros _ E LA. apply genDockerFile_Ok in E as [_ (B & S & ->)].
  split; [|split].
  - apply substituteTokens_end; [exact LA | apply templateFor_end].
  - apply basename_no_slash.
  - intros folder name -> N L. now apply basename_of_file.
Qed.

End FurtherTokens.

(* ================================================================== *)
(** * Further properties of [scaffoldNetCore] *)
(* ================================================================== *)

(** X7. The service path is the project file without its extension
    (lines 316 and 322): for a project file [stem.ext], where the dot
    does not open the last component, the extension is [.ext], what
    [slice] keeps is [stem], and the two put together give the project
    file back.  A project file without extension leaves an empty
    service path, for [slice(0, -0)] is [slice(0, 0)]. *)
Theorem service_path_drops_extension (pre : string) (c : ascii)
    (ext : string) :
  let stem := pre ++ String c EmptyString in
  let projectFile := stem ++ "." ++ ext in
  c <> "/"%char ->
  ext <> EmptyString -> Str.lacks "/" ext = true ->
  Str.lacks "." ext = true ->
  path.extname projectFile = "." ++ ext
  /\ slice_to_minus projectFile (length (path.extname projectFile)) = stem
  /\ stem ++ path.extname projectFile = projectFile
  /\ (forall other,
        path.extname other = EmptyString ->
        slice_to_minus other (length (path.extname other)) = EmptyString).
Proof.
  intros stem projectFile C N Ls Ld.
  assert (E : path.extname projectFile = "." ++ ext).
  { unfold projectFile, stem. rewrite StrFacts.app_assoc.
    apply PathUseFacts.extname_of_file; try assumption.
    now apply Ascii.eqb_neq. }
  rewrite E. split; [reflexivity|].
  split; [|split; [reflexivity | now intros other ->]].
  unfold projectFile.
  change (length ("." ++ ext)) with (S (length ext)).
  cbn [slice_to_minus]. rewrite StrFacts.length_app.
  change (length ("." ++ ext)) with (S (length ext)).
  replace (length stem + S (length ext) - S (length ext))%nat
    with (length stem) by lia.
  apply PathUseFacts.take_app.
Qed.

(** X8. What the two replacements of lines 340-342 do to a run of
    line feeds, at the start of a text or after a code unit that is no
    line feed, in a text without carriage return: a run of [n] becomes
    a run of [2 * (n / 4) + min (n mod 4) 2].  Runs of three and of four
    become one empty line, and only runs of up to four end with at
    most one empty line: a run of five keeps two. *)
Theorem blank_line_runs_collapsed (pre : string) (c : ascii) (n : nat)
    (rest : string) :
  Str.lacks (ascii_of_nat 13) (pre ++ String c rest) = true ->
  c <> ascii_of_nat 10 -> prefix Str.newline rest = false ->
  collapseBlankLines (lineFeeds n ++ rest)
  = lineFeeds (collapsed n) ++ collapseBlankLines rest
  /\ collapseBlankLines (pre ++ String c (lineFeeds n ++ rest))
     = collapseBlankLines pre
         ++ String c (lineFeeds (collapsed n) ++ collapseBlankLines rest)
  /\ (collapsed n <= 2 <-> n <= 4)%nat.
Proof.
  intros L N P. unfold collapseBlankLines.
  unfold Str.lacks in L. rewrite StrFacts.all_app in L.
  apply andb_true_iff in L as [Lp L]. cbn [Str.all] in L.
  apply andb_true_iff in L as [Lc Lr].
  assert (Ln : forall s,
             Str.all (fun d => negb (Ascii.eqb (ascii_of_nat 13) d)) s = true ->
             Str.lacks (ascii_of_nat 13) (lineFeeds n ++ s) = true).
  { intros s Ls. unfold Str.lacks. rewrite StrFacts.all_app.
    fold (Str.lacks (ascii_of_nat 13) (lineFeeds n)).
    now rewrite CollapseFacts.lineFeeds_lacks_cr, Ls. }
  split; [|split; [|apply CollapseFacts.collapsed_small]].
  - rewrite !CollapseFacts.collapse_crlf_plain; try assumption.
    + now apply CollapseFacts.collapse_run.
    + now apply Ln.
  - rewrite !CollapseFacts.collapse_crlf_plain; try assumption.
    + unfold collapseRuns at 1.
      rewrite BarrierFacts.collapse_barrier by (exact N || lia).
      fold (collapseRuns Str.newline (Str.newline ++ Str.newline)
              (lineFeeds n ++ rest)).
      now rewrite CollapseFacts.collapse_run.
    + unfold Str.lacks. rewrite StrFacts.all_app. cbn [Str.all].
      rewrite Lp, Lc. now apply Ln.
Qed.

Section FurtherScaffold.
Import Str StrFacts GenDockerFileFacts ScaffoldFacts RunFacts SeparatorFacts.
Context {Host : Type} {osUtils : OsUtils Host}
      {configUtils : ConfigUtils} {workspace : Workspace}.

(** X9. What [scaffoldNetCore] hands to [genDockerFile] never holds a
    backslash (line 334): every backslash of the service path has become
    a slash, and nothing else has changed. *)
Theorem service_path_has_posix_separators (context : ScaffolderContext)
    (projectFile : string) :
  lacks (ascii_of_nat 92) (servicePath context projectFile) = true
  /\ forall s,
       JS.replaceAll backslash "/" s = posix s
       /\ length (posix s) = length s.
Proof.
  unfold servicePath, JS.replaceAll. rewrite replaceAll_backslash_from.
  split; [apply posix_lacks_backslash|].
  intros s. rewrite replaceAll_backslash_from. split; [reflexivity|].
  induction s as [|d s IH]; [reflexivity|].
  cbn [posix length]. now rewrite IH.
Qed.

(** X10. When [scaffoldNetCore] returns files: exactly when the target
    system and the ports are settled, a project file is found and read,
    [genDockerFile] returns for the service path of that project file,
    the platform, the system, the ports, the TargetFramework of the file
    and the project file relative to the workspace folder, and the
    debugging, if asked for, is initialised.  The Dockerfile is then
    what [genDockerFile] returned with its runs of empty lines
    collapsed, and the telemetry holds the system, the extension of the
    project file and its depth. *)
Theorem scaffoldNetCore_succeeds_iff (host : Host)
    (context : ScaffolderContext) (t t' : ConfigureTelemetryProperties)
    (files : list ScaffoldFile) :
  scaffoldNetCore host context t = (t', Ok files)
  <-> exists os ports projectFile projFileContents dockerFile,
        effective_os context = Ok os
        /\ effective_ports context = Ok ports
        /\ found_project (context_rootFolder context) = Ok projectFile
        /\ readFile (path_join (context_rootFolder context) projectFile)
           = Ok projFileContents
        /\ genDockerFile host (servicePath context projectFile)
             (context_platform context) os ports
             (targetFramework projFileContents)
             (artifactPath context projectFile) = Ok dockerFile
        /\ debuggingInitialised context projectFile = Ok tt
        /\ files = expectedFiles context projectFile
                     (collapseBlankLines dockerFile)
        /\ t' = telemetryOf context os projectFile.
Proof.
  rewrite scaffoldNetCore_steps. split.
  - destruct (effective_os context) as [os|]; [|discriminate].
    destruct (effective_ports context) as [ports|]; [|discriminate].
    destruct (found_project (context_rootFolder context)) as [f|];
      [|discriminate].
    cbv zeta.
    destruct (readFile _) as [pc|] eqn:R; [|discriminate].
    destruct (genDockerFile _ _ _ _ _ _ _) as [df|] eqn:G; [|discriminate].
    destruct (debuggingInitialised context f) as [u|] eqn:I;
      [|discriminate].
    destruct u. intros E. injection E as <- <-.
    exists os, ports, f, pc, df. now repeat split.
  - intros (os & ports & f & pc & df & -> & -> & -> & -> & -> & -> & ->
              & ->).
    reflexivity.
Qed.

(** X11. The telemetry of a run, also of one that fails: when the
    prompt for the target system rejects, nothing is recorded; once the
    system is known it is recorded, whatever happens later; once the
    project file is found, its extension and its depth are recorded as
    well, also when reading it, [genDockerFile] or the initialisation of
    the debugging fails. *)
Theorem telemetry_of_runs (host : Host) (context : ScaffolderContext)
    (t : ConfigureTelemetryProperties) :
  match effective_os context with
  | Throw e => scaffoldNetCore host context t = (t, Throw e)
  | Ok os =>
      configureOs (fst (scaffoldNetCore host context t)) = os
      /\ match effective_ports context,
               found_project (context_rootFolder context) with
         | Ok _, Ok projectFile =>
             fst (scaffoldNetCore host context t)
             = telemetryOf context os projectFile
         | _, _ =>
             fst (scaffoldNetCore host context t)
             = {| configureOs := os;
                  packageFileType := packageFileType t;
                  packageFileSubfolderDepth :=
                    packageFileSubfolderDepth t |}
         end
  end.
Proof.
  rewrite scaffoldNetCore_steps.
  destruct (effective_os context) as [os|]; [|reflexivity].
  destruct (effective_ports context) as [ports|]; [|now split].
  destruct (found_project (context_rootFolder context)) as [f|];
    [|now split].
  cbv zeta.
  destruct (readFile _) as [pc|]; [|now split].
  destruct (genDockerFile _ _ _ _ _ _ _) as [df|]; [|now split].
  now destruct (debuggingInitialised context f).
Qed.

(** X12. The debugging is initialised with [context.os] (line 356),
    not with the system that the prompt gave: a run that was asked to
    initialise the debugging and returns files has awaited the
    initialiser with the Dockerfile and the project file under
    [${workspaceFolder}] and with [context.os], which is [undefined]
    when the system came from the prompt. *)
Theorem debugging_initialised_with_context_os (host : Host)
    (context : ScaffolderContext) (t t' : ConfigureTelemetryProperties)
    (files : list ScaffoldFile) :
  context_initializeForDebugging context = true ->
  scaffoldNetCore host context t = (t', Ok files) ->
  exists projectFile,
    found_project (context_rootFolder context) = Ok projectFile
    /\ initializeNetCoreForDebugging
         (path_posix_join "${workspaceFolder}"
            (path_relative (context_folder context)
               (path_resolve (context_rootFolder context)
                  (path_join
                     (nullish (context_outputFolder context)
                        (path.dirname projectFile))
                     "Dockerfile"))))
         (path_posix_join "${workspaceFolder}"
            (artifactPath context projectFile))
         (context_os context)
       = Ok tt.
Proof.
  intros D. rewrite scaffoldNetCore_steps.
  destruct (effective_os context) as [os|]; [|discriminate].
  destruct (effective_ports context) as [ports|]; [|discriminate].
  destruct (found_project (context_rootFolder context)) as [f|];
    [|discriminate].
  cbv zeta.
  destruct (readFile _) as [pc|]; [|discriminate].
  destruct (genDockerFile _ _ _ _ _ _ _) as [df|]; [|discriminate].
  unfold debuggingInitialised. rewrite D.
  destruct (initializeNetCoreForDebugging _ _ _) as [[]|] eqn:I;
    [|discriminate].
  intros _. exists f. now split.
Qed.

(** X13. Without a project file (lines 268-272): when the prompts are
    answered and the search finds no [.csproj] or [.fsproj] file, the
    run rejects with the error that asks for one; no file is read and
    no Dockerfile is generated. *)
Theorem project_file_required (host : Host) (context : ScaffolderContext)
    (t : ConfigureTelemetryProperties) (os : option string)
    (ports : option (list Z)) :
  effective_os context = Ok os ->
  effective_ports context = Ok ports ->
  globAsync "**/*.@(c|f)sproj" (context_rootFolder context) = Ok [] ->
  snd (scaffoldNetCore host context t)
  = Throw (Error "No .csproj or .fsproj file could be found. You need a C# or F# project file in the workspace to generate Docker files for the selected platform.").
Proof.
  intros Eo Ep G. rewrite scaffoldNetCore_steps, Eo, Ep.
  unfold found_project, findCSProjOrFSProjFile, task_bind, await.
  now rewrite G.
Qed.

(** X14. An output folder that is the empty text: it counts as given
    where the files are named ([??], lines 344-345), so that both files
    are joined to the empty folder, and as not given where the service
    path is computed ([if], line 328), so that the paths inside the
    Dockerfile stay relative to the root folder. *)
Theorem empty_output_folder (host : Host) (context : ScaffolderContext)
    (t t' : ConfigureTelemetryProperties) (files : list ScaffoldFile) :
  context_outputFolder context = Some EmptyString ->
  scaffoldNetCore host context t = (t', Ok files) ->
  exists os ports projectFile projFileContents dockerFile,
    found_project (context_rootFolder context) = Ok projectFile
    /\ genDockerFile host
         (posix (slice_to_minus projectFile
                   (length (path.extname projectFile))))
         (context_platform context) os ports
         (targetFramework projFileContents)
         (artifactPath context projectFile) = Ok dockerFile
    /\ map fileName files
       = [path_join EmptyString "Dockerfile";
          path_join EmptyString ".dockerignore"].
Proof.
  intros Out S. rewrite scaffoldNetCore_steps in S.
  destruct (effective_os context) as [os|]; [|discriminate].
  destruct (effective_ports context) as [ports|]; [|discriminate].
  destruct (found_project (context_rootFolder context)) as [f|];
    [|discriminate].
  cbv zeta in S.
  destruct (readFile _) as [pc|]; [|discriminate].
  destruct (genDockerFile _ _ _ _ _ _ _) as [df|] eqn:G; [|discriminate].
  destruct (debuggingInitialised context f); [|discriminate].
  injection S as _ <-.
  exists os, ports, f, pc, df. split; [reflexivity|]. split.
  - revert G. unfold servicePath. rewrite Out. cbn [truthy String.eqb negb].
    unfold JS.replaceAll. now rewrite replaceAll_backslash_from.
  - unfold expectedFiles. rewrite Out. reflexivity.
Qed.

End FurtherScaffold.

(** X15. The prompts are not consulted when the context answers: with
    [context.os] set, and [context.ports] set or a platform other than
    ['ASP.NET Core'], two workspaces that differ by the answers of their
    prompts at most give the same run. *)
Theorem prompts_not_consulted {Host : Type} {osUtils : OsUtils Host}
    {configUtils : ConfigUtils} (w1 w2 : Workspace) (host : Host)
    (context : ScaffolderContext) (t : ConfigureTelemetryProperties) :
  same_but_prompts w1 w2 ->
  context_os context <> None ->
  context_ports context <> None
  \/ context_platform context <> "ASP.NET Core" ->
  @scaffoldNetCore Host osUtils configUtils w1 host context t
  = @scaffoldNetCore Host osUtils configUtils w2 host context t.
Proof.
  intros (G & Q & R & I & D & J & Re & Rs & Pj & Pr) Os Ps.
  destruct w1, w2. cbn in G, Q, R, I, D, J, Re, Rs, Pj, Pr. subst.
  unfold scaffoldNetCore, findCSProjOrFSProjFile, initializeForDebugging.
  cbn [promptForOS promptForPorts globAsync
       showQuickPick readFile
       initializeNetCoreForDebugging getSubfolderDepth
       path_join path_relative path_resolve
       path_posix_join path_posix_relative].
  destruct (context_os context) as [o|]; [|congruence].
  destruct (context_ports context) as [p|]; [reflexivity|].
  destruct Ps as [Ps | Ps]; [congruence|].
  apply String.eqb_neq in Ps. now rewrite Ps.
Qed.

(* ================================================================== *)
(** * Further properties of the poll *)
(* ================================================================== *)

Section FurtherPoll.
Import AzureAccount PollFacts TimeoutFacts AzureAccountTree.
Context {timers : Timers}.

(** X16. The poll does not give up early: when it ends without having
    found the extension, the time-out has run, ten minutes or more have
    passed since the call, and [refresh] was not called. *)
Theorem poll_lasts_ten_minutes (fuel : nat) (st : State) :
  refreshNodeWhenAzureExtensionIsInstalled fuel = Some st ->
  isExtensionInstalled st = false ->
  timedout st = true /\ (600000 <= now st)%N /\ refreshes st = 0%nat.
Proof.
  unfold refreshNodeWhenAzureExtensionIsInstalled.
  destruct (loop fuel initial) as [st'|] eqn:L; [|discriminate].
  apply loop_end in L as [[T R] S]; [|split; [discriminate | reflexivity]].
  destruct (isExtensionInstalled st') eqn:I; intros E; injection E as <-.
  - cbn [refresh isExtensionInstalled]. congruence.
  - intros _. destruct S as [S | S]; [|congruence].
    split; [exact S|]. split; [now apply T | exact R].
Qed.

(** X17. With timers that are never late, an extension that is first
    found by the check number [k + 1], for [k < 600], is noticed by
    that check: the loop ends after [k + 1] bodies, [1000 * (k + 1)]
    milliseconds after the call, and [refresh] is called once. *)
Theorem poll_finds_extension (k : nat) :
  punctual -> first_found_at k -> (k < 600)%nat ->
  exists st,
    (forall extra,
       refreshNodeWhenAzureExtensionIsInstalled (S k + extra) = Some st)
    /\ iterations st = S k
    /\ now st = (1000 * N.of_nat (S k))%N
    /\ isExtensionInstalled st = true
    /\ refreshes st = 1%nat.
Proof.
  intros P F K.
  destruct (loop_waiting k k P F K 0%nat eq_refl)
    as (st & L & It & T & I & R).
  exists (refresh st). split; [|repeat split; try assumption].
  - intros extra. unfold refreshNodeWhenAzureExtensionIsInstalled.
    change initial with (waiting 0). now rewrite L, I.
  - cbn [refresh refreshes]. now rewrite R.
Qed.

(** X18. [loadMoreChildrenImpl] returns what the base class returned,
    items or error, and does not wait for the poll.  It starts the poll
    only for a single item whose command is ['extension.open'], and a
    poll that ends has called [refresh] once if its last check found
    the extension and not at all otherwise. *)
Theorem refresh_needs_install_item (fuel : nat)
    (super_loadMoreChildrenImpl : result (list AzExtTreeItem)) :
  fst (loadMoreChildrenImpl fuel super_loadMoreChildrenImpl)
  = super_loadMoreChildrenImpl
  /\ (forall st,
        snd (loadMoreChildrenImpl fuel super_loadMoreChildrenImpl)
        = Some (Some st) ->
        (exists item,
           super_loadMoreChildrenImpl = Ok [item]
           /\ commandId item = Some "extension.open")
        /\ refreshes st = (if isExtensionInstalled st then 1 else 0)%nat)
  /\ (forall treeItems,
        super_loadMoreChildrenImpl = Ok treeItems ->
        List.length treeItems <> 1%nat ->
        snd (loadMoreChildrenImpl fuel super_loadMoreChildrenImpl) = None).
Proof.
  unfold loadMoreChildrenImpl.
  destruct super_loadMoreChildrenImpl as [treeItems|e];
    (split; [reflexivity|]); split; try discriminate.
  - cbn [snd]. intros st.
    destruct (asks_to_install treeItems) eqn:A; [|discriminate].
    intros E. injection E as E. split.
    + unfold asks_to_install in A. apply andb_true_iff in A as [A1 A2].
      apply Nat.eqb_eq in A1.
      destruct treeItems as [|item [|]]; try discriminate.
      cbn [nth_error] in A2. exists item. split; [reflexivity|].
      destruct (commandId item) as [c|]; [|discriminate].
      now apply String.eqb_eq in A2 as ->.
    + unfold refreshNodeWhenAzureExtensionIsInstalled in E.
      destruct (loop fuel initial) as [st'|] eqn:L; [|discriminate].
      apply loop_end in L as [[_ R] _];
        [|split; [discriminate | reflexivity]].
      injection E as <-.
      destruct (isExtensionInstalled st') eqn:I;
        cbn [refresh isExtensionInstalled refreshes]; rewrite ?I; lia.
  - intros items E N. injection E as <-. cbn [snd].
    unfold asks_to_install. apply Nat.eqb_neq in N. now rewrite N.
Qed.

End FurtherPoll.

(* ================================================================== *)
(** * Further properties of [activate] *)
(* ================================================================== *)

Section FurtherActivation.
Import Extension Wiring ExtensionFacts.

(** X19. The document events (lines 78-82 of dockerExtension.ts): the
    last three registrations of [activate] are the listeners of the
    change, open and close events, each with [ctx.subscriptions] as its
    [thisArgs]; none of their disposables is among the twenty-two that
    the call adds to the subscriptions; and every document that is open
    at activation is validated once, in the order of the editor. *)
Theorem document_events_wired (st : State) :
  let st' := snd (activate st) in
  let n := List.length (registry st) in
  skipn 22 (registered st st')
  = [ (n + 22, EventListener onDidChangeTextDocument scheduleValidate
                 (Some ctx_subscriptions));
      (n + 23, EventListener onDidOpenTextDocument scheduleValidate
                 (Some ctx_subscriptions));
      (n + 24, EventListener onDidCloseTextDocument deleteDiagnostics
                 (Some ctx_subscriptions)) ]%nat
  /\ (forall d, In d (offsets n 22) -> (d < n + 22)%nat)
  /\ subscriptions st' = (subscriptions st ++ offsets n 22)%list
  /\ validated st' = (validated st ++ textDocuments st)%list
  /\ textDocuments st' = textDocuments st.
Proof.
  intros st' n. subst st'. rewrite activate_registered, activate_state.
  fold n. cbn [subscriptions validated textDocuments].
  split; [|split; [|repeat split]].
  - cbn [wiring providers_and_commands listeners commands map List.app
         number skipn].
    repeat f_equal; lia.
  - intros d D. unfold offsets in D. apply in_map_iff in D as (k & <- & K).
    apply in_seq in K. lia.
Qed.

End FurtherActivation.

(* ================================================================== *)
(** * The regular expressions of the constants *)
(* ================================================================== *)

Section ConstantsProperties.
Import Str StrFacts Pattern constants PatternFacts ConstantsFacts FromFacts
       FromShapeFacts LineFacts.

(** X20. What [imageTagRegExp] accepts: exactly the texts
    [repository:tag] where the repository has 1 to 256 code units and
    the tag 1 to 128, all of them between [.] and [_] or small letters,
    and the tag does not start with a dot.  The repository may itself
    hold colons, and both parts any of [/ : ; < = > ? @ [ \ ] ^]. *)
Theorem imageTag_accepted_iff (input : string) :
  test imageTagRegExp input = true
  <-> exists repository tag,
        input = repository ++ ":" ++ tag
        /\ (1 <= length repository <= 256)%nat
        /\ (1 <= length tag <= 128)%nat
        /\ all imageTagCodeUnit repository = true
        /\ all imageTagCodeUnit tag = true
        /\ prefix "." tag = false.
Proof.
  rewrite test_iff. split.
  - intros (b & m & a & -> & M).
    apply imageTag_matched in M as (-> & -> & r & t & -> & H).
    exists r, t. now rewrite app_nil_r.
  - intros (r & t & -> & H).
    exists EmptyString, (r ++ ":" ++ t), EmptyString.
    split; [now rewrite app_nil_r|].
    apply imageTag_matched. split; [reflexivity|]. split; [reflexivity|].
    now exists r, t.
Qed.

(** X21. [imageTagRegExp] accepts no hyphen: in [[a-zA-Z0-9.-_/]] the
    characters [.-_] are a range, which the hyphen is not in, so that
    an image name as [my-app:latest] or a tag as [2.1-sdk] is
    rejected. *)
Theorem imageTag_rejects_hyphen (input : string) :
  test imageTagRegExp input = true ->
  all imageTagCodeUnit input = true /\ lacks "-" input = true.
Proof.
  intros T. apply imageTag_accepted_iff in T
    as (r & t & -> & _ & _ & A1 & A2 & _).
  assert (A : all imageTagCodeUnit (r ++ ":" ++ t) = true).
  { rewrite !all_app, A1, A2. reflexivity. }
  split; [exact A|].
  unfold lacks. revert A. apply VersionFacts.all_impl.
  apply imageTagCodeUnit_no_dash.
Qed.

(** X22. The groups of [FROM_DIRECTIVE_PATTERN]: for an image
    reference made of word characters, hyphens, slashes and colons, the
    line [FROM <image>] gives the image as first group and no second
    group, and the line [FROM <image> AS <stage>] gives the image and
    the stage with its [AS]. *)
Theorem from_directive_groups (image stage : string) (c : ascii) :
  image <> EmptyString -> all imageClass image = true ->
  range "a" "z" c = true -> all stageClass stage = true ->
  match_groups FROM_DIRECTIVE_PATTERN ("FROM " ++ image)
  = Some [Some image; None]
  /\ match_groups FROM_DIRECTIVE_PATTERN
       ("FROM " ++ image ++ " AS " ++ String c stage)
     = Some [Some image; Some (" AS " ++ String c stage)].
Proof.
  intros N A C S. split; apply search_from.
  - rewrite <- (app_nil_r image) at 1. now apply from_exec_plain.
  - rewrite <- (app_nil_r stage) at 1. now apply from_exec_stage.
Qed.

(** X23. [FROM_DIRECTIVE_PATTERN] does not match a line
    [FROM <image> AS <stage>] whose image reference holds a dot, as the
    name of a registry host or a version does: the class of the first
    group has no dot. *)
Theorem from_directive_rejects_dotted_image (image stage : string) :
  lacks "." image = false ->
  test FROM_DIRECTIVE_PATTERN ("FROM " ++ image ++ " AS " ++ stage) = false.
Proof.
  intros L. apply not_true_is_false. intros T.
  destruct (lacks_split _ _ L) as (x & y & ->).
  assert (E : "FROM " ++ (x ++ String "." y) ++ " AS " ++ stage
              = ("FROM " ++ x) ++ String "." (y ++ " AS " ++ stage)).
  { cbn [append]. now rewrite !app_assoc. }
  rewrite E in T. apply from_dot_then_no_space in T.
  rewrite all_app in T. cbn [append all] in T.
  change (no_space " ") with false in T.
  now rewrite andb_false_r in T.
Qed.

(** X24. The pattern on the lines that [genDockerFile] writes: the
    [FROM] lines of the base and of the build stage, whose image names
    hold the dot of [major.minor], are not matched, for any platform,
    version and tag; those of the publish and of the final stage
    are. *)
Theorem generated_from_lines (platform tag : string) (v : semver.SemVer) :
  let names := expectedImageNames platform v tag in
  test FROM_DIRECTIVE_PATTERN ("FROM " ++ fst names ++ " AS base") = false
  /\ test FROM_DIRECTIVE_PATTERN ("FROM " ++ snd names ++ " AS build")
     = false
  /\ match_groups FROM_DIRECTIVE_PATTERN "FROM build AS publish"
     = Some [Some "build"; Some " AS publish"]
  /\ match_groups FROM_DIRECTIVE_PATTERN "FROM base AS final"
     = Some [Some "base"; Some " AS final"].
Proof.
  intros names.
  destruct (expectedImageNames_dotted platform tag v) as [B S].
  split; [now apply from_rejects_dotted|].
  split; [now apply from_rejects_dotted|].
  split; vm_compute; reflexivity.
Qed.

End ConstantsProperties.


(* ================================================================== *)
(** * The statements on the sample hosts *)
(* ================================================================== *)

Import Sample.

Lemma version_aware_image_selection_witness :
  is_platform "ASP.NET Core" /\ is_os (Some "Windows")
  /\ semver.parse (netCoreAppVersion "netcoreapp2.2") = Ok Sample.v2_2_0
  /\ resolveImageNames Sample.windows1809 "ASP.NET Core" (Some "Windows")
       "netcoreapp2.2"
     = Ok ("mcr.microsoft.com/dotnet/core/aspnet:2.2-nanoserver-1809",
           "mcr.microsoft.com/dotnet/core/sdk:2.2-nanoserver-1809").
Proof.
  split; [left; reflexivity|]. split; [left; reflexivity|].
  split; [reflexivity|].
  exact (proj2
           (proj1
              (version_aware_image_selection Sample.windows1809 "app/app"
                 "ASP.NET Core" (Some "Windows") (Some [80%Z; 443%Z])
                 "netcoreapp2.2" "app/app.csproj" Sample.v2_2_0
                 (or_introl eq_refl) (or_introl eq_refl) eq_refl)
              eq_refl)).
Defined.

Lemma os_specific_tag_resolution_witness :
  is_platform "ASP.NET Core" /\ is_os (Some "Windows")
  /\ semver.parse (netCoreAppVersion "netcoreapp2.2") = Ok Sample.v2_2_0
  /\ isWindows Sample.windows1809 = true
  /\ isWindows1019H1OrNewer Sample.windows1809 = false
  /\ isWindows10RS5OrNewer Sample.windows1809 = true
  /\ tagForWindowsVersion Sample.windows1809 (Some "Windows")
       (netCoreAppVersion "netcoreapp2.2") = Ok "-nanoserver-1809"
  /\ resolveImageNames Sample.windows1809 "ASP.NET Core" (Some "Windows")
       "netcoreapp2.2"
     = Ok ("mcr.microsoft.com/dotnet/core/aspnet:2.2-nanoserver-1809",
           "mcr.microsoft.com/dotnet/core/sdk:2.2-nanoserver-1809")
  /\ tagForWindowsVersion Sample.windows1607 (Some "Windows")
       (netCoreAppVersion "netcoreapp2.2") = Ok "-nanoserver-sac2016"
  /\ tagForWindowsVersion Sample.linux (Some "Windows")
       (netCoreAppVersion "netcoreapp2.2") = Ok "-nanoserver-1903"
  /\ tagForWindowsVersion Sample.windows1809 (Some "Linux")
       (netCoreAppVersion "netcoreapp2.2") = Ok EmptyString.
Proof.
  split; [left; reflexivity|]. split; [left; reflexivity|].
  split; [reflexivity|]. split; [reflexivity|]. split; [reflexivity|].
  split; [reflexivity|].
  destruct (os_specific_tag_resolution Sample.windows1809 "ASP.NET Core"
              (Some "Windows") "netcoreapp2.2" Sample.v2_2_0
              (or_introl eq_refl) (or_introl eq_refl) eq_refl)
    as (tag & T & R & _ & W).
  destruct (W eq_refl eq_refl) as (_ & _ & K).
  destruct (K eq_refl eq_refl) as (K5 & _).
  rewrite (K5 eq_refl) in T, R.
  split; [exact T|]. split; [exact R|].
  destruct (os_specific_tag_resolution Sample.windows1607 "ASP.NET Core"
              (Some "Windows") "netcoreapp2.2" Sample.v2_2_0
              (or_introl eq_refl) (or_introl eq_refl) eq_refl)
    as (tag6 & T6 & _ & _ & W6).
  destruct (W6 eq_refl eq_refl) as (_ & _ & K6).
  destruct (K6 eq_refl eq_refl) as (_ & _ & _ & Ks).
  rewrite (Ks eq_refl eq_refl eq_refl) in T6.
  split; [exact T6|].
  destruct (os_specific_tag_resolution Sample.linux "ASP.NET Core"
              (Some "Windows") "netcoreapp2.2" Sample.v2_2_0
              (or_introl eq_refl) (or_introl eq_refl) eq_refl)
    as (tagl & Tl & _ & _ & Wl).
  destruct (Wl eq_refl eq_refl) as (_ & Kl & _).
  rewrite (Kl (or_introl eq_refl)) in Tl.
  split; [exact Tl|].
  destruct (os_specific_tag_resolution Sample.windows1809 "ASP.NET Core"
              (Some "Linux") "netcoreapp2.2" Sample.v2_2_0
              (or_introl eq_refl) (or_intror eq_refl) eq_refl)
    as (tagx & Tx & _ & Lx & _).
  rewrite (Lx (or_introl eq_refl)) in Tx. exact Tx.
Defined.

Lemma template_tokens_substituted_witness :
  isWindows Sample.linux = false
  /\ is_platform "ASP.NET Core" /\ is_os (Some "Linux")
  /\ Str.lacks "$" "app/app" = true
  /\ Str.lacks "$" "app/app.csproj" = true
  /\ Str.lacks "$" (getExposeStatements (Some [80%Z; 443%Z])) = true
  /\ genDockerFile Sample.linux "app/app" "ASP.NET Core" (Some "Linux")
       (Some [80%Z; 443%Z]) "netcoreapp2.2" "app/app.csproj"
     = Ok (dockerfileText (Some "Linux")
             "mcr.microsoft.com/dotnet/core/aspnet:2.2"
             (getExposeStatements (Some [80%Z; 443%Z]))
             "mcr.microsoft.com/dotnet/core/sdk:2.2" "app" "app.csproj" "app"
             (copyCommand "app/app.csproj" "app")).
Proof.
  split; [reflexivity|].
  split; [left; reflexivity|]. split; [right; reflexivity|].
  split; [reflexivity|]. split; [reflexivity|]. split; [reflexivity|].
  exact (proj2
           (template_tokens_substituted Sample.linux "app/app" "ASP.NET Core"
              (Some "Linux") (Some [80%Z; 443%Z]) "netcoreapp2.2"
              "app/app.csproj")
           eq_refl (or_introl eq_refl) (or_intror eq_refl) eq_refl eq_refl
           eq_refl).
Defined.

(** C3. The unreplaced-token assertion is reached: for a project
    named [$x$], with a valid platform and target system, the service
    name is put in place of [$assembly_name$] as it is, the check of
    lines 252-255 takes it for a token, and [genDockerFile] throws. *)
Lemma unreplaced_token_assertion_reached :
  is_platform ".NET Core Console" /\ is_os (Some "Linux")
  /\ genDockerFile Sample.linux "app/$x$" ".NET Core Console" (Some "Linux")
       None "netcoreapp2.2" "app/$x$.csproj"
     = Throw (AssertionError
                ("Unreplaced template token " ++ quoted "$x$")).
Proof.
  split; [right; reflexivity|]. split; [right; reflexivity|].
  vm_compute. reflexivity.
Qed.

Lemma assembly_name_substitution_witness :
  isWindows Sample.linux = false
  /\ genDockerFile Sample.linux "app/app" "ASP.NET Core" (Some "Linux")
    (Some [80%Z; 443%Z]) "netcoreapp2.2" "app/app.csproj"
  = Ok Sample.dockerfile
  /\ Str.lacks "$" (path.basename "app/app") = true
  /\ Str.ends_with Sample.dockerfile (Str.newline ++ finalStage "app").
Proof.
  split; [reflexivity|].
  split; [vm_compute; reflexivity|]. split; [reflexivity|].
  assert (G : genDockerFile Sample.linux "app/app" "ASP.NET Core"
                (Some "Linux") (Some [80%Z; 443%Z]) "netcoreapp2.2"
                "app/app.csproj" = Ok Sample.dockerfile)
    by (vm_compute; reflexivity).
  exact (proj1
           (assembly_name_substitution Sample.linux "app/app" "ASP.NET Core"
              (Some "Linux") (Some [80%Z; 443%Z]) "netcoreapp2.2"
              "app/app.csproj" Sample.dockerfile eq_refl G eq_refl)).
Defined.

(** C8. The entry point does not name the service: for the project
    [app/My$$App] the service name is the replacement pattern of
    [replace], in which [$$] stands for one [$], and the entry point
    names [My$App.dll], which is not the base name of the service
    path. *)
Lemma assembly_name_with_dollars :
  genDockerFile Sample.linux "app/My$$App" "ASP.NET Core" (Some "Linux")
    None "netcoreapp2.2" "app/My$$App.csproj"
  = Ok Sample.dollarsDockerfile
  /\ path.basename "app/My$$App" = "My$$App"
  /\ Str.ends_with Sample.dollarsDockerfile (Str.newline ++ finalStage "My$App")
  /\ ~ Str.ends_with Sample.dollarsDockerfile
         (Str.newline ++ finalStage (path.basename "app/My$$App")).
Proof.
  split; [vm_compute; reflexivity|]. split; [reflexivity|]. split.
  - exists (Str.take
              (length Sample.dollarsDockerfile
               - length (Str.newline ++ finalStage "My$App"))
              Sample.dollarsDockerfile).
    vm_compute. reflexivity.
  - intros E. apply StrFacts.ends_with_drop in E.
    vm_compute in E. discriminate.
Qed.

Lemma version_parsing_defaults_witness :
  is_platform "ASP.NET Core" /\ is_os (Some "Linux")
  /\ RegExp.test targetFrameworkVersionRegExp "net5.0" = false
  /\ RegExp.test targetFrameworkElementRegExp "<Project></Project>" = false
  /\ netCoreAppVersion "net5.0" = "2.1.0"
  /\ resolveImageNames Sample.linux "ASP.NET Core" (Some "Linux") "net5.0"
     = Ok ("mcr.microsoft.com/dotnet/core/aspnet:2.1",
           "mcr.microsoft.com/dotnet/core/sdk:2.1")
  /\ netCoreAppVersion "netcoreapp3.1" = "3.1.0".
Proof.
  split; [left; reflexivity|]. split; [right; reflexivity|].
  split; [reflexivity|]. split; [reflexivity|].
  destruct (version_parsing_defaults Sample.linux "ASP.NET Core"
              (Some "Linux") "net5.0" "<Project></Project>" "3" "1"
              (or_introl eq_refl) (or_intror eq_refl) eq_refl eq_refl)
    as (V & R & _ & _ & M); try discriminate; try reflexivity.
  split; [exact V|]. split; [exact R | exact M].
Defined.


Lemma scaffolding_output_witness :
  snd (scaffoldNetCore Sample.linux Sample.context Sample.telemetry)
  = Ok Sample.files
  /\ map fileName Sample.files = ["app/Dockerfile"; ".dockerignore"]
  /\ exists projectFile dockerFileContents,
       found_project "/work" = Ok projectFile
       /\ Sample.files
          = [ {| fileName := path_join (path.dirname projectFile) "Dockerfile";
                 contents := dockerFileContents;
                 open := Some true |};
              {| fileName := path_join EmptyString ".dockerignore";
                 contents := genCommonDockerIgnoreFile "ASP.NET Core";
                 open := None |} ].
Proof.
  split; [vm_compute; reflexivity|]. split; [vm_compute; reflexivity|].
  assert (S : snd (scaffoldNetCore Sample.linux Sample.context
                     Sample.telemetry) = Ok Sample.files)
    by (vm_compute; reflexivity).
  destruct (scaffolding_output Sample.linux Sample.context Sample.telemetry
              Sample.files S) as (proj & dfc & F & E & _).
  exists proj, dfc. split; [exact F | exact E].
Defined.

Lemma unexpected_os_rejected_witness :
  ~ is_os (Some "Darwin")
  /\ genDockerFile Sample.linux "app/app" "ASP.NET Core" (Some "Darwin") None
       "netcoreapp2.2" "app/app.csproj"
     = Throw (Error ("Unexpected OS " ++ quoted "Darwin"))
  /\ snd (scaffoldNetCore (workspace := Sample.workspace_darwin) Sample.linux
            Sample.context_without_os Sample.telemetry)
     = Throw (Error ("Unexpected OS " ++ quoted "Darwin")).
Proof.
  assert (N : ~ is_os (Some "Darwin"))
    by (intros [E | E]; discriminate).
  split; [exact N|].
  destruct (unexpected_os_rejected (workspace := Sample.workspace_darwin)
              Sample.linux "app/app" "ASP.NET Core" (Some "Darwin") None
              "netcoreapp2.2" "app/app.csproj" Sample.context_without_os
              Sample.telemetry N) as [G K].
  split; [exact G|].
  destruct (K eq_refl) as [_ R].
  exact (R None "app/app.csproj" Sample.projectFile eq_refl eq_refl eq_refl).
Defined.

(** The poll on the sample hosts. *)
Example poll_never_installed :
  @AzureAccount.refreshNodeWhenAzureExtensionIsInstalled
    Sample.never_installed 601
  = Some {| AzureAccount.now := 601000; AzureAccount.timedout := true;
            AzureAccount.isExtensionInstalled := false;
            AzureAccount.iterations := 601; AzureAccount.refreshes := 0 |}.
Proof. vm_compute. reflexivity. Qed.

Example poll_out_of_fuel :
  @AzureAccount.refreshNodeWhenAzureExtensionIsInstalled
    Sample.never_installed 600 = None.
Proof. vm_compute. reflexivity. Qed.

Example poll_installed_at_third_check :
  @AzureAccount.refreshNodeWhenAzureExtensionIsInstalled
    Sample.installed_at_third_check 601
  = Some {| AzureAccount.now := 3003; AzureAccount.timedout := false;
            AzureAccount.isExtensionInstalled := true;
            AzureAccount.iterations := 3; AzureAccount.refreshes := 1 |}.
Proof. vm_compute. reflexivity. Qed.

(** The library functions on small inputs. *)
Example basename_examples :
  (path.basename "app/My.App", path.basename "a/b/", path.basename "/",
   path.basename "x")
  = ("My.App", "b", EmptyString, "x").
Proof. reflexivity. Qed.

Example dirname_examples :
  (path.dirname "app/My.App", path.dirname "x", path.dirname "/a",
   path.dirname "a//b", path.dirname "//a", path.dirname "a/b/",
   path.dirname EmptyString)
  = ("app", ".", "/", "a/", "//", "a", ".").
Proof. reflexivity. Qed.

Example extname_examples :
  (path.extname "app/app.csproj", path.extname ".bashrc", path.extname "..",
   path.extname "a.b.c", path.extname "a.")
  = (".csproj", EmptyString, EmptyString, ".c", ".").
Proof. reflexivity. Qed.

Example replace_first_only :
  JS.replace "{0}" "2" "a{0}b{0}" = "a2b{0}".
Proof. reflexivity. Qed.

Example replaceAll_dollar_patterns :
  JS.replaceAll "$t$" "[$$|$&|$`|$'|$1]" "a$t$b" = "a[$|$t$|a|b|$1]b".
Proof. reflexivity. Qed.

Example netCoreAppVersion_examples :
  (netCoreAppVersion "netcoreapp3.1", netCoreAppVersion "netcoreapp2.0.9",
   netCoreAppVersion "net5.0", netCoreAppVersion EmptyString,
   netCoreAppVersion "netcoreapp2")
  = ("3.1.0", "2.0.9", "2.1.0", "2.1.0", "2").
Proof. reflexivity. Qed.

Example semver_examples :
  (semver.parse "2.1.0", semver.parse "2", semver.parse "2.01.0")
  = (Ok v2_1_0, Throw (TypeError "Invalid Version: 2"),
     Throw (TypeError "Invalid Version: 2.01.0")).
Proof. reflexivity. Qed.

Example targetFramework_element_example :
  extractRegExGroups Sample.projectFile targetFrameworkElementRegExp
    [EmptyString]
  = ["netcoreapp2.2"].
Proof. vm_compute. reflexivity. Qed.

Example collapseRuns_example :
  collapseRuns "a" "aa" "xaaaaaay" = "xaaaay".
Proof. reflexivity. Qed.

(* ================================================================== *)
(** * The further statements on the sample hosts *)
(* ================================================================== *)

Lemma unknown_platform_asserted_witness :
  ~ is_platform "Node.js" /\ is_os (Some "Linux")
  /\ genDockerFile Sample.linux "app/app" "Node.js" (Some "Linux") None
       "netcoreapp2.2" "app/app.csproj"
     = Throw (AssertionError "Unknown platform").
Proof.
  assert (N : ~ is_platform "Node.js") by (intros [E | E]; discriminate).
  split; [exact N|]. split; [right; reflexivity|].
  exact (proj1
           (unknown_platform_asserted Sample.linux "app/app" "Node.js"
              (Some "Linux") None "netcoreapp2.2" "app/app.csproj")
           N (or_intror eq_refl)).
Defined.

Lemma patch_number_ignored_witness :
  semver.parse (netCoreAppVersion "netcoreapp2.2") = Ok Sample.v2_2_0
  /\ semver.parse (netCoreAppVersion "netcoreapp2.2.7")
     = Ok {| semver.major := 2; semver.minor := 2; semver.patch := 7 |}
  /\ genDockerFile Sample.linux "app/app" "ASP.NET Core" (Some "Linux") None
       "netcoreapp2.2" "app/app.csproj"
     = genDockerFile Sample.linux "app/app" "ASP.NET Core" (Some "Linux") None
         "netcoreapp2.2.7" "app/app.csproj".
Proof.
  split; [reflexivity|]. split; [reflexivity|].
  exact (patch_number_ignored Sample.linux "app/app" "ASP.NET Core"
           (Some "Linux") None "netcoreapp2.2" "netcoreapp2.2.7"
           "app/app.csproj" Sample.v2_2_0
           {| semver.major := 2; semver.minor := 2; semver.patch := 7 |}
           eq_refl eq_refl eq_refl eq_refl).
Defined.

Lemma target_framework_without_minor_witness :
  is_os (Some "Linux") /\ "3" <> EmptyString
  /\ Str.all RegExp.digit "3" = true /\ (length "3" <= 256)%nat
  /\ genDockerFile Sample.linux "app/app" "ASP.NET Core" (Some "Linux") None
       "netcoreapp3" "app/app.csproj"
     = Throw (TypeError "Invalid Version: 3").
Proof.
  assert (N : "3" <> EmptyString) by discriminate.
  assert (L : (length "3" <= 256)%nat) by (cbn; lia).
  split; [right; reflexivity|]. split; [exact N|].
  split; [reflexivity|]. split; [exact L|].
  exact (proj2
           (target_framework_without_minor Sample.linux "app/app"
              "ASP.NET Core" (Some "Linux") None "3" "app/app.csproj"
              (or_intror eq_refl) N eq_refl L)).
Defined.

Lemma image_names_repeat_version_witness :
  is_platform "ASP.NET Core"
  /\ semver.numeric "3" = Some 3%N /\ semver.numeric "1" = Some 1%N
  /\ resolveImageNames Sample.linux "ASP.NET Core" (Some "Linux")
       "netcoreapp3.1"
     = Ok ("mcr.microsoft.com/dotnet/core/aspnet:3.1",
           "mcr.microsoft.com/dotnet/core/sdk:3.1").
Proof.
  assert (A : (3 <= semver.MAX_SAFE_INTEGER)%N) by (vm_compute; discriminate).
  assert (B : (1 <= semver.MAX_SAFE_INTEGER)%N) by (vm_compute; discriminate).
  assert (L : (length "3" + length "1" <= 253)%nat) by (cbn; lia).
  split; [left; reflexivity|]. split; [reflexivity|].
  split; [reflexivity|].
  exact (proj1
           (image_names_repeat_version Sample.linux "ASP.NET Core"
              (Some "Linux") "3" "1" 3%N 1%N (or_introl eq_refl) eq_refl
              eq_refl A B L)).
Defined.

Lemma service_path_decomposed_witness :
  isWindows Sample.linux = false
  /\ is_platform "ASP.NET Core" /\ is_os (Some "Linux")
  /\ Str.lacks "/" "app" = true
  /\ semver.parse (netCoreAppVersion "netcoreapp2.2") = Ok Sample.v2_2_0
  /\ genDockerFile Sample.linux "src/app" "ASP.NET Core" (Some "Linux") None
       "netcoreapp2.2" "src/app.csproj"
     = Ok (dockerfileText (Some "Linux")
             "mcr.microsoft.com/dotnet/core/aspnet:2.2" EmptyString
             "mcr.microsoft.com/dotnet/core/sdk:2.2" "src" "app.csproj" "app"
             (copyCommand "src/app.csproj" "src"))
  /\ genDockerFile Sample.linux "app" "ASP.NET Core" (Some "Linux") None
       "netcoreapp2.2" "app.csproj"
     = Ok (dockerfileText (Some "Linux")
             "mcr.microsoft.com/dotnet/core/aspnet:2.2" EmptyString
             "mcr.microsoft.com/dotnet/core/sdk:2.2" "." "app.csproj" "app"
             (copyCommand "app.csproj" ".")).
Proof.
  assert (N : "app" <> EmptyString) by discriminate.
  assert (Nf : "src" <> EmptyString) by discriminate.
  assert (Nr : "src" <> "/") by discriminate.
  split; [reflexivity|].
  split; [left; reflexivity|]. split; [right; reflexivity|].
  split; [reflexivity|]. split; [reflexivity|]. split.
  - exact (proj1
             (service_path_decomposed Sample.linux "src" "app" "ASP.NET Core"
                (Some "Linux") None "netcoreapp2.2" "src/app.csproj"
                Sample.v2_2_0 eq_refl (or_introl eq_refl) (or_intror eq_refl)
                N
                eq_refl eq_refl eq_refl eq_refl eq_refl eq_refl)
             Nf Nr).
  - exact (proj2
             (service_path_decomposed Sample.linux "src" "app" "ASP.NET Core"
                (Some "Linux") None "netcoreapp2.2" "app.csproj"
                Sample.v2_2_0 eq_refl (or_introl eq_refl) (or_intror eq_refl)
                N
                eq_refl eq_refl eq_refl eq_refl eq_refl eq_refl)).
Defined.

Lemma service_path_drops_extension_witness :
  "p"%char <> "/"%char /\ "csproj" <> EmptyString
  /\ path.extname "app/app.csproj" = ".csproj"
  /\ slice_to_minus "app/app.csproj" (length (path.extname "app/app.csproj"))
     = "app/app".
Proof.
  assert (C : "p"%char <> "/"%char) by discriminate.
  assert (N : "csproj" <> EmptyString) by discriminate.
  split; [exact C|]. split; [exact N|].
  destruct (service_path_drops_extension "app/ap" "p" "csproj" C N eq_refl
              eq_refl) as (E & S & _).
  split; [exact E | exact S].
Defined.

Lemma blank_line_runs_collapsed_witness :
  Str.lacks (ascii_of_nat 13) ("WORKDIR /ap" ++ String "p" "FROM x") = true
  /\ "p"%char <> ascii_of_nat 10
  /\ prefix Str.newline "FROM x" = false
  /\ collapseBlankLines ("WORKDIR /ap" ++ String "p" (lineFeeds 3 ++ "FROM x"))
     = "WORKDIR /app" ++ lineFeeds 2 ++ "FROM x".
Proof.
  assert (C : "p"%char <> ascii_of_nat 10) by discriminate.
  split; [reflexivity|]. split; [exact C|]. split; [reflexivity|].
  exact (proj1
           (proj2
              (blank_line_runs_collapsed "WORKDIR /ap" "p" 3 "FROM x" eq_refl
                 C eq_refl))).
Defined.

Lemma scaffoldNetCore_succeeds_iff_witness :
  exists t' dockerFile,
    scaffoldNetCore Sample.linux Sample.context Sample.telemetry
    = (t', Ok Sample.files)
    /\ genDockerFile Sample.linux "app/app" "ASP.NET Core" (Some "Linux")
         (Some [80%Z; 443%Z]) "netcoreapp2.2" "app/app.csproj"
       = Ok dockerFile
    /\ Sample.files
       = expectedFiles Sample.context "app/app.csproj"
           (collapseBlankLines dockerFile)
    /\ t' = {| configureOs := Some "Linux";
               packageFileType := Some ".csproj";
               packageFileSubfolderDepth := Some "1" |}.
Proof.
  assert (S : scaffoldNetCore Sample.linux Sample.context Sample.telemetry
              = (telemetryOf Sample.context (Some "Linux") "app/app.csproj",
                 Ok Sample.files))
    by (vm_compute; reflexivity).
  destruct (proj1
              (scaffoldNetCore_succeeds_iff Sample.linux Sample.context
                 Sample.telemetry _ Sample.files) S)
    as (os & ports & f & pc & df & Eo & Ep & Ef & Er & G & _ & F & T).
  injection Eo as <-. injection Ep as <-. injection Ef as <-.
  injection Er as <-.
  exists (telemetryOf Sample.context (Some "Linux") "app/app.csproj"), df.
  split; [exact S|]. split; [exact G|]. split; [exact F | reflexivity].
Defined.

Lemma debugging_initialised_with_context_os_witness :
  context_initializeForDebugging MoreSamples.context_debugging = true
  /\ context_os MoreSamples.context_debugging = None
  /\ effective_os MoreSamples.context_debugging = Ok (Some "Linux")
  /\ exists files dockerfile project,
       snd (scaffoldNetCore Sample.linux MoreSamples.context_debugging
              Sample.telemetry) = Ok files
       /\ initializeNetCoreForDebugging dockerfile project None = Ok tt.
Proof.
  split; [reflexivity|]. split; [reflexivity|]. split; [reflexivity|].
  destruct (scaffoldNetCore Sample.linux MoreSamples.context_debugging
              Sample.telemetry) as [t' [files|e]] eqn:S;
    [|vm_compute in S; discriminate].
  destruct (debugging_initialised_with_context_os Sample.linux
              MoreSamples.context_debugging Sample.telemetry t' files
              eq_refl S) as (f & _ & I).
  exists files. eexists. eexists. split; [reflexivity | exact I].
Defined.

Lemma project_file_required_witness :
  effective_os (workspace := MoreSamples.workspace_without_project)
    Sample.context = Ok (Some "Linux")
  /\ globAsync (Workspace := MoreSamples.workspace_without_project)
       "**/*.@(c|f)sproj" "/work" = Ok []
  /\ exists msg,
       snd (scaffoldNetCore
              (workspace := MoreSamples.workspace_without_project)
              Sample.linux Sample.context Sample.telemetry)
       = Throw (Error msg)
       /\ prefix "No .csproj or .fsproj file could be found." msg = true.
Proof.
  split; [reflexivity|]. split; [reflexivity|].
  eexists. split.
  - exact (project_file_required
             (workspace := MoreSamples.workspace_without_project)
             Sample.linux Sample.context Sample.telemetry (Some "Linux")
             (Some [80%Z; 443%Z]) eq_refl eq_refl eq_refl).
  - reflexivity.
Defined.

Lemma prompts_not_consulted_witness :
  same_but_prompts Sample.workspace Sample.workspace_darwin
  /\ @promptForOS Sample.workspace <> @promptForOS Sample.workspace_darwin
  /\ @scaffoldNetCore _ _ _ Sample.workspace Sample.linux Sample.context
       Sample.telemetry
     = @scaffoldNetCore _ _ _ Sample.workspace_darwin Sample.linux
         Sample.context Sample.telemetry.
Proof.
  assert (W : same_but_prompts Sample.workspace Sample.workspace_darwin)
    by (repeat split; reflexivity).
  assert (O : context_os Sample.context <> None) by discriminate.
  assert (P : context_ports Sample.context <> None
              \/ context_platform Sample.context <> "ASP.NET Core")
    by (left; discriminate).
  split; [exact W|]. split; [discriminate|].
  exact (prompts_not_consulted Sample.workspace Sample.workspace_darwin
           Sample.linux Sample.context Sample.telemetry W O P).
Defined.

Lemma poll_lasts_ten_minutes_witness :
  exists st,
    @AzureAccount.refreshNodeWhenAzureExtensionIsInstalled
      Sample.never_installed 601 = Some st
    /\ AzureAccount.isExtensionInstalled st = false
    /\ AzureAccount.timedout st = true
    /\ (600000 <= AzureAccount.now st)%N
    /\ AzureAccount.refreshes st = 0%nat.
Proof.
  exists {| AzureAccount.now := 601000; AzureAccount.timedout := true;
            AzureAccount.isExtensionInstalled := false;
            AzureAccount.iterations := 601; AzureAccount.refreshes := 0 |}.
  assert (R : @AzureAccount.refreshNodeWhenAzureExtensionIsInstalled
                Sample.never_installed 601
              = Some {| AzureAccount.now := 601000;
                        AzureAccount.timedout := true;
                        AzureAccount.isExtensionInstalled := false;
                        AzureAccount.iterations := 601;
                        AzureAccount.refreshes := 0 |})
    by (vm_compute; reflexivity).
  split; [exact R|]. split; [reflexivity|].
  exact (poll_lasts_ten_minutes (timers := Sample.never_installed) 601 _ R
           eq_refl).
Defined.

Lemma poll_finds_extension_witness :
  @punctual MoreSamples.found_by_third_check
  /\ @first_found_at MoreSamples.found_by_third_check 2
  /\ exists st,
       @AzureAccount.refreshNodeWhenAzureExtensionIsInstalled
         MoreSamples.found_by_third_check 3 = Some st
       /\ AzureAccount.iterations st = 3%nat
       /\ AzureAccount.now st = 3000%N
       /\ AzureAccount.refreshes st = 1%nat.
Proof.
  assert (P : @punctual MoreSamples.found_by_third_check)
    by (intros k; reflexivity).
  assert (F : @first_found_at MoreSamples.found_by_third_check 2).
  { split; [reflexivity|]. intros [|[|j]] J; try reflexivity. lia. }
  assert (K : (2 < 600)%nat) by lia.
  split; [exact P|]. split; [exact F|].
  destruct (poll_finds_extension (timers := MoreSamples.found_by_third_check)
              2 P F K) as (st & L & It & T & _ & R).
  exists st. split; [exact (L 0%nat)|].
  split; [exact It|]. split; [exact T | exact R].
Defined.

Lemma refresh_needs_install_item_witness :
  exists st,
    snd (AzureAccountTree.loadMoreChildrenImpl
           (timers := MoreSamples.found_by_third_check) 3
           (Ok [MoreSamples.install_item]))
    = Some (Some st)
    /\ AzureAccount.refreshes st
       = (if AzureAccount.isExtensionInstalled st then 1 else 0)%nat.
Proof.
  destruct (snd (AzureAccountTree.loadMoreChildrenImpl
                   (timers := MoreSamples.found_by_third_check) 3
                   (Ok [MoreSamples.install_item])))
    as [[st|]|] eqn:S; try (vm_compute in S; discriminate).
  exists st. split; [reflexivity|].
  exact (proj2
           (proj1
              (proj2
                 (refresh_needs_install_item
                    (timers := MoreSamples.found_by_third_check) 3
                    (Ok [MoreSamples.install_item])))
              st S)).
Defined.

Lemma imageTag_accepted_iff_witness :
  Pattern.test constants.imageTagRegExp
    "mcr.microsoft.com/dotnet/core/sdk:2.1" = true.
Proof.
  apply (proj2
           (imageTag_accepted_iff "mcr.microsoft.com/dotnet/core/sdk:2.1")).
  exists "mcr.microsoft.com/dotnet/core/sdk", "2.1".
  split; [reflexivity|]. split; [cbn; lia|]. split; [cbn; lia|].
  split; [reflexivity|]. split; reflexivity.
Defined.

Lemma imageTag_rejects_hyphen_witness :
  Pattern.test constants.imageTagRegExp "myrepo:latest" = true
  /\ Str.lacks "-" "myrepo:latest" = true
  /\ Pattern.test constants.imageTagRegExp "my-repo:latest" = false.
Proof.
  split; [reflexivity|]. split; [|reflexivity].
  exact (proj2 (imageTag_rejects_hyphen "myrepo:latest" eq_refl)).
Defined.

Lemma from_directive_groups_witness :
  "build" <> EmptyString
  /\ Str.all constants.imageClass "build" = true
  /\ Pattern.match_groups constants.FROM_DIRECTIVE_PATTERN
       "FROM build AS publish"
     = Some [Some "build"; Some " AS publish"].
Proof.
  assert (N : "build" <> EmptyString) by discriminate.
  split; [exact N|]. split; [reflexivity|].
  exact (proj2
           (from_directive_groups "build" "ublish" "p" N eq_refl eq_refl
              eq_refl)).
Defined.

Lemma from_directive_rejects_dotted_image_witness :
  Str.lacks "." "mcr.microsoft.com/dotnet/core/sdk:2.1" = false
  /\ Pattern.test constants.FROM_DIRECTIVE_PATTERN
       "FROM mcr.microsoft.com/dotnet/core/sdk:2.1 AS build" = false.
Proof.
  split; [reflexivity|].
  exact (from_directive_rejects_dotted_image
           "mcr.microsoft.com/dotnet/core/sdk:2.1" "build" eq_refl).
Defined.


Lemma empty_output_folder_witness :
  context_outputFolder MoreSamples.context_empty_output = Some EmptyString
  /\ exists t' files,
       scaffoldNetCore Sample.linux MoreSamples.context_empty_output
         Sample.telemetry
       = (t', Ok files)
       /\ map fileName files = ["Dockerfile"; ".dockerignore"].
Proof.
  split; [reflexivity|].
  destruct (scaffoldNetCore Sample.linux MoreSamples.context_empty_output
              Sample.telemetry) as [t' [files|e]] eqn:S;
    [|vm_compute in S; discriminate].
  exists t', files. split; [reflexivity|].
  destruct (empty_output_folder Sample.linux MoreSamples.context_empty_output
              Sample.telemetry t' files eq_refl S)
    as (_ & _ & _ & _ & _ & _ & _ & F).
  exact F.
Defined.

